(** * SmartLedger bill service: shallow embedding and verification

    The development follows the layout of the repository:

    - [PyStr], [PyFloat], [PyDatetime]: the fragments of the Python
      built-ins the handlers rely on ([str.strip], [str.replace],
      [float], [round], [datetime.strptime], [datetime.strftime],
      [timedelta] addition);
    - [Db]: the two SQLite tables and the functions of [bills/db.py];
    - [Services]: what the three parser services return
      ([services/qwen.py], [services/baidu_qwen.py], [services/llm.py]);
    - [App]: the request handlers of [interface/app.py].

    Handlers are state-passing functions: they take the database, the
    reading of the clock and the request, and return the response paired
    with the new database.  An exception raised by Python code is a value
    of type [exn]; an [HTTPException] is a response carrying its status
    code. *)

From Stdlib Require Import ZArith Lia Bool List Ascii String.
From stdpp Require Import gmap strings list.

Local Open Scope Z_scope.

(** ** Strings *)

Module PyStr.

(** [str.isspace] on the ASCII range: TAB..CR, FS..US and the space.
    Text outside ASCII is carried as its UTF-8 bytes; none of those
    bytes is a space here. *)
Definition isspace (c : ascii) : bool :=
  let n := Z.of_N (N_of_ascii c) in
  ((9 <=? n) && (n <=? 13)) || ((28 <=? n) && (n <=? 32)).

Fixpoint lstrip (s : string) : string :=
  match s with
  | EmptyString => EmptyString
  | String c s' => if isspace c then lstrip s' else s
  end.

Fixpoint rstrip (s : string) : string :=
  match s with
  | EmptyString => EmptyString
  | String c s' =>
      match rstrip s' with
      | EmptyString => if isspace c then EmptyString else String c EmptyString
      | t => String c t
      end
  end.

(** [s.strip()] *)
Definition strip (s : string) : string := rstrip (lstrip s).

(** [s.replace(old, "")] for a non-empty [old]: the occurrences of
    [old] are deleted, scanning from the left and never overlapping.
    [skip] counts the characters of a match still to be dropped. *)
Fixpoint remove_from (old : string) (skip : nat) (s : string) : string :=
  match s with
  | EmptyString => EmptyString
  | String c s' =>
      match skip with
      | S k => remove_from old k s'
      | O =>
          if String.prefix old s
          then remove_from old (Nat.pred (String.length old)) s'
          else String c (remove_from old O s')
      end
  end.

Definition remove (old s : string) : string := remove_from old O s.

(** A decimal digit and its value. *)
Definition digit (c : ascii) : option Z :=
  let n := Z.of_N (N_of_ascii c) in
  if (48 <=? n) && (n <=? 57) then Some (n - 48) else None.

Definition isdigit (c : ascii) : bool :=
  match digit c with Some _ => true | None => false end.

(** The longest run of digits at the head of [s], and what follows. *)
Fixpoint take_digits (s : string) : list Z * string :=
  match s with
  | EmptyString => ([], EmptyString)
  | String c s' =>
      match digit c with
      | Some d => let '(ds, r) := take_digits s' in (d :: ds, r)
      | None => ([], s)
      end
  end.

(** Value of a digit sequence, most significant digit first. *)
Definition digits_val (ds : list Z) : Z :=
  fold_left (fun acc d => 10 * acc + d) ds 0.

(** ASCII lower-casing, for the case-insensitive literals of [float]. *)
Definition lower (c : ascii) : ascii :=
  let n := N_of_ascii c in
  if ((65 <=? n) && (n <=? 90))%N then ascii_of_N (n + 32) else c.

Fixpoint lower_str (s : string) : string :=
  match s with
  | EmptyString => EmptyString
  | String c s' => String (lower c) (lower_str s')
  end.

Definition digit_char (d : Z) : ascii := ascii_of_N (Z.to_N (48 + d)).

(** Decimal numeral of a natural number, [fuel] bounding the number of
    digits produced. *)
Fixpoint numeral_aux (fuel : nat) (n : Z) (acc : string) : string :=
  match fuel with
  | O => acc
  | S k =>
      let acc' := String (digit_char (n mod 10)) acc in
      if n <? 10 then acc' else numeral_aux k (n / 10) acc'
  end.

(** [str(n)] for [0 <= n]. *)
Definition numeral (n : Z) : string :=
  numeral_aux (S (Z.to_nat (Z.log2 n))) n EmptyString.

(** [n] written with at least [w] digits, padded with zeros on the left
    (the [%02d] and [%04d] of the C library). *)
Fixpoint zeros (k : nat) : string :=
  match k with O => EmptyString | S k' => String "0"%char (zeros k') end.

Definition zpad (w : nat) (n : Z) : string :=
  let s := numeral n in
  (zeros (w - String.length s) ++ s)%string.

End PyStr.

(** ** Floats

    A Python [float] is an IEEE 754 binary64 number.  A finite non-zero
    one is kept as sign, mantissa and binary exponent in canonical form:
    its value is [m * 2 ^ e] with [2^52 <= m < 2^53] and
    [-1074 <= e <= 971], or [m < 2^52] and [e = -1074] (subnormal). *)

Module PyFloat.

Inductive pyfloat : Type :=
| FNan
| FInf (neg : bool)
| FZero (neg : bool)
| FFin (neg : bool) (m : positive) (e : Z).

(** Nearest integer to [n / d], ties to the even one ([0 <= n], [0 < d]). *)
Definition round_half_even (n d : Z) : Z :=
  let q := n / d in
  let r := n mod d in
  if 2 * r <? d then q
  else if d <? 2 * r then q + 1
  else if Z.even q then q else q + 1.

(** [p / q] scaled by [2 ^ (- e)], as a fraction. *)
Definition scaled (p q e : Z) : Z * Z :=
  if 0 <=? e then (p, q * 2 ^ e) else (p * 2 ^ (- e), q).

(** The binary64 number nearest to [p / q] ([0 < p], [0 < q]), ties to
    even, with gradual underflow and overflow to infinity: what a
    correctly rounded [strtod] returns. *)
Definition of_ratio (neg : bool) (p q : Z) : pyfloat :=
  let e0 := Z.max (-1074) (Z.log2 p - Z.log2 q - 53) in
  let '(n0, d0) := scaled p q e0 in
  let e1 := if 2 ^ 53 <=? n0 / d0 then e0 + 1 else e0 in
  let '(n1, d1) := scaled p q e1 in
  let m := round_half_even n1 d1 in
  if m =? 0 then FZero neg
  else
    let '(m', e') := if m =? 2 ^ 53 then (2 ^ 52, e1 + 1) else (m, e1) in
    if 971 <? e' then FInf neg else FFin neg (Z.to_pos m') e'.

(** The float denoted by the decimal [d * 10 ^ k] ([0 <= d]). *)
Definition of_decimal (neg : bool) (d k : Z) : pyfloat :=
  if d =? 0 then FZero neg
  else if 0 <=? k then of_ratio neg (d * 10 ^ k) 1
  else of_ratio neg d (10 ^ (- k)).

(** [float(n)] for a Python [int]. *)
Definition of_int (n : Z) : pyfloat :=
  of_decimal (n <? 0) (Z.abs n) 0.

(** Exact value of a finite non-zero float, as a fraction. *)
Definition ratio_of (m : positive) (e : Z) : Z * Z :=
  if 0 <=? e then (Z.pos m * 2 ^ e, 1) else (Z.pos m, 2 ^ (- e)).

(** [x <= 0]; any comparison with a NaN is false. *)
Definition le_zero (x : pyfloat) : bool :=
  match x with
  | FNan => false
  | FInf neg => neg
  | FZero _ => true
  | FFin neg _ _ => neg
  end.

(** Hundredths nearest to [|x|], ties to even, for a finite [x]. *)
Definition cents (m : positive) (e : Z) : Z :=
  let '(n, d) := ratio_of m e in round_half_even (100 * n) d.

(** [round(x, 2)]: NaN and the infinities round to themselves; a finite
    [x] is rounded to two decimals on its exact value, ties to even, and
    the decimal obtained is converted back to the nearest float. *)
Definition round2 (x : pyfloat) : pyfloat :=
  match x with
  | FFin neg m e =>
      let c := cents m e in
      if c =? 0 then FZero neg else of_ratio neg c 100
  | _ => x
  end.

(** [f"{x:.2f}"] *)
Definition format_2f (x : pyfloat) : string :=
  let sign (neg : bool) : string := if neg then "-"%string else EmptyString in
  let fixed (c : Z) : string :=
    (PyStr.numeral (c / 100) ++ "." ++ PyStr.zpad 2 (c mod 100))%string in
  match x with
  | FNan => "nan"%string
  | FInf neg => (sign neg ++ "inf")%string
  | FZero neg => (sign neg ++ "0.00")%string
  | FFin neg m e => (sign neg ++ fixed (cents m e))%string
  end.

(** The literals [inf], [infinity] and [nan], signed, in any case. *)
Definition parse_inf_or_nan (s : string) : option pyfloat :=
  let '(neg, body) :=
    match s with
    | String "-"%char r => (true, r)
    | String "+"%char r => (false, r)
    | _ => (false, s)
    end in
  let b := PyStr.lower_str body in
  if (String.eqb b "inf" || String.eqb b "infinity")%string then Some (FInf neg)
  else if String.eqb b "nan" then Some FNan
  else None.

(** The exponent part: empty, or [e] or [E], an optional sign and at
    least one digit, up to the end of the text. *)
Definition parse_exponent (s : string) : option Z :=
  match s with
  | EmptyString => Some 0
  | String c r =>
      if (Ascii.eqb c "e" || Ascii.eqb c "E")%char then
        let '(neg, r') :=
          match r with
          | String "-"%char t => (true, t)
          | String "+"%char t => (false, t)
          | _ => (false, r)
          end in
        match PyStr.take_digits r' with
        | (d :: ds, EmptyString) =>
            let k := PyStr.digits_val (d :: ds) in
            Some (if neg then - k else k)
        | _ => None
        end
      else None
  end.

(** A decimal numeral: sign, digits, optional point and digits (at
    least one digit in all), optional exponent. *)
Definition parse_decimal (s : string) : option pyfloat :=
  let '(neg, s1) :=
    match s with
    | String "-"%char r => (true, r)
    | String "+"%char r => (false, r)
    | _ => (false, s)
    end in
  let '(ip, s2) := PyStr.take_digits s1 in
  let '(fp, s3) :=
    match s2 with
    | String "."%char r => PyStr.take_digits r
    | _ => ([], s2)
    end in
  match ip ++ fp with
  | [] => None
  | ds =>
      match parse_exponent s3 with
      | Some k => Some (of_decimal neg (PyStr.digits_val ds) (k - Z.of_nat (length fp)))
      | None => None
      end
  end.

(** Underscores may only stand between two digits; they are dropped
    before the numeral is read.  [prev] is the character before. *)
Fixpoint strip_underscores (prev : ascii) (s : string) : option string :=
  match s with
  | EmptyString =>
      if Ascii.eqb prev "_"%char then None else Some EmptyString
  | String c s' =>
      if Ascii.eqb c "_"%char then
        if PyStr.isdigit prev then strip_underscores c s' else None
      else if Ascii.eqb prev "_"%char && negb (PyStr.isdigit c) then None
      else
        match strip_underscores c s' with
        | Some t => Some (String c t)
        | None => None
        end
  end.

(** [float(s)] for a [str]: [None] stands for the [ValueError]. *)
Definition of_string (s : string) : option pyfloat :=
  match strip_underscores "000"%char (PyStr.strip s) with
  | None => None
  | Some t =>
      match parse_decimal t with
      | Some x => Some x
      | None => parse_inf_or_nan t
      end
  end.

End PyFloat.

(** ** Dates and times

    The naive [datetime] of Python: a civil date of the proleptic Gregorian
    calendar and a time of day.  The arithmetic follows the reference
    implementation of the [datetime] module. *)

Module PyDatetime.

Record datetime : Type := mk_datetime {
  year : Z; month : Z; day : Z;
  hour : Z; minute : Z; second : Z; microsecond : Z
}.

Definition DAYS_IN_MONTH : list Z :=
  [-1; 31; 28; 31; 30; 31; 30; 31; 31; 30; 31; 30; 31].

Definition DAYS_BEFORE_MONTH : list Z :=
  [-1; 0; 31; 59; 90; 120; 151; 181; 212; 243; 273; 304; 334].

Definition DI400Y : Z := 146097.
Definition DI100Y : Z := 36524.
Definition DI4Y : Z := 1461.
Definition MAXORDINAL : Z := 3652059.

Definition table (t : list Z) (i : Z) : Z := nth (Z.to_nat i) t 0.

Definition is_leap (y : Z) : bool :=
  (y mod 4 =? 0) && (negb (y mod 100 =? 0) || (y mod 400 =? 0)).

Definition days_before_year (y : Z) : Z :=
  let y := y - 1 in y * 365 + y / 4 - y / 100 + y / 400.

Definition days_in_month (y m : Z) : Z :=
  if (m =? 2) && is_leap y then 29 else table DAYS_IN_MONTH m.

Definition days_before_month (y m : Z) : Z :=
  table DAYS_BEFORE_MONTH m + (if (2 <? m) && is_leap y then 1 else 0).

Definition ymd2ord (y m d : Z) : Z :=
  days_before_year y + days_before_month y m + d.

(** Month and day of the date that lies [n] days after 1 January: the
    month is estimated, and the estimate lowered when it is one too
    large. *)
Definition month_day (leapyear : bool) (n : Z) : Z * Z :=
  let m := Z.shiftr (n + 50) 5 in
  let preceding :=
    table DAYS_BEFORE_MONTH m + (if (2 <? m) && leapyear then 1 else 0) in
  if n <? preceding then
    let m' := m - 1 in
    let preceding' :=
      preceding
      - (table DAYS_IN_MONTH m' + (if (m' =? 2) && leapyear then 1 else 0)) in
    (m', n - preceding' + 1)
  else (m, n - preceding + 1).

Definition ord2ymd (n : Z) : Z * Z * Z :=
  let n := n - 1 in
  let n400 := n / DI400Y in
  let n := n mod DI400Y in
  let n100 := n / DI100Y in
  let n := n mod DI100Y in
  let n4 := n / DI4Y in
  let n := n mod DI4Y in
  let n1 := n / 365 in
  let n := n mod 365 in
  let y := n400 * 400 + 1 + n100 * 100 + n4 * 4 + n1 in
  if (n1 =? 4) || (n100 =? 4) then (y - 1, 12, 31)
  else
    let leapyear := (n1 =? 3) && (negb (n4 =? 24) || (n100 =? 3)) in
    let '(m, d) := month_day leapyear n in
    (y, m, d).

(** The range checks of the [datetime] constructor. *)
Definition valid_date (y m d : Z) : bool :=
  (1 <=? y) && (y <=? 9999) && (1 <=? m) && (m <=? 12)
  && (1 <=? d) && (d <=? days_in_month y m).

Definition valid_time (h mi s us : Z) : bool :=
  (0 <=? h) && (h <=? 23) && (0 <=? mi) && (mi <=? 59)
  && (0 <=? s) && (s <=? 59) && (0 <=? us) && (us <=? 999999).

Definition valid (t : datetime) : bool :=
  valid_date (year t) (month t) (day t)
  && valid_time (hour t) (minute t) (second t) (microsecond t).

Definition toordinal (t : datetime) : Z :=
  ymd2ord (year t) (month t) (day t).

(** [t + timedelta(days=k)]; [None] is the [OverflowError]. *)
Definition add_days (t : datetime) (k : Z) : option datetime :=
  let days := toordinal t + k in
  let seconds := hour t * 3600 + minute t * 60 + second t in
  let h := seconds / 3600 in
  let rem := seconds mod 3600 in
  if (0 <? days) && (days <=? MAXORDINAL) then
    let '(y, m, d) := ord2ymd days in
    Some (mk_datetime y m d h (rem / 60) (rem mod 60) (microsecond t))
  else None.

(** Comparison of two datetimes: field by field, most significant first. *)
Fixpoint lex_compare (a b : list Z) : comparison :=
  match a, b with
  | x :: a', y :: b' =>
      match x ?= y with
      | Eq => lex_compare a' b'
      | c => c
      end
  | _, _ => Eq
  end.

Definition fields (t : datetime) : list Z :=
  [year t; month t; day t; hour t; minute t; second t; microsecond t].

Definition compare (a b : datetime) : comparison :=
  lex_compare (fields a) (fields b).

(** [a > b] *)
Definition gt (a b : datetime) : bool :=
  match compare a b with Gt => true | _ => false end.

(** Microseconds elapsed since the start of day 0 of the calendar. *)
Definition timestamp (t : datetime) : Z :=
  ((toordinal t * 86400
    + hour t * 3600 + minute t * 60 + second t) * 1000000)
  + microsecond t.

(** [t.strftime("%Y-%m-%d")].  The year is written with four digits, as
    every platform does from year 1000 on. *)
Definition strftime_date (t : datetime) : string :=
  (PyStr.zpad 4 (year t) ++ "-" ++ PyStr.zpad 2 (month t) ++ "-"
   ++ PyStr.zpad 2 (day t))%string.

(** [t.strftime("%Y-%m-%d %H:%M:%S")] *)
Definition strftime (t : datetime) : string :=
  (strftime_date t ++ " " ++ PyStr.zpad 2 (hour t) ++ ":"
   ++ PyStr.zpad 2 (minute t) ++ ":" ++ PyStr.zpad 2 (second t))%string.

(** *** [strptime]

    The format is compiled to a regular expression whose groups are
    alternatives tried in order, with backtracking.  A matcher returns
    every way of matching at the head of the text, in the order the
    engine explores them: the match it reports is the first one. *)

Definition matcher (A : Type) : Type := string -> list (A * string).

Definition m_ret {A} (a : A) : matcher A := fun s => [(a, s)].

Definition m_bind {A B} (m : matcher A) (f : A -> matcher B) : matcher B :=
  fun s => flat_map (fun '(a, r) => f a r) (m s).

Definition m_alt {A} (ms : list (matcher A)) : matcher A :=
  fun s => flat_map (fun m => m s) ms.

(** One digit between [lo] and [hi]. *)
Definition m_digit (lo hi : Z) : matcher Z :=
  fun s =>
    match s with
    | String c r =>
        match PyStr.digit c with
        | Some d => if (lo <=? d) && (d <=? hi) then [(d, r)] else []
        | None => []
        end
    | EmptyString => []
    end.

(** Two digits, each in its own range. *)
Definition m_two (lo1 hi1 lo2 hi2 : Z) : matcher Z :=
  m_bind (m_digit lo1 hi1) (fun a =>
  m_bind (m_digit lo2 hi2) (fun b => m_ret (10 * a + b))).

Definition m_char (c : ascii) : matcher unit :=
  fun s =>
    match s with
    | String c' r => if Ascii.eqb c c' then [(tt, r)] else []
    | EmptyString => []
    end.

(** [\s+], greedy: the longest run first. *)
Fixpoint m_spaces (s : string) : list (unit * string) :=
  match s with
  | String c r => if PyStr.isspace c then m_spaces r ++ [(tt, r)] else []
  | EmptyString => []
  end.

(** [%Y]: [\d\d\d\d] *)
Definition re_Y : matcher Z :=
  m_bind (m_two 0 9 0 9) (fun a =>
  m_bind (m_two 0 9 0 9) (fun b => m_ret (100 * a + b))).

(** [%m]: [1[0-2]|0[1-9]|[1-9]] *)
Definition re_m : matcher Z :=
  m_alt [m_two 1 1 0 2; m_two 0 0 1 9; m_digit 1 9].

(** [%d]: [3[0-1]|[1-2]\d|0[1-9]|[1-9]| [1-9]] *)
Definition re_d : matcher Z :=
  m_alt [m_two 3 3 0 1; m_two 1 2 0 9; m_two 0 0 1 9; m_digit 1 9;
         m_bind (m_char " ") (fun _ => m_digit 1 9)].

(** [%H]: [2[0-3]|[0-1]\d|\d] *)
Definition re_H : matcher Z :=
  m_alt [m_two 2 2 0 3; m_two 0 1 0 9; m_digit 0 9].

(** [%M]: [[0-5]\d|\d] *)
Definition re_M : matcher Z :=
  m_alt [m_two 0 5 0 9; m_digit 0 9].

(** [%S]: [6[0-1]|[0-5]\d|\d] *)
Definition re_S : matcher Z :=
  m_alt [m_two 6 6 0 1; m_two 0 5 0 9; m_digit 0 9].

(** The expression for ["%Y-%m-%d"]. *)
Definition re_date : matcher (Z * Z * Z) :=
  m_bind re_Y (fun y =>
  m_bind (m_char "-") (fun _ =>
  m_bind re_m (fun m =>
  m_bind (m_char "-") (fun _ =>
  m_bind re_d (fun d => m_ret (y, m, d)))))).

(** The expression for ["%Y-%m-%d %H:%M:%S"]. *)
Definition re_datetime : matcher datetime :=
  m_bind re_date (fun '(y, m, d) =>
  m_bind m_spaces (fun _ =>
  m_bind re_H (fun h =>
  m_bind (m_char ":") (fun _ =>
  m_bind re_M (fun mi =>
  m_bind (m_char ":") (fun _ =>
  m_bind re_S (fun s => m_ret (mk_datetime y m d h mi s 0)))))))).

(** [datetime.strptime(s, "%Y-%m-%d")]: the text must match, leave
    nothing unconverted, and denote a date of the calendar.  [None] is
    the [ValueError]. *)
Definition strptime_date (s : string) : option datetime :=
  match re_date s with
  | ((y, m, d), EmptyString) :: _ =>
      if valid_date y m d then Some (mk_datetime y m d 0 0 0 0) else None
  | _ => None
  end.

(** [datetime.strptime(s, "%Y-%m-%d %H:%M:%S")] *)
Definition strptime (s : string) : option datetime :=
  match re_datetime s with
  | (t, EmptyString) :: _ => if valid t then Some t else None
  | _ => None
  end.

End PyDatetime.

Import PyFloat PyDatetime.

(** ** Python values, exceptions *)

(** The values that travel through the handlers: what [json.loads]
    produces and what the handlers put into the dictionaries they build. *)
#[warnings="-register-all"]
Inductive pyval : Type :=
| VNone
| VBool (b : bool)
| VInt (n : Z)
| VFloat (x : pyfloat)
| VStr (s : string)
| VList (l : list pyval)
| VDict (d : gmap string pyval).

(** Truth value of an object, as [if v:] and [not v] test it. *)
Definition truthy (v : pyval) : bool :=
  match v with
  | VNone => false
  | VBool b => b
  | VInt n => negb (n =? 0)
  | VFloat (FZero _) => false
  | VFloat _ => true
  | VStr s => negb (String.eqb s "")
  | VList l => match l with [] => false | _ => true end
  | VDict d => match map_to_list d with [] => false | _ => true end
  end.

(** [d.get(k, dflt)]: the default is used only when the key is absent. *)
Definition dict_get (d : gmap string pyval) (k : string) (dflt : pyval) : pyval :=
  default dflt (d !! k).

(** Exceptions other than [HTTPException], by class. *)
Inductive error : Type :=
| ValueError
| AttributeError      (* [.get] on an object that is not a [dict] *)
| OverflowError
| IntegrityError      (* sqlite3: a UNIQUE constraint failed *)
| BindingError        (* sqlite3: a parameter of an unsupported type *)
| ExternalError.      (* raised by the network, the model client or the file system *)

(** [about] is the exception whose text the handler appends to [detail]. *)
Inductive exn : Type :=
| HTTPException (status_code : Z) (detail : string) (about : option error)
| Exception (e : error).

Inductive result (A : Type) : Type :=
| Ok (a : A)
| Raise (e : exn).
Arguments Ok {A} a.
Arguments Raise {A} e.

#[global] Instance result_ret : MRet result := @Ok.
#[global] Instance result_bind : MBind result :=
  fun A B f r => match r with Ok a => f a | Raise e => Raise e end.

(** ** The database: [bills/db.py] *)

Module Db.

(** A value as SQLite stores it. *)
Inductive sqlval : Type :=
| SNull
| SInteger (n : Z)
| SReal (x : pyfloat)
| SText (s : string).

#[global] Instance pyfloat_eq_dec : EqDecision pyfloat.
Proof. solve_decision. Defined.

#[global] Instance sqlval_eq_dec : EqDecision sqlval.
Proof. solve_decision. Defined.

(** How the [sqlite3] module binds a Python object to a statement
    parameter.  A NaN is stored as NULL.  The conversions a column
    affinity may apply afterwards are not part of the model: a row holds
    the values as bound. *)
Definition adapt (v : pyval) : result sqlval :=
  match v with
  | VNone => Ok SNull
  | VBool b => Ok (SInteger (if b then 1 else 0))
  | VInt n =>
      if (- 2 ^ 63 <=? n) && (n <? 2 ^ 63) then Ok (SInteger n)
      else Raise (Exception OverflowError)
  | VFloat FNan => Ok SNull
  | VFloat x => Ok (SReal x)
  | VStr s => Ok (SText s)
  | VList _ | VDict _ => Raise (Exception BindingError)
  end.

(** A row of table [bills]. *)
Record bill : Type := mk_bill {
  bill_id : sqlval;
  user_id : sqlval;
  category : sqlval;
  amount : sqlval;
  date : sqlval;
  description : sqlval;
  nw_type : sqlval
}.

(** A row of table [users]; the three leading columns are NOT NULL. *)
Record user : Type := mk_user {
  u_user_id : string;
  u_email : string;
  u_password_hash : string;
  u_token : option string;
  u_token_expires_at : option string;
  u_created_at : option string;
  u_updated_at : option string
}.

(** Both tables, rows in insertion order. *)
Record db : Type := mk_db {
  bills : list bill;
  users : list user
}.

Definition set_bills (d : db) (l : list bill) : db := mk_db l (users d).
Definition set_users (d : db) (l : list user) : db := mk_db (bills d) l.

(** Two values of a UNIQUE column collide when equal and not NULL. *)
Definition collides (a b : sqlval) : bool :=
  match a with
  | SNull => false
  | _ => bool_decide (a = b)
  end.

(** [INSERT INTO bills ...] under the UNIQUE constraint on [bill_id]. *)
Definition insert_bill (row : bill) (d : db) : result db :=
  if existsb (fun r => collides (bill_id r) (bill_id row)) (bills d)
  then Raise (Exception IntegrityError)
  else Ok (set_bills d (bills d ++ [row])).

Definition save_bill (now : datetime) (bill_data : gmap string pyval) (d : db)
  : result db :=
  let user_id := dict_get bill_data "user_id" (VStr "anonymous") in
  let date_str := dict_get bill_data "date" (VStr (strftime_date now)) in
  let bill_id := dict_get bill_data "bill_id" VNone in
  if negb (truthy bill_id) then Raise (Exception ValueError)
  else
    p1 ← adapt bill_id;
    p2 ← adapt user_id;
    p3 ← adapt (dict_get bill_data "category" VNone);
    p4 ← adapt (dict_get bill_data "amount" VNone);
    p5 ← adapt date_str;
    p6 ← adapt (dict_get bill_data "description" (VStr ""));
    p7 ← adapt (dict_get bill_data "nw_type" VNone);
    insert_bill (mk_bill p1 p2 p3 p4 p5 p6 p7) d.

(** [SELECT ... WHERE user_id = ?], or every row when [user_id] is
    [None] or empty. *)
Definition get_bills (user_id : option string) (d : db) : list bill :=
  match user_id with
  | Some u =>
      if String.eqb u "" then bills d
      else filter (fun r => Db.user_id r = SText u) (bills d)
  | None => bills d
  end.

Definition get_bill_by_id (bill_id : string) (d : db) : option bill :=
  find (fun r => bool_decide (Db.bill_id r = SText bill_id)) (bills d).

(** [DELETE FROM bills WHERE bill_id = ?]; the boolean is
    [rowcount > 0]. *)
Definition delete_bill (bill_id : string) (d : db) : bool * db :=
  let hit r := bool_decide (Db.bill_id r = SText bill_id) in
  (existsb hit (bills d),
   set_bills d (List.filter (fun r => negb (hit r)) (bills d))).

(** *** Users *)

(** The process environment read by [_hash_password], and SHA-256 as a
    function from text to its hexadecimal digest. *)
Record environ : Type := mk_environ {
  PASSWORD_SALT : string;
  sha256_hexdigest : string -> string
}.

Definition _hash_password (env : environ) (password : string) : string :=
  sha256_hexdigest env (password ++ PASSWORD_SALT env)%string.

Definition save_user_token (now : datetime) (user_id token : string)
    (expires_in_days : Z) (d : db) : result (bool * db) :=
  match add_days now expires_in_days with
  | None => Raise (Exception OverflowError)
  | Some e =>
      let expires_at := strftime e in
      let updated_at := strftime now in
      let hit r := String.eqb (u_user_id r) user_id in
      let upd r :=
        if hit r then
          mk_user (u_user_id r) (u_email r) (u_password_hash r)
                  (Some token) (Some expires_at) (u_created_at r)
                  (Some updated_at)
        else r in
      Ok (existsb hit (users d), set_users d (map upd (users d)))
  end.

(** The dictionary [verify_token] returns. *)
Record token_info : Type := mk_token_info {
  ti_user_id : string;
  ti_email : string;
  ti_created_at : option string;
  ti_updated_at : option string;
  ti_token_valid : bool;
  ti_token_expires_at : option string
}.

Definition HARDCODED_TOKEN : string :=
  "bQjfRqUpKlriby2lC8RLWBn8LbeLxgTsm5oITLp3R5M".

(** [str(x) if x else None] on a nullable text column. *)
Definition str_or_none (x : option string) : option string :=
  match x with
  | Some s => if String.eqb s "" then None else Some s
  | None => None
  end.

Definition verify_token (now : datetime) (token : string) (d : db)
  : option token_info :=
  if String.eqb token HARDCODED_TOKEN then
    Some (mk_token_info "token" "token@test.com" None None true None)
  else
    match find (fun r => bool_decide (u_token r = Some token)) (users d) with
    | Some row =>
        let info :=
          mk_token_info (u_user_id row) (u_email row)
                        (str_or_none (u_created_at row))
                        (str_or_none (u_updated_at row))
                        true (u_token_expires_at row) in
        match str_or_none (u_token_expires_at row) with
        | Some token_expires_at =>
            match strptime token_expires_at with
            | Some expires_at => if gt now expires_at then None else Some info
            | None => None
            end
        | None => Some info
        end
    | None => None
    end.

(** The dictionary with the columns of a user row that [verify_user]
    reads, password excluded. *)
Record user_info : Type := mk_user_info {
  ui_user_id : string;
  ui_email : string;
  ui_token : option string;
  ui_token_expires_at : option string;
  ui_created_at : option string;
  ui_updated_at : option string
}.

Definition verify_user (env : environ) (email password : string) (d : db)
  : option user_info :=
  let password_hash := _hash_password env password in
  match find (fun r => String.eqb (u_email r) email
                       && String.eqb (u_password_hash r) password_hash)
             (users d) with
  | Some r =>
      Some (mk_user_info (u_user_id r) (u_email r) (u_token r)
                         (u_token_expires_at r) (u_created_at r)
                         (u_updated_at r))
  | None => None
  end.

(** [uuid] is the identifier [generate_user_id] draws. *)
Definition create_user (env : environ) (now : datetime) (uuid : string)
    (email password : string) (user_id : option string) (d : db)
  : result (string * string * string * db) :=
  if existsb (fun r => String.eqb (u_email r) email) (users d)
  then Raise (Exception ValueError)
  else
    let taken id := existsb (fun r => String.eqb (u_user_id r) id) (users d) in
    id ← match str_or_none user_id with
         | None => Ok uuid
         | Some id => if taken id then Raise (Exception ValueError) else Ok id
         end;
    let password_hash := _hash_password env password in
    let created_at := strftime now in
    if taken id then Raise (Exception IntegrityError)
    else
      Ok (id, email, created_at,
          set_users d (users d ++
            [mk_user id email password_hash None None
                     (Some created_at) (Some created_at)])).

(** [DELETE FROM users WHERE user_id = ?]: the bills of the user stay. *)
Definition delete_user (user_id : string) (d : db) : bool * db :=
  let hit r := String.eqb (u_user_id r) user_id in
  (existsb hit (users d),
   set_users d (List.filter (fun r => negb (hit r)) (users d))).

End Db.

(** ** The parser services: [services/]

    A service sends the image or the text to a language model and decodes
    the completion it receives.  The completion is an input of the model:
    its text, together with what [json.loads] makes of that text ([None]
    when [json.loads] raises).  A service call that raises before a
    completion is obtained (missing credentials, network, file system)
    is a [Raise]. *)

Module Services.

Definition CATEGORIES : list string :=
  ["餐饮"; "购物"; "交通"; "住房"; "休闲娱乐"; "医疗健康";
   "学习办公"; "宠物"; "母婴"; "资金往来"; "保险理财"; "其他支出"].

Record completion : Type := mk_completion {
  content : string;
  json_loads : option pyval
}.

(** The [try: return json.loads(...) except Exception: return {"raw": ...}]
    that ends every service. *)
Definition decode (c : completion) : pyval :=
  match json_loads c with
  | Some v => v
  | None => VDict {[ "raw" := VStr (content c) ]}
  end.

Module qwen.
Definition parse_bill_base64 (reply : result completion) : result pyval :=
  c ← reply; Ok (decode c).
Definition parse_bill_file (reply : result completion) : result pyval :=
  parse_bill_base64 reply.
End qwen.

Module baidu_qwen.
Definition qwen_struct (reply : result completion) : result pyval :=
  c ← reply; Ok (decode c).
Definition parse_bill_base64 (reply : result completion) : result pyval :=
  qwen_struct reply.
Definition parse_bill_file (reply : result completion) : result pyval :=
  parse_bill_base64 reply.
End baidu_qwen.

Module llm.
Definition parse_bill_text (text : string) (reply : result completion)
  : result pyval :=
  if String.eqb text "" || String.eqb (PyStr.strip text) ""
  then Raise (Exception ValueError)
  else c ← reply; Ok (decode c).
End llm.

End Services.

(** ** The request handlers: [interface/app.py] *)

Module App.

Import Db Services.

(** *** Request and response models *)

(** [Union[str, float]] *)
Inductive amount_in : Type :=
| AmountStr (s : string)
| AmountNum (x : pyfloat).

Module BillData.
Record t : Type := mk {
  bill_id : string;
  category : string;
  amount : amount_in;
  date : option string;
  description : option string;
  nw_type : option string
}.
End BillData.

Module ManualBillRequest.
Record t : Type := mk { user_id : string; bill : BillData.t }.
End ManualBillRequest.

Module DeleteBillRequest.
Record t : Type := mk { token : string; bill_id : string }.
End DeleteBillRequest.

Module RegisterRequest.
Record t : Type := mk {
  email : string; password : string; user_id : option string
}.
End RegisterRequest.

Module LoginRequest.
Record t : Type := mk { email : string; password : string }.
End LoginRequest.

(** The body of a [JSONResponse]: [{"status": "ok", "result": ...}] or
    [{"status": "error", "message": str(e)}]. *)
Inductive json_content : Type :=
| StatusOk (result : pyval)
| StatusError (e : error).

Inductive response : Type :=
| RegisterResponse (status message : string) (user : string * string * string)
| LoginResponse (status message : string) (user : user_info)
| ManualBillResponse (status message : string) (bill_id : option string)
| DeleteBillResponse (status message : string)
| TokenVerifyResponse (status : string) (valid : bool) (message : string)
                      (expires_at : option string)
| JSONResponse (content : json_content).

(** *** Handlers as state-passing computations that may raise *)

Definition M (A : Type) : Type := db -> result A * db.

#[global] Instance M_ret : MRet M := fun A a d => (Ok a, d).
#[global] Instance M_bind : MBind M :=
  fun A B f m d =>
    match m d with
    | (Ok a, d') => f a d'
    | (Raise e, d') => (Raise e, d')
    end.

Definition raise {A} (e : exn) : M A := fun d => (Raise e, d).

(** A computation that does not touch the database. *)
Definition pure {A} (r : result A) : M A := fun d => (r, d).

(** A query. *)
Definition query {A} (f : db -> A) : M A := fun d => (Ok (f d), d).

(** A statement: committed when it succeeds, without effect when it
    raises. *)
Definition exec (f : db -> result db) : M unit :=
  fun d => match f d with Ok d' => (Ok tt, d') | Raise e => (Raise e, d) end.

(** [try: m except ...: h e] *)
Definition try_except {A} (m : M A) (h : exn -> M A) : M A :=
  fun d => match m d with (Raise e, d') => h e d' | r => r end.

(** [if cond: raise HTTPException(...)] *)
Definition raise_if (cond : bool) (status_code : Z) (detail : string) : M unit :=
  if cond then raise (HTTPException status_code detail None) else mret tt.

(** The [except HTTPException: raise] / [except Exception as e: raise
    HTTPException(500, prefix + str(e))] that closes a handler. *)
Definition reraise_500 {A} (prefix : string) (e : exn) : M A :=
  match e with
  | HTTPException _ _ _ => raise e
  | Exception err => raise (HTTPException 500 prefix (Some err))
  end.

(** The exception every token-checking handler raises on a rejected
    token. *)
Definition unauthorized : exn := HTTPException 401 "Token无效或已过期" None.

Definition opt_str (o : option string) : pyval :=
  match o with Some s => VStr s | None => VNone end.

(** *** [/register] and [/login] *)

Definition register (env : environ) (now : datetime) (uuid : string)
    (request : RegisterRequest.t) : M response :=
  try_except
    (fun d =>
       match create_user env now uuid (RegisterRequest.email request)
               (RegisterRequest.password request)
               (RegisterRequest.user_id request) d with
       | Ok (id, email, created_at, d') =>
           (Ok (RegisterResponse "ok" "用户注册成功" (id, email, created_at)), d')
       | Raise e => (Raise e, d)
       end)
    (fun e =>
       match e with
       | Exception ValueError => raise (HTTPException 400 "" (Some ValueError))
       | Exception err => raise (HTTPException 500 "注册失败: " (Some err))
       | HTTPException _ _ _ => raise (HTTPException 500 "注册失败: " None)
       end).

(** [token] is the string [generate_token] draws. *)
Definition login (env : environ) (now : datetime) (token : string)
    (request : LoginRequest.t) : M response :=
  try_except
    (user ← query (verify_user env (LoginRequest.email request)
                               (LoginRequest.password request));
     match user with
     | Some user =>
         _ ← (fun d =>
                match save_user_token now (ui_user_id user) token 30 d with
                | Ok (_, d') => (Ok tt, d')
                | Raise e => (Raise e, d)
                end) : M unit;
         let user_with_token :=
           mk_user_info (ui_user_id user) (ui_email user) (Some token)
                        (ui_token_expires_at user) (ui_created_at user)
                        (ui_updated_at user) in
         mret (LoginResponse "ok" "登录成功" user_with_token)
     | None => raise (HTTPException 401 "邮箱或密码错误" None)
     end)
    (reraise_500 "登录失败: ").

(** The dictionary literal [bill_data] that the handlers build for
    [save_bill]: the same seven keys in each of them. *)
Definition bill_dict
    (user_id category amount date description bill_id nw_type : pyval)
  : gmap string pyval :=
  <[ "user_id" := user_id ]>
  (<[ "category" := category ]>
  (<[ "amount" := amount ]>
  (<[ "date" := date ]>
  (<[ "description" := description ]>
  (<[ "bill_id" := bill_id ]>
  (<[ "nw_type" := nw_type ]> ∅)))))).

(** *** [/manual_bill] *)

(** The amount is a [str] or a [float]: the type of the request leaves no
    other case, so the test [amount is None] of the handler never fires. *)
Definition to_float (val : amount_in) : result pyfloat :=
  match val with
  | AmountNum x => Ok x
  | AmountStr s =>
      let s :=
        PyStr.remove "RMB"
          (PyStr.remove "￥" (PyStr.remove "," (PyStr.strip s))) in
      match of_string s with
      | Some x => Ok x
      | None => Raise (Exception ValueError)
      end
  end.

Definition normalize_amount (val : amount_in) : result pyfloat :=
  let body : result pyfloat :=
    num ← to_float val;
    if le_zero num then Raise (Exception ValueError) else Ok (round2 num) in
  match body with
  | Ok x => Ok x
  | Raise _ =>
      Raise (HTTPException 400 "账单金额必须为正数，且格式有效" None)
  end.

Definition manual_bill (now : datetime) (request : ManualBillRequest.t)
  : M response :=
  let bill := ManualBillRequest.bill request in
  try_except
    (_ ← raise_if (String.eqb (BillData.category bill) "")
                  400 "账单类别不能为空";
     _ ← raise_if (String.eqb (BillData.bill_id bill) "")
                  400 "bill_id 不能为空";
     _ ← match BillData.date bill with
         | Some s =>
             raise_if (negb (String.eqb s "")
                       && negb (bool_decide (is_Some (strptime_date s))))
                      400 "日期格式错误，应为 YYYY-MM-DD"
         | None => mret tt
         end;
     let nw_type := BillData.nw_type bill in
     _ ← match nw_type with
         | Some s =>
             raise_if (negb (String.eqb s "")
                       && negb (String.eqb s "基础支出" || String.eqb s "娱乐支出"))
                      400 "nw_type 必须为 基础支出 或 娱乐支出"
         | None => mret tt
         end;
     _ ← raise_if (negb (String.eqb (BillData.category bill) "")
                   && negb (bool_decide (CATEGORIES = []))
                   && negb (bool_decide (BillData.category bill ∈ CATEGORIES)))
                  400 "类别不在允许列表中";
     amount ← pure (normalize_amount (BillData.amount bill));
     let bill_data :=
       bill_dict (VStr (ManualBillRequest.user_id request))
                 (VStr (BillData.category bill))
                 (VFloat amount)
                 (opt_str (BillData.date bill))
                 (VStr (default "" (BillData.description bill)))
                 (VStr (BillData.bill_id bill))
                 (opt_str nw_type) in
     _ ← exec (save_bill now bill_data);
     mret (ManualBillResponse "ok" "账单保存成功" (Some (BillData.bill_id bill))))
    (reraise_500 "保存账单失败: ").

(** *** [/delete_bill] *)

Definition delete_bill_endpoint (now : datetime) (request : DeleteBillRequest.t)
  : M response :=
  let bill_id := DeleteBillRequest.bill_id request in
  try_except
    (user_info ← query (verify_token now (DeleteBillRequest.token request));
     match user_info with
     | None => raise unauthorized
     | Some user_info =>
         bill ← query (get_bill_by_id bill_id);
         match bill with
         | None => raise (HTTPException 404 "账单不存在" None)
         | Some bill =>
             _ ← raise_if
                   (negb (bool_decide
                            (Db.user_id bill = SText (ti_user_id user_info))))
                   403 "无权删除该账单";
             deleted ← (fun d => let '(b, d') := delete_bill bill_id d in
                                 (Ok b, d')) : M bool;
             _ ← raise_if (negb deleted) 500 "账单删除失败";
             mret (DeleteBillResponse "ok" "账单删除成功")
         end
     end)
    (reraise_500 "删除账单失败: ").

(** *** The three upload handlers *)

(** [float(str(v).replace(",", "").replace("￥", "").replace("RMB", ""))].
    The text of a [str] is cleaned and read by [float]; [str] of an [int]
    is its decimal numeral and [str] of a [float] reads back as that
    float, both untouched by the three replacements; the text of [None],
    of a boolean, of a list and of a dictionary is no numeral. *)
Definition parsed_amount (v : pyval) : result pyfloat :=
  match v with
  | VStr s =>
      match of_string (PyStr.remove "RMB" (PyStr.remove "￥" (PyStr.remove "," s))) with
      | Some x => Ok x
      | None => Raise (Exception ValueError)
      end
  | VInt n => Ok (of_int n)
  | VFloat x => Ok x
  | VNone | VBool _ | VList _ | VDict _ => Raise (Exception ValueError)
  end.

(** [parsed_json.get(k, dflt)] on whatever the service returned. *)
Definition get (parsed_json : pyval) (k : string) (dflt : pyval) : result pyval :=
  match parsed_json with
  | VDict d => Ok (dict_get d k dflt)
  | _ => Raise (Exception AttributeError)
  end.

(** The lines the three handlers share, from the test of [bill_id] to
    the response. *)
Definition store_parsed (now : datetime) (user_id bill_id : string)
    (parsed_json : pyval) : M response :=
  let timestamp := strftime now in
  _ ← raise_if (String.eqb bill_id "") 400 "bill_id 不能为空";
  a ← pure (get parsed_json "amount" (VStr "0"));
  x ← pure (parsed_amount a);
  let amt := round2 x in
  category ← pure (get parsed_json "category" (VStr "其他支出"));
  date ← pure (get parsed_json "date" (VStr (String.substring 0 10 timestamp)));
  description ← pure (get parsed_json "description" (VStr ""));
  nw_type ← pure (get parsed_json "nw_type" VNone);
  let bill_data :=
    bill_dict (VStr user_id) category (VFloat amt) date description
              (VStr bill_id) nw_type in
  _ ← exec (save_bill now bill_data);
  match parsed_json with
  | VDict d =>
      mret (JSONResponse (StatusOk (VDict (<[ "amount" := VStr (format_2f amt) ]> d))))
  | _ => raise (Exception AttributeError)
  end.

(** [except HTTPException: raise] / [except Exception as e: return
    JSONResponse({"status": "error", ...})] *)
Definition error_body (e : exn) : M response :=
  match e with
  | HTTPException _ _ _ => raise e
  | Exception err => mret (JSONResponse (StatusError err))
  end.

Definition upload_qwen_vl (now : datetime) (reply : result completion)
    (token bill_id : string) : M response :=
  try_except
    (user_info ← query (verify_token now token);
     match user_info with
     | None => raise unauthorized
     | Some user_info =>
         parsed_json ← pure (qwen.parse_bill_file reply);
         store_parsed now (ti_user_id user_info) bill_id parsed_json
     end)
    error_body.

Definition upload_baidu_qwen (now : datetime) (reply : result completion)
    (token bill_id : string) : M response :=
  try_except
    (user_info ← query (verify_token now token);
     match user_info with
     | None => raise unauthorized
     | Some user_info =>
         parsed_json ← pure (baidu_qwen.parse_bill_file reply);
         store_parsed now (ti_user_id user_info) bill_id parsed_json
     end)
    error_body.

Definition upload_llm (now : datetime) (reply : result completion)
    (text token bill_id : string) : M response :=
  try_except
    (user_info ← query (verify_token now token);
     match user_info with
     | None => raise unauthorized
     | Some user_info =>
         _ ← raise_if (String.eqb text "") 400 "text 不能为空";
         parsed_json ← pure (llm.parse_bill_text text reply);
         store_parsed now (ti_user_id user_info) bill_id parsed_json
     end)
    error_body.

(** *** [/verify_token] *)

Definition verify_token_endpoint (now : datetime) (token : string) : M response :=
  user_info ← query (verify_token now token);
  match user_info with
  | Some user_info =>
      mret (TokenVerifyResponse "ok" true "Token有效"
                                (ti_token_expires_at user_info))
  | None => mret (TokenVerifyResponse "ok" false "Token无效或已过期" None)
  end.

(** *** The operations on bills

    The five routes that insert or delete a bill, with what each one
    receives; [presented_token] is the token a call carries, if its route
    takes one. *)

Inductive call : Type :=
| ManualBill (request : ManualBillRequest.t)
| DeleteBill (request : DeleteBillRequest.t)
| UploadQwenVl (reply : result completion) (token bill_id : string)
| UploadBaiduQwen (reply : result completion) (token bill_id : string)
| UploadLlm (reply : result completion) (text token bill_id : string).

Definition presented_token (c : call) : option string :=
  match c with
  | ManualBill _ => None
  | DeleteBill request => Some (DeleteBillRequest.token request)
  | UploadQwenVl _ token _ => Some token
  | UploadBaiduQwen _ token _ => Some token
  | UploadLlm _ _ token _ => Some token
  end.

Definition run (now : datetime) (c : call) : M response :=
  match c with
  | ManualBill request => manual_bill now request
  | DeleteBill request => delete_bill_endpoint now request
  | UploadQwenVl reply token bill_id => upload_qwen_vl now reply token bill_id
  | UploadBaiduQwen reply token bill_id => upload_baidu_qwen now reply token bill_id
  | UploadLlm reply text token bill_id => upload_llm now reply text token bill_id
  end.

End App.

(** ** Vocabulary of the statements *)

Module Pure.

Import Db Services App.

(** The tests of [manual_bill] and its reading of the amount, in the
    order of the handler: none of them looks at the database or at the
    clock.  [manual_bill_eq] below shows that the handler is this
    function followed by [save_bill]. *)
Definition manual_validate (bill : BillData.t) : result pyfloat :=
  if String.eqb (BillData.category bill) "" then
    Raise (HTTPException 400 "账单类别不能为空" None)
  else if String.eqb (BillData.bill_id bill) "" then
    Raise (HTTPException 400 "bill_id 不能为空" None)
  else if match BillData.date bill with
          | Some s => negb (String.eqb s "")
                      && negb (bool_decide (is_Some (strptime_date s)))
          | None => false
          end then
    Raise (HTTPException 400 "日期格式错误，应为 YYYY-MM-DD" None)
  else if match BillData.nw_type bill with
          | Some s => negb (String.eqb s "")
                      && negb (String.eqb s "基础支出" || String.eqb s "娱乐支出")
          | None => false
          end then
    Raise (HTTPException 400 "nw_type 必须为 基础支出 或 娱乐支出" None)
  else if negb (bool_decide (BillData.category bill ∈ CATEGORIES)) then
    Raise (HTTPException 400 "类别不在允许列表中" None)
  else normalize_amount (BillData.amount bill).

(** The dictionary [manual_bill] builds once the amount is known. *)
Definition manual_dict (request : ManualBillRequest.t) (amount : pyfloat)
  : gmap string pyval :=
  let bill := ManualBillRequest.bill request in
  bill_dict (VStr (ManualBillRequest.user_id request))
            (VStr (BillData.category bill))
            (VFloat amount)
            (opt_str (BillData.date bill))
            (VStr (default "" (BillData.description bill)))
            (VStr (BillData.bill_id bill))
            (opt_str (BillData.nw_type bill)).

(** How [adapt] stores a float and an optional text. *)
Definition sql_float (x : pyfloat) : sqlval :=
  match x with FNan => SNull | _ => SReal x end.

Definition sql_opt (o : option string) : sqlval :=
  match o with Some s => SText s | None => SNull end.

(** The row [save_bill] makes of [manual_dict]. *)
Definition manual_row (request : ManualBillRequest.t) (amount : pyfloat) : bill :=
  let bill := ManualBillRequest.bill request in
  mk_bill (SText (BillData.bill_id bill))
          (SText (ManualBillRequest.user_id request))
          (SText (BillData.category bill))
          (sql_float amount)
          (sql_opt (BillData.date bill))
          (SText (default "" (BillData.description bill)))
          (sql_opt (BillData.nw_type bill)).

(** A bill whose identifier is [id] is stored. *)
Definition stored (id : string) (d : db) : bool :=
  existsb (fun r => collides (Db.bill_id r) (SText id)) (bills d).


(** The extra day of a leap year. *)
Definition leap_day (y : Z) : Z := if is_leap y then 1 else 0.

(** [t] cut to the second, which is all that [strftime] writes. *)
Definition whole_second (t : datetime) : datetime :=
  mk_datetime (year t) (month t) (day t) (hour t) (minute t) (second t) 0.

(** The user row that the UPDATE of [save_user_token] leaves. *)
Definition with_token (token expires_at updated_at : string) (r : user) : user :=
  mk_user (u_user_id r) (u_email r) (u_password_hash r)
          (Some token) (Some expires_at) (u_created_at r) (Some updated_at).

(** Thirty days, in microseconds. *)
Definition thirty_days : Z := 30 * 86400 * 1000000.


End Pure.

(** ** Proof automation *)

(** The twelve cases of a month. *)
Ltac months m :=
  let H := fresh in
  assert (H : m = 1 \/ m = 2 \/ m = 3 \/ m = 4 \/ m = 5 \/ m = 6 \/ m = 7
              \/ m = 8 \/ m = 9 \/ m = 10 \/ m = 11 \/ m = 12) by lia;
  repeat (destruct H as [H | H]); subst m.

(** Entries of the month tables at a known month. *)
Ltac tables :=
  repeat match goal with
         | |- context [table ?t ?k] =>
             let v := eval vm_compute in (table t k) in
             change (table t k) with v
         | H : context [table ?t ?k] |- _ =>
             let v := eval vm_compute in (table t k) in
             change (table t k) with v in H
         end.

(** The cases [k = 0], ..., [k = n - 1] of a natural number, each either
    excluded by the hypotheses or settled by computation. *)
Tactic Notation "by_cases" ident(k) integer(n) :=
  do n (destruct k as [|k];
        [first [exfalso; lia | vm_compute; reflexivity]|]);
  exfalso; lia.

(** ** Data for the examples *)

Module Sample.

Import Db Services App.

Definition clock : datetime := mk_datetime 2024 2 29 23 59 58 123456.

Definition empty : db := mk_db [] [].

(** An environment whose digest is the identity: enough to run the
    handlers on examples. *)
Definition env : environ := mk_environ "smartledger_default_salt" (fun s => s).

(** A manual entry by ["alice"] under identifier ["b1"]. *)
Definition lunch (amount : string) (date : option string) : ManualBillRequest.t :=
  ManualBillRequest.mk "alice"
    (BillData.mk "b1" "餐饮" (AmountStr amount) date None None).

(** The database after [lunch "12.345" None] on the empty one. *)
Definition one_bill : db := snd (manual_bill clock (lunch "12.345" None) empty).

(** Two registered users who have logged in, and the bill ["b1"] of the
    first. *)
Definition alice : RegisterRequest.t :=
  RegisterRequest.mk "alice@example.com" "a-secret" (Some "alice").
Definition bob : RegisterRequest.t :=
  RegisterRequest.mk "bob@example.com" "b-secret" (Some "bob").

Definition ledger : db :=
  let d1 := snd (register env clock "uuid-1" alice empty) in
  let d2 := snd (register env clock "uuid-2" bob d1) in
  let d3 := snd (login env clock "token-of-alice"
                   (LoginRequest.mk "alice@example.com" "a-secret") d2) in
  let d4 := snd (login env clock "token-of-bob"
                   (LoginRequest.mk "bob@example.com" "b-secret") d3) in
  snd (manual_bill clock (lunch "12.345" None) d4).

(** The database once the first user has registered, and what
    [verify_user] reads from it. *)
Definition registered : db := snd (register env clock "uuid-1" alice empty).

Definition alice_info : user_info :=
  mk_user_info "alice" "alice@example.com" None None
               (Some "2024-02-29 23:59:58") (Some "2024-02-29 23:59:58").


Definition hollow : completion := mk_completion "{}" (Some (VDict ∅)).

(** A completion that is a JSON object with a negative amount. *)
Definition quote : string := String "034"%char EmptyString.
Definition refund : completion :=
  mk_completion ("{" ++ quote ++ "amount" ++ quote ++ ": -5}")%string
                (Some (VDict {[ "amount" := VInt (-5) ]})).

End Sample.

(** ** The specification's rounding rule

    The specification asks for amounts rounded to two decimals, halves
    rounded up.  [half_up_round2] follows those words; the theorems below
    compare it with [round2], which is what the handlers call. *)

Module Spec.



End Spec.

(** ** More of [bills/db.py]: looking users up and maintaining them *)

Module Users.

Import Db.

(** The dictionary made of a user row by the lookups: every column but
    the password. *)
Definition row_info (r : user) : user_info :=
  mk_user_info (u_user_id r) (u_email r) (u_token r) (u_token_expires_at r)
               (u_created_at r) (u_updated_at r).

Definition get_user_by_id (user_id : string) (d : db) : option user_info :=
  option_map row_info
    (find (fun r => String.eqb (u_user_id r) user_id) (users d)).

Definition get_user_by_email (email : string) (d : db) : option user_info :=
  option_map row_info
    (find (fun r => String.eqb (u_email r) email) (users d)).

(** [UPDATE users SET password_hash = ?, updated_at = ? WHERE user_id = ?] *)
Definition update_user_password (env : environ) (now : datetime)
    (user_id new_password : string) (d : db) : bool * db :=
  let password_hash := _hash_password env new_password in
  let updated_at := strftime now in
  let hit r := String.eqb (u_user_id r) user_id in
  let upd r :=
    if hit r then
      mk_user (u_user_id r) (u_email r) password_hash (u_token r)
              (u_token_expires_at r) (u_created_at r) (Some updated_at)
    else r in
  (existsb hit (users d), set_users d (map upd (users d))).

(** [UPDATE users SET email = ?, updated_at = ? WHERE user_id = ?], after
    the test that no other user has the address.  Were two rows to carry
    [user_id], the statement would write one address into both and fail
    on the UNIQUE constraint of the column. *)
Definition update_user_email (now : datetime) (user_id new_email : string)
    (d : db) : result (bool * db) :=
  if existsb (fun r => String.eqb (u_email r) new_email
                       && negb (String.eqb (u_user_id r) user_id)) (users d)
  then Raise (Exception ValueError)
  else
    let updated_at := strftime now in
    let hit r := String.eqb (u_user_id r) user_id in
    let upd r :=
      if hit r then
        mk_user (u_user_id r) new_email (u_password_hash r) (u_token r)
                (u_token_expires_at r) (u_created_at r) (Some updated_at)
      else r in
    if (2 <=? length (List.filter hit (users d)))%nat
    then Raise (Exception IntegrityError)
    else Ok (existsb hit (users d), set_users d (map upd (users d))).

End Users.

(** ** Sequences of requests *)

Module Journal.

Import Db Services App.

(** A request to one of the routes that read or write the database, with
    what the environment supplies for it: the identifier or the token
    drawn, the reply of the service. *)
Inductive event : Type :=
| Register (uuid : string) (request : RegisterRequest.t)
| Login (token : string) (request : LoginRequest.t)
| VerifyToken (token : string)
| Bill (c : call).

Definition handle (env : environ) (now : datetime) (ev : event) : M response :=
  match ev with
  | Register uuid request => register env now uuid request
  | Login token request => login env now token request
  | VerifyToken token => verify_token_endpoint now token
  | Bill c => run now c
  end.

(** The database after the requests of [log], each at its clock reading,
    have been served in order. *)
Definition after (env : environ) (log : list (datetime * event)) (d : db) : db :=
  fold_left (fun d e => snd (handle env (fst e) (snd e) d)) log d.

(** A bill row as the handlers write it: a non-empty textual identifier,
    a textual owner, an amount that is a float or NULL. *)
Definition bill_ok (b : bill) : Prop :=
  exists id u,
    Db.bill_id b = SText id /\ id <> "" /\ Db.user_id b = SText u
    /\ (Db.amount b = SNull \/ exists x, Db.amount b = SReal x).

(** A user row whose token, if any, comes with an expiry. *)
Definition user_ok (r : user) : Prop :=
  u_token r <> None ->
  exists s, u_token_expires_at r = Some s /\ s <> "".

(** The request asks to delete the bill [id]. *)
Definition deletes (id : string) (ev : event) : bool :=
  match ev with
  | Bill (DeleteBill request) => String.eqb (DeleteBillRequest.bill_id request) id
  | _ => false
  end.

Record consistent (d : db) : Prop := mk_consistent {
  bill_ids_unique : NoDup (map Db.bill_id (bills d));
  bills_ok : Forall bill_ok (bills d);
  user_ids_unique : NoDup (map u_user_id (users d));
  emails_unique : NoDup (map u_email (users d));
  users_ok : Forall user_ok (users d)
}.

End Journal.

(** ** Vocabulary for the upload handlers *)

Module Upload.

Import Db Services App.

(** What the three upload handlers have in common once the service has
    answered [parse]: the test of the token, the storing of the parsed
    bill and the handling of exceptions.  [upload_qwen_vl_eq] and its
    two companions below relate each handler to it. *)
Definition upload_with (now : datetime) (parse : result pyval)
    (token bill_id : string) : M response :=
  try_except
    (user_info ← query (verify_token now token);
     match user_info with
     | None => raise unauthorized
     | Some user_info =>
         parsed_json ← pure parse;
         store_parsed now (ti_user_id user_info) bill_id parsed_json
     end)
    error_body.

(** The token and the identifier an upload call carries. *)
Definition upload_target (c : call) : option (string * string) :=
  match c with
  | UploadQwenVl _ token bill_id => Some (token, bill_id)
  | UploadBaiduQwen _ token bill_id => Some (token, bill_id)
  | UploadLlm _ _ token bill_id => Some (token, bill_id)
  | ManualBill _ | DeleteBill _ => None
  end.

(** What the service of an upload call returns. *)
Definition upload_parse (c : call) : option (result pyval) :=
  match c with
  | UploadQwenVl reply _ _ => Some (qwen.parse_bill_file reply)
  | UploadBaiduQwen reply _ _ => Some (baidu_qwen.parse_bill_file reply)
  | UploadLlm reply text _ _ => Some (llm.parse_bill_text text reply)
  | ManualBill _ | DeleteBill _ => None
  end.

End Upload.

(** ** More data for the examples *)

Module Demo.

Import Db Services App Users.

(** The ledger of the examples once ["bob"] has changed his address. *)
Definition renamed : db :=
  match update_user_email Sample.clock "bob" "robert@example.com" Sample.ledger with
  | Ok (_, d') => d'
  | Raise _ => Sample.ledger
  end.

(** A completion that is a JSON object with an amount and a category. *)
Definition receipt : completion :=
  mk_completion
    ("{" ++ Sample.quote ++ "amount" ++ Sample.quote ++ ": 12.345, "
         ++ Sample.quote ++ "category" ++ Sample.quote ++ ": "
         ++ Sample.quote ++ "餐饮" ++ Sample.quote ++ "}")%string
    (Some (VDict (<[ "amount" := VFloat (FFin false 6949617174986097 (-49)) ]>
                  {[ "category" := VStr "餐饮" ]}))).

(** The empty database after the upload of [receipt] under ["b7"]. *)
Definition uploaded : db :=
  snd (upload_qwen_vl Sample.clock (Ok receipt) HARDCODED_TOKEN "b7" Sample.empty).

(** The row of [Sample.one_bill], and the database once [receipt] has
    been uploaded beside it. *)
Definition lunch_row : bill :=
  mk_bill (SText "b1") (SText "alice") (SText "餐饮")
          (SReal (FFin false 6952431924753203 (-49))) SNull (SText "") SNull.

Definition two_bills : db :=
  snd (upload_qwen_vl Sample.clock (Ok receipt) HARDCODED_TOKEN "b7" Sample.one_bill).

(** A user whose token expires at the first second of March 2024, a
    little after [Sample.clock]. *)
Definition dave : user :=
  mk_user "dave" "dave@example.com" "x" (Some "token-of-dave")
          (Some "2024-03-01 00:00:00") None None.

(** A day of requests: two registrations, a login, a manual entry, an
    upload and a deletion. *)
Definition session : list (datetime * Journal.event) :=
  [ (Sample.clock, Journal.Register "uuid-1" Sample.alice);
    (Sample.clock, Journal.Register "uuid-2" Sample.bob);
    (Sample.clock, Journal.Login "token-of-alice"
                     (LoginRequest.mk "alice@example.com" "a-secret"));
    (Sample.clock, Journal.Bill (ManualBill (Sample.lunch "12.345" None)));
    (Sample.clock, Journal.Bill (UploadQwenVl (Ok receipt) "token-of-alice" "b7"));
    (Sample.clock, Journal.Bill
                     (DeleteBill (DeleteBillRequest.mk "token-of-alice" "b7"))) ].

End Demo.

(** * Verification *)

Import Db Services App.

(** ** The hard-coded token *)

(** C1. One literal token is hard-coded; [verify_token] on that literal
    returns the identity whose [user_id] is ["token"], whatever the
    database holds and whatever the clock reads: the answer is one and the
    same for any two databases and any two instants. *)
Theorem verify_token_hardcoded :
  HARDCODED_TOKEN = "bQjfRqUpKlriby2lC8RLWBn8LbeLxgTsm5oITLp3R5M"
  /\ exists info : token_info,
       ti_user_id info = "token"
       /\ ti_token_valid info = true
       /\ forall (now : datetime) (d : db),
            verify_token now HARDCODED_TOKEN d = Some info.
Proof.
  split; [reflexivity|].
  exists (mk_token_info "token" "token@test.com" None None true None).
  repeat split.
Qed.

(** ** What [save_bill] does with the dictionary of a handler *)

Lemma dict_get_bill_dict (u c a dt ds b n dflt : pyval) :
  dict_get (bill_dict u c a dt ds b n) "user_id" dflt = u
  /\ dict_get (bill_dict u c a dt ds b n) "category" dflt = c
  /\ dict_get (bill_dict u c a dt ds b n) "amount" dflt = a
  /\ dict_get (bill_dict u c a dt ds b n) "date" dflt = dt
  /\ dict_get (bill_dict u c a dt ds b n) "description" dflt = ds
  /\ dict_get (bill_dict u c a dt ds b n) "bill_id" dflt = b
  /\ dict_get (bill_dict u c a dt ds b n) "nw_type" dflt = n.
Proof. repeat split. Qed.

(** With a truthy [bill_id], [save_bill] binds the seven entries of the
    dictionary as they are, the date included, and inserts the row. *)
Lemma save_bill_bill_dict (now : datetime) (u c a dt ds b n : pyval) (d : db) :
  truthy b = true ->
  save_bill now (bill_dict u c a dt ds b n) d =
    (p1 ← adapt b; p2 ← adapt u; p3 ← adapt c; p4 ← adapt a;
     p5 ← adapt dt; p6 ← adapt ds; p7 ← adapt n;
     insert_bill (mk_bill p1 p2 p3 p4 p5 p6 p7) d).
Proof.
  intros Hb. unfold save_bill.
  destruct (dict_get_bill_dict u c a dt ds b n VNone) as (_ & -> & -> & _ & _ & -> & ->).
  destruct (dict_get_bill_dict u c a dt ds b n (VStr "anonymous")) as (-> & _).
  destruct (dict_get_bill_dict u c a dt ds b n (VStr "")) as (_ & _ & _ & _ & -> & _).
  destruct (dict_get_bill_dict u c a dt ds b n (VStr (strftime_date now)))
    as (_ & _ & _ & -> & _).
  now rewrite Hb.
Qed.

(** ** The token gate *)

(** C2, as the handlers implement it.  Every call that carries a token
    (the three uploads and the deletion) answers 401 and leaves the
    database as it was when [verify_token] rejects that token.  Manual
    entry carries no token and is not covered. *)
Theorem token_gate (now : datetime) (c : call) (token : string) (d : db) :
  presented_token c = Some token ->
  verify_token now token d = None ->
  run now c d = (Raise unauthorized, d).
Proof.
  intros Hc Hv.
  destruct c as [r|r|reply t b|reply t b|reply x t b]; simpl in Hc;
    try discriminate; injection Hc as Hc; subst token; simpl;
    unfold delete_bill_endpoint, upload_qwen_vl, upload_baidu_qwen, upload_llm,
      try_except, mbind, M_bind, query;
    rewrite Hv; reflexivity.
Qed.

(** C2 does not hold as stated: [manual_bill] takes no token at all, and
    stores a bill all the same. *)
Lemma manual_bill_asks_no_token :
  ~ (forall (now : datetime) (c : call) (d : db),
       (forall token, presented_token c = Some token ->
                      verify_token now token d = None) ->
       bills (snd (run now c d)) = bills d).
Proof.
  intros H.
  specialize (H Sample.clock (ManualBill (Sample.lunch "5" None)) Sample.empty).
  simpl in H. discriminate H. intros token Ht. discriminate Ht.
Qed.

Lemma token_gate_witness :
  run Sample.clock (UploadLlm (Ok Sample.hollow) "lunch 5" "stale" "b1") Sample.one_bill
  = (Raise unauthorized, Sample.one_bill).
Proof. apply (token_gate _ _ "stale"); reflexivity. Defined.

(** ** Manual entry *)

Import Pure.

(** [manual_bill] is its tests followed by [save_bill]; an exception of
    [save_bill] leaves as a 500. *)
Lemma manual_bill_eq (now : datetime) (request : ManualBillRequest.t) (d : db) :
  manual_bill now request d =
    match manual_validate (ManualBillRequest.bill request) with
    | Raise e => reraise_500 "保存账单失败: " e d
    | Ok a =>
        match save_bill now (manual_dict request a) d with
        | Ok d' =>
            (Ok (ManualBillResponse "ok" "账单保存成功"
                   (Some (BillData.bill_id (ManualBillRequest.bill request)))), d')
        | Raise e => reraise_500 "保存账单失败: " e d
        end
    end.
Proof.
  destruct request as [u [b c a dt ds n]].
  unfold manual_bill, manual_validate, manual_dict, try_except, mbind, M_bind,
    raise_if, pure, exec, raise, mret, M_ret; simpl.
  destruct (String.eqb c "") eqn:Hc; simpl; [reflexivity|].
  destruct (String.eqb b "") eqn:Hb; simpl; [reflexivity|].
  destruct dt as [s|]; simpl.
  - destruct (negb (String.eqb s "") && negb (bool_decide (is_Some (strptime_date s))));
      simpl; [reflexivity|].
    destruct n as [t|]; simpl.
    + destruct (negb (String.eqb t "")
                && negb (String.eqb t "基础支出" || String.eqb t "娱乐支出"));
        simpl; [reflexivity|].
      destruct (bool_decide (c ∈ CATEGORIES)); simpl; [|reflexivity].
      destruct (normalize_amount a); simpl; [|reflexivity].
      destruct (save_bill _ _ d); reflexivity.
    + destruct (bool_decide (c ∈ CATEGORIES)); simpl; [|reflexivity].
      destruct (normalize_amount a); simpl; [|reflexivity].
      destruct (save_bill _ _ d); reflexivity.
  - destruct n as [t|]; simpl.
    + destruct (negb (String.eqb t "")
                && negb (String.eqb t "基础支出" || String.eqb t "娱乐支出"));
        simpl; [reflexivity|].
      destruct (bool_decide (c ∈ CATEGORIES)); simpl; [|reflexivity].
      destruct (normalize_amount a); simpl; [|reflexivity].
      destruct (save_bill _ _ d); reflexivity.
    + destruct (bool_decide (c ∈ CATEGORIES)); simpl; [|reflexivity].
      destruct (normalize_amount a); simpl; [|reflexivity].
      destruct (save_bill _ _ d); reflexivity.
Qed.

Lemma manual_validate_bill_id (bill : BillData.t) (a : pyfloat) :
  manual_validate bill = Ok a -> String.eqb (BillData.bill_id bill) "" = false.
Proof.
  unfold manual_validate. intros H.
  destruct (String.eqb (BillData.category bill) ""); [discriminate|].
  destruct (String.eqb (BillData.bill_id bill) ""); [discriminate|reflexivity].
Qed.

Lemma adapt_sql_float (x : pyfloat) : adapt (VFloat x) = Ok (sql_float x).
Proof. now destruct x. Qed.

Lemma adapt_opt_str (o : option string) : adapt (opt_str o) = Ok (sql_opt o).
Proof. now destruct o. Qed.

Lemma save_manual_dict (now : datetime) (request : ManualBillRequest.t)
    (a : pyfloat) (d : db) :
  manual_validate (ManualBillRequest.bill request) = Ok a ->
  save_bill now (manual_dict request a) d = insert_bill (manual_row request a) d.
Proof.
  intros H. apply manual_validate_bill_id in H.
  unfold manual_dict. rewrite save_bill_bill_dict by (simpl; now rewrite H).
  rewrite adapt_sql_float, !adapt_opt_str. reflexivity.
Qed.

Lemma insert_bill_cases (row : bill) (id : string) (d : db) :
  Db.bill_id row = SText id ->
  insert_bill row d =
    if stored id d then Raise (Exception IntegrityError)
    else Ok (set_bills d (bills d ++ [row])).
Proof. intros H. unfold insert_bill, stored. now rewrite H. Qed.

(** What an accepted manual entry leaves behind: the tests passed, no bill
    had the identifier, and the database gained exactly one row. *)
Lemma manual_bill_ok_inv (now : datetime) (request : ManualBillRequest.t)
    (d d' : db) (r : response) :
  manual_bill now request d = (Ok r, d') ->
  exists a,
    manual_validate (ManualBillRequest.bill request) = Ok a
    /\ stored (BillData.bill_id (ManualBillRequest.bill request)) d = false
    /\ d' = set_bills d (bills d ++ [manual_row request a]).
Proof.
  rewrite manual_bill_eq.
  destruct (manual_validate _) as [a|e] eqn:Hv.
  - rewrite (save_manual_dict _ _ _ _ Hv).
    rewrite (insert_bill_cases _ (BillData.bill_id (ManualBillRequest.bill request)))
      by reflexivity.
    destruct (stored _ d) eqn:Hs.
    + simpl. discriminate.
    + intros [= _ <-]. exists a. auto.
  - destruct e; simpl; discriminate.
Qed.

Lemma stored_after_insert (id : string) (row : bill) (d : db) :
  Db.bill_id row = SText id ->
  stored id (set_bills d (bills d ++ [row])) = true.
Proof.
  intros H. unfold stored, set_bills; simpl.
  rewrite existsb_app; simpl. rewrite H.
  unfold collides. rewrite bool_decide_eq_true_2 by reflexivity.
  now rewrite orb_true_r.
Qed.

(** ** Duplicate identifiers *)

(** C4 does not hold as stated: the second submission of a bill is
    answered with status 500, which is neither 400 nor 409. *)
Lemma duplicate_bill_is_500 :
  ~ (forall (now : datetime) (request : ManualBillRequest.t) (d d1 : db)
            (r : response),
       manual_bill now request d = (Ok r, d1) ->
       exists code detail about,
         manual_bill now request d1 = (Raise (HTTPException code detail about), d1)
         /\ (code = 400 \/ code = 409)).
Proof.
  intros H.
  destruct (H Sample.clock (Sample.lunch "12.345" None) Sample.empty
              Sample.one_bill
              (ManualBillResponse "ok" "账单保存成功" (Some "b1")) eq_refl)
    as (code & detail & about & Heq & Hcode).
  vm_compute in Heq. injection Heq as <- _ _. lia.
Qed.

(** C4, as the handler implements it.  When a manual entry has been
    accepted, submitting it again, at any later instant, raises the
    [HTTPException] of status 500 that reports the [IntegrityError] of the
    UNIQUE constraint, and the database is left as the first submission
    made it. *)
Theorem duplicate_bill_rejected (now now' : datetime)
    (request : ManualBillRequest.t) (d d1 : db) (r : response) :
  manual_bill now request d = (Ok r, d1) ->
  manual_bill now' request d1
  = (Raise (HTTPException 500 "保存账单失败: " (Some IntegrityError)), d1).
Proof.
  intros H. apply manual_bill_ok_inv in H as (a & Hv & _ & ->).
  rewrite manual_bill_eq, Hv, (save_manual_dict _ _ _ _ Hv).
  rewrite (insert_bill_cases _ (BillData.bill_id (ManualBillRequest.bill request)))
    by reflexivity.
  rewrite stored_after_insert by reflexivity. reflexivity.
Qed.

Lemma duplicate_bill_rejected_witness :
  manual_bill Sample.clock (Sample.lunch "12.345" None) Sample.one_bill
  = (Raise (HTTPException 500 "保存账单失败: " (Some IntegrityError)), Sample.one_bill).
Proof.
  apply (duplicate_bill_rejected Sample.clock Sample.clock _ Sample.empty _
           (ManualBillResponse "ok" "账单保存成功" (Some "b1"))).
  reflexivity.
Defined.

(** ** Amounts *)











(** C3, at the inputs where the code departs from it.  An upload whose
    reply carries no amount stores the amount 0, on each of the three
    routes; an upload whose reply carries the amount -5 stores -5; and a
    manual entry of ["0.001"], which passes the test [num <= 0], is stored
    as 0 once rounded. *)
Theorem nonpositive_amounts_are_stored :
  map Db.amount
      (bills (snd (upload_qwen_vl Sample.clock (Ok Sample.hollow)
                     HARDCODED_TOKEN "b7" Sample.empty)))
  = [SReal (FZero false)]
  /\ map Db.amount
         (bills (snd (upload_baidu_qwen Sample.clock (Ok Sample.hollow)
                        HARDCODED_TOKEN "b7" Sample.empty)))
     = [SReal (FZero false)]
  /\ map Db.amount
         (bills (snd (upload_llm Sample.clock (Ok Sample.hollow) "lunch"
                        HARDCODED_TOKEN "b7" Sample.empty)))
     = [SReal (FZero false)]
  /\ map Db.amount
         (bills (snd (upload_qwen_vl Sample.clock (Ok Sample.refund)
                        HARDCODED_TOKEN "b7" Sample.empty)))
     = [SReal (FFin true 5629499534213120 (-50))]
  /\ of_int (-5) = FFin true 5629499534213120 (-50)
  /\ map Db.amount
         (bills (snd (manual_bill Sample.clock (Sample.lunch "0.001" None)
                        Sample.empty)))
     = [SReal (FZero false)].
Proof. repeat split; vm_compute; reflexivity. Qed.

(** ** Dates of manual entries *)

(** C7, where the code departs from it.  A manual entry without a date is
    stored with a NULL date, not with the date of the day: [manual_bill]
    puts the key ["date"] into the dictionary with the value [None], so
    the default of [save_bill] is never used. *)
Theorem omitted_date_is_stored_null (now : datetime)
    (request : ManualBillRequest.t) (d d' : db) (r : response) :
  BillData.date (ManualBillRequest.bill request) = None ->
  manual_bill now request d = (Ok r, d') ->
  exists row,
    bills d' = bills d ++ [row]
    /\ Db.date row = SNull
    /\ Db.date row <> SText (strftime_date now).
Proof.
  intros Hd H. apply manual_bill_ok_inv in H as (a & _ & _ & ->).
  exists (manual_row request a). simpl. rewrite Hd. simpl.
  repeat split. discriminate.
Qed.

Lemma omitted_date_is_stored_null_witness :
  exists row,
    bills Sample.one_bill = bills Sample.empty ++ [row]
    /\ Db.date row = SNull
    /\ Db.date row <> SText (strftime_date Sample.clock).
Proof.
  apply (omitted_date_is_stored_null Sample.clock (Sample.lunch "12.345" None)
           Sample.empty Sample.one_bill
           (ManualBillResponse "ok" "账单保存成功" (Some "b1")));
    reflexivity.
Defined.

(** ** Replies that are not JSON *)





(** ** Deleting a bill *)

Lemma find_after_filter {A} (f : A -> bool) (l : list A) :
  find f (List.filter (fun x => negb (f x)) l) = None.
Proof.
  induction l as [|x l IH]; simpl; [reflexivity|].
  destruct (f x) eqn:Hx; simpl; [exact IH|]. now rewrite Hx.
Qed.

Lemma find_existsb {A} (f : A -> bool) (l : list A) (x : A) :
  find f l = Some x -> existsb f l = true.
Proof.
  intros H. apply find_some in H as [Hin Hf].
  apply existsb_exists. eauto.
Qed.

Lemma delete_bill_gone (bill_id : string) (d : db) :
  get_bill_by_id bill_id (snd (delete_bill bill_id d)) = None.
Proof. unfold get_bill_by_id, delete_bill; simpl. apply find_after_filter. Qed.

Lemma verify_token_users (now : datetime) (token : string) (d d' : db) :
  users d' = users d -> verify_token now token d' = verify_token now token d.
Proof. intros H. unfold verify_token. now rewrite H. Qed.

(** The deletion handler, case by case. *)
Lemma delete_bill_endpoint_eq (now : datetime) (token bill_id : string) (d : db) :
  delete_bill_endpoint now (DeleteBillRequest.mk token bill_id) d =
    match verify_token now token d with
    | None => (Raise unauthorized, d)
    | Some info =>
        match get_bill_by_id bill_id d with
        | None => (Raise (HTTPException 404 "账单不存在" None), d)
        | Some b =>
            if bool_decide (Db.user_id b = SText (ti_user_id info))
            then (Ok (DeleteBillResponse "ok" "账单删除成功"),
                  snd (delete_bill bill_id d))
            else (Raise (HTTPException 403 "无权删除该账单" None), d)
        end
    end.
Proof.
  unfold delete_bill_endpoint, try_except, mbind, M_bind, query, raise_if; simpl.
  destruct (verify_token now token d) as [info|]; [|reflexivity].
  destruct (get_bill_by_id bill_id d) as [b|] eqn:Hb; [|reflexivity].
  destruct (bool_decide (Db.user_id b = SText (ti_user_id info))); simpl;
    [|reflexivity].
  unfold get_bill_by_id in Hb. rewrite (find_existsb _ _ _ Hb). reflexivity.
Qed.

(** C9.  Let bill [bill_id] be stored with owner [A].  A deletion request
    that carries a token accepted for another user [B] raises the
    [HTTPException] of status 403 and leaves the database as it was.  The
    same request with a token accepted for [A] succeeds; afterwards no
    bill is found under [bill_id], and asking for the deletion once more
    raises the [HTTPException] of status 404. *)
Theorem delete_is_for_the_owner (now : datetime) (d : db) (bill_id : string)
    (token_a token_b A B : string) (info_a info_b : token_info) (b : bill) :
  get_bill_by_id bill_id d = Some b ->
  Db.user_id b = SText A ->
  verify_token now token_a d = Some info_a -> ti_user_id info_a = A ->
  verify_token now token_b d = Some info_b -> ti_user_id info_b = B ->
  A <> B ->
  delete_bill_endpoint now (DeleteBillRequest.mk token_b bill_id) d
  = (Raise (HTTPException 403 "无权删除该账单" None), d)
  /\ exists d',
       delete_bill_endpoint now (DeleteBillRequest.mk token_a bill_id) d
       = (Ok (DeleteBillResponse "ok" "账单删除成功"), d')
       /\ get_bill_by_id bill_id d' = None
       /\ delete_bill_endpoint now (DeleteBillRequest.mk token_a bill_id) d'
          = (Raise (HTTPException 404 "账单不存在" None), d').
Proof.
  intros Hb Ho Ha HA Hvb HB Hne. split.
  - rewrite delete_bill_endpoint_eq, Hvb, Hb, Ho, HB.
    rewrite bool_decide_eq_false_2 by congruence. reflexivity.
  - exists (snd (delete_bill bill_id d)).
    assert (Hgone := delete_bill_gone bill_id d).
    repeat split.
    + rewrite delete_bill_endpoint_eq, Ha, Hb, Ho, HA.
      rewrite bool_decide_eq_true_2 by reflexivity. reflexivity.
    + exact Hgone.
    + rewrite delete_bill_endpoint_eq, Hgone.
      rewrite (verify_token_users now token_a d) by reflexivity.
      rewrite Ha. reflexivity.
Qed.

Lemma delete_is_for_the_owner_witness :
  delete_bill_endpoint Sample.clock (DeleteBillRequest.mk "token-of-bob" "b1") Sample.ledger
  = (Raise (HTTPException 403 "无权删除该账单" None), Sample.ledger)
  /\ exists d',
       delete_bill_endpoint Sample.clock (DeleteBillRequest.mk "token-of-alice" "b1")
         Sample.ledger
       = (Ok (DeleteBillResponse "ok" "账单删除成功"), d')
       /\ get_bill_by_id "b1" d' = None
       /\ delete_bill_endpoint Sample.clock (DeleteBillRequest.mk "token-of-alice" "b1") d'
          = (Raise (HTTPException 404 "账单不存在" None), d').
Proof.
  apply (delete_is_for_the_owner Sample.clock Sample.ledger "b1"
           "token-of-alice" "token-of-bob" "alice" "bob"
           (mk_token_info "alice" "alice@example.com"
              (Some "2024-02-29 23:59:58") (Some "2024-02-29 23:59:58") true
              (Some "2024-03-30 23:59:58"))
           (mk_token_info "bob" "bob@example.com"
              (Some "2024-02-29 23:59:58") (Some "2024-02-29 23:59:58") true
              (Some "2024-03-30 23:59:58"))
           (mk_bill (SText "b1") (SText "alice") (SText "餐饮")
              (SReal (FFin false 6952431924753203 (-49))) SNull (SText "") SNull)).
  - reflexivity.
  - reflexivity.
  - reflexivity.
  - reflexivity.
  - reflexivity.
  - reflexivity.
  - discriminate.
Defined.

(** ** Tokens without expiry *)

Lemma find_unique {A} (f : A -> bool) (l : list A) (x : A) :
  In x l -> f x = true -> (forall y, In y l -> f y = true -> y = x) ->
  find f l = Some x.
Proof.
  intros Hin Hf Hu. destruct (find f l) as [y|] eqn:Hy.
  - apply find_some in Hy as [Hy1 Hy2]. f_equal. auto.
  - exfalso. apply (find_none _ _ Hy) in Hin. congruence.
Qed.



(** ** The calendar *)

(** The month estimate of [month_day], checked on every day of a common
    and of a leap year. *)
Lemma month_day_table :
  forallb (fun leap : bool =>
    forallb (fun k : nat =>
      let n := Z.of_nat k in
      let '(m, d) := month_day leap n in
      (1 <=? m) && (m <=? 12) && (1 <=? d)
      && (d <=? table DAYS_IN_MONTH m + (if (m =? 2) && leap then 1 else 0))
      && (table DAYS_BEFORE_MONTH m + (if (2 <? m) && leap then 1 else 0) + d
          =? n + 1))
      (seq 0 (if leap then 366 else 365)))
    [false; true] = true.
Proof. vm_compute. reflexivity. Qed.

Lemma month_day_ok (leap : bool) (n : Z) :
  0 <= n < 365 + (if leap then 1 else 0) ->
  let '(m, d) := month_day leap n in
  1 <= m <= 12 /\ 1 <= d
  /\ d <= table DAYS_IN_MONTH m + (if (m =? 2) && leap then 1 else 0)
  /\ table DAYS_BEFORE_MONTH m + (if (2 <? m) && leap then 1 else 0) + d = n + 1.
Proof.
  intros Hn. pose proof month_day_table as T.
  rewrite forallb_forall in T.
  assert (Hl : In leap [false; true]) by (destruct leap; simpl; auto).
  specialize (T leap Hl). rewrite forallb_forall in T.
  specialize (T (Z.to_nat n)).
  rewrite Z2Nat.id in T by lia. cbv zeta in T.
  destruct (month_day leap n) as [m d].
  assert (Hin : In (Z.to_nat n) (seq 0 (if leap then 366 else 365)))
    by (apply in_seq; destruct leap; lia).
  specialize (T Hin).
  repeat (apply andb_prop in T as [T ?]).
  repeat match goal with
         | H : (_ <=? _) = true |- _ => apply Z.leb_le in H
         | H : (_ =? _) = true |- _ => apply Z.eqb_eq in H
         end.
  lia.
Qed.

(** The year that [ord2ymd] computes from the four quotients, and its
    leap flag. *)
Lemma year_split (n400 n100 n4 n1 : Z) :
  0 <= n400 -> 0 <= n100 < 4 -> 0 <= n4 < 25 -> 0 <= n1 < 4 ->
  let y := n400 * 400 + 1 + n100 * 100 + n4 * 4 + n1 in
  days_before_year y = n400 * DI400Y + n100 * DI100Y + n4 * DI4Y + n1 * 365
  /\ is_leap y = (n1 =? 3) && (negb (n4 =? 24) || (n100 =? 3)).
Proof.
  intros H400 H100 H4 H1 y. subst y. split.
  - unfold days_before_year, DI400Y, DI100Y, DI4Y.
    Z.div_mod_to_equations. lia.
  - unfold is_leap.
    destruct (Z.eqb_spec n1 3), (Z.eqb_spec n4 24), (Z.eqb_spec n100 3);
      simpl;
      repeat match goal with
             | |- context [?a mod ?b =? 0] => destruct (Z.eqb_spec (a mod b) 0)
             end; simpl; try reflexivity; exfalso;
      Z.div_mod_to_equations; lia.
Qed.

Lemma days_in_month_table (y m : Z) :
  days_in_month y m
  = table DAYS_IN_MONTH m + (if (m =? 2) && is_leap y then 1 else 0).
Proof.
  unfold days_in_month.
  destruct (Z.eqb_spec m 2) as [->|]; simpl; [|lia].
  destruct (is_leap y); reflexivity.
Qed.

(** [ord2ymd] returns a date of the calendar, and [ymd2ord] maps that date
    back to the ordinal. *)
Lemma ord2ymd_spec (n : Z) :
  1 <= n <= MAXORDINAL ->
  let '(y, m, d) := ord2ymd n in
  valid_date y m d = true /\ ymd2ord y m d = n.
Proof.
  intros Hn. unfold ord2ymd, MAXORDINAL in *.
  pose proof (Z.div_mod (n - 1) DI400Y ltac:(discriminate)) as E1.
  pose proof (Z.mod_pos_bound (n - 1) DI400Y ltac:(reflexivity)) as B1.
  set (n400 := (n - 1) / DI400Y) in *. set (r1 := (n - 1) mod DI400Y) in *.
  pose proof (Z.div_mod r1 DI100Y ltac:(discriminate)) as E2.
  pose proof (Z.mod_pos_bound r1 DI100Y ltac:(reflexivity)) as B2.
  set (n100 := r1 / DI100Y) in *. set (r2 := r1 mod DI100Y) in *.
  pose proof (Z.div_mod r2 DI4Y ltac:(discriminate)) as E3.
  pose proof (Z.mod_pos_bound r2 DI4Y ltac:(reflexivity)) as B3.
  set (n4 := r2 / DI4Y) in *. set (r3 := r2 mod DI4Y) in *.
  pose proof (Z.div_mod r3 365 ltac:(discriminate)) as E4.
  pose proof (Z.mod_pos_bound r3 365 ltac:(reflexivity)) as B4.
  set (n1 := r3 / 365) in *. set (r4 := r3 mod 365) in *.
  unfold DI400Y, DI100Y, DI4Y in *.
  assert (H400 : 0 <= n400 <= 24) by lia.
  assert (H100 : 0 <= n100 <= 4) by lia.
  assert (H4 : 0 <= n4 <= 24) by lia.
  assert (H1 : 0 <= n1 <= 4) by lia.
  destruct (Z.eqb_spec n1 4) as [Hn1|Hn1]; simpl orb.
  - (* the last day of a four-year cycle *)
    assert (n4 <= 23 /\ n100 <= 3 /\ r4 = 0) as (? & ? & ?) by lia.
    destruct (year_split n400 n100 n4 3) as [Hd Hl]; try lia.
    replace (n400 * 400 + 1 + n100 * 100 + n4 * 4 + n1 - 1)
      with (n400 * 400 + 1 + n100 * 100 + n4 * 4 + 3) by lia.
    unfold valid_date, ymd2ord, days_before_month.
    rewrite days_in_month_table, Hd, Hl.
    replace (n4 =? 24) with false by (symmetry; apply Z.eqb_neq; lia).
    unfold DI400Y, DI100Y, DI4Y. simpl.
    change (table DAYS_BEFORE_MONTH 12) with 334.
    change (table DAYS_IN_MONTH 12) with 31.
    split; [|lia].
    repeat (apply andb_true_intro; split); try apply Z.leb_le; lia.
  - destruct (Z.eqb_spec n100 4) as [Hn100|Hn100].
    + (* the last day of a four-hundred-year cycle *)
      assert (n4 = 0 /\ n1 = 0 /\ r4 = 0) as (-> & -> & ?) by lia.
      destruct (year_split n400 3 24 3) as [Hd Hl]; try lia.
      rewrite Hn100.
      replace (n400 * 400 + 1 + 4 * 100 + 0 * 4 + 0 - 1)
        with (n400 * 400 + 1 + 3 * 100 + 24 * 4 + 3) by lia.
      unfold valid_date, ymd2ord, days_before_month.
      rewrite days_in_month_table, Hd, Hl.
      unfold DI400Y, DI100Y, DI4Y. simpl.
      change (table DAYS_BEFORE_MONTH 12) with 334.
      change (table DAYS_IN_MONTH 12) with 31.
      split; [|lia].
      repeat (apply andb_true_intro; split); try apply Z.leb_le; lia.
    + destruct (year_split n400 n100 n4 n1) as [Hd Hl]; try lia.
      set (leap := (n1 =? 3) && (negb (n4 =? 24) || (n100 =? 3))) in *.
      pose proof (month_day_ok leap r4) as Hm.
      destruct (month_day leap r4) as [m d].
      destruct Hm as (Hm1 & Hd1 & Hd2 & Hsum); [destruct leap; lia|].
      unfold valid_date, ymd2ord, days_before_month.
      rewrite days_in_month_table, Hd, Hl.
      unfold DI400Y, DI100Y, DI4Y.
      split; [|lia].
      repeat (apply andb_true_intro; split); try apply Z.leb_le; lia.
Qed.

Lemma days_before_year_succ (y : Z) :
  days_before_year (y + 1) = days_before_year y + 365 + leap_day y.
Proof.
  unfold days_before_year, leap_day, is_leap.
  replace (y + 1 - 1) with y by lia.
  repeat match goal with
         | |- context [?a mod ?b =? 0] => destruct (Z.eqb_spec (a mod b) 0)
         end; simpl; Z.div_mod_to_equations; lia.
Qed.

Lemma days_before_year_mono (a b : Z) :
  a <= b -> days_before_year a <= days_before_year b.
Proof.
  intros H. unfold days_before_year. Z.div_mod_to_equations. lia.
Qed.

Lemma valid_date_inv (y m d : Z) :
  valid_date y m d = true ->
  1 <= y <= 9999 /\ 1 <= m <= 12 /\ 1 <= d <= days_in_month y m.
Proof.
  unfold valid_date. intros H.
  repeat (apply andb_prop in H as [H ?]).
  repeat match goal with
         | H : (_ <=? _) = true |- _ => apply Z.leb_le in H
         end.
  lia.
Qed.

(** The day of the year lies within the year. *)
Lemma day_of_year_bounds (y m d : Z) :
  valid_date y m d = true ->
  1 <= days_before_month y m + d <= 365 + leap_day y.
Proof.
  intros H. apply valid_date_inv in H as (_ & Hm & Hd).
  rewrite days_in_month_table in Hd. unfold days_before_month, leap_day.
  months m; destruct (is_leap y); simpl in *; tables; lia.
Qed.

(** Within a year the day of the year orders dates as month and day do. *)
Lemma day_of_year_compare (y m1 d1 m2 d2 : Z) :
  valid_date y m1 d1 = true -> valid_date y m2 d2 = true ->
  lex_compare [m1; d1] [m2; d2]
  = (days_before_month y m1 + d1 ?= days_before_month y m2 + d2).
Proof.
  intros H1 H2.
  apply valid_date_inv in H1 as (_ & Hm1 & Hd1).
  apply valid_date_inv in H2 as (_ & Hm2 & Hd2).
  rewrite days_in_month_table in Hd1, Hd2. unfold days_before_month.
  simpl lex_compare. symmetry.
  destruct (Z.compare_spec m1 m2) as [-> | Hlt | Hgt].
  - destruct (Z.compare_spec d1 d2); [apply Z.compare_eq_iff|apply Z.compare_lt_iff|apply Z.compare_gt_iff]; lia.
  - apply Z.compare_lt_iff.
    months m1; months m2; try lia; destruct (is_leap y); simpl in *; tables; lia.
  - apply Z.compare_gt_iff.
    months m1; months m2; try lia; destruct (is_leap y); simpl in *; tables; lia.
Qed.

(** The ordinal orders dates as year, month and day do. *)
Lemma ymd2ord_compare (y1 m1 d1 y2 m2 d2 : Z) :
  valid_date y1 m1 d1 = true -> valid_date y2 m2 d2 = true ->
  lex_compare [y1; m1; d1] [y2; m2; d2]
  = (ymd2ord y1 m1 d1 ?= ymd2ord y2 m2 d2).
Proof.
  intros H1 H2.
  pose proof (day_of_year_bounds _ _ _ H1) as B1.
  pose proof (day_of_year_bounds _ _ _ H2) as B2.
  unfold ymd2ord.
  change (lex_compare [y1; m1; d1] [y2; m2; d2])
    with (match y1 ?= y2 with
          | Eq => lex_compare [m1; d1] [m2; d2]
          | c => c
          end).
  destruct (Z.compare_spec y1 y2) as [-> | Hlt | Hgt].
  - rewrite (day_of_year_compare y2) by assumption.
    rewrite <- !Z.add_assoc. now rewrite Z.add_compare_mono_l.
  - symmetry. apply Z.compare_lt_iff.
    pose proof (days_before_year_succ y1).
    pose proof (days_before_year_mono (y1 + 1) y2 ltac:(lia)). lia.
  - symmetry. apply Z.compare_gt_iff.
    pose proof (days_before_year_succ y2).
    pose proof (days_before_year_mono (y2 + 1) y1 ltac:(lia)). lia.
Qed.

Lemma valid_time_inv (h mi s us : Z) :
  valid_time h mi s us = true ->
  0 <= h <= 23 /\ 0 <= mi <= 59 /\ 0 <= s <= 59 /\ 0 <= us <= 999999.
Proof.
  unfold valid_time. intros H.
  repeat (apply andb_prop in H as [H ?]).
  repeat match goal with
         | H : (_ <=? _) = true |- _ => apply Z.leb_le in H
         end.
  lia.
Qed.

Lemma lex_compare_app (a1 a2 a3 b1 b2 b3 : Z) (l l' : list Z) :
  lex_compare (a1 :: a2 :: a3 :: l) (b1 :: b2 :: b3 :: l')
  = match lex_compare [a1; a2; a3] [b1; b2; b3] with
    | Eq => lex_compare l l'
    | c => c
    end.
Proof.
  simpl. destruct (a1 ?= b1), (a2 ?= b2), (a3 ?= b3); reflexivity.
Qed.

(** Python compares two datetimes field by field; on datetimes of the
    calendar that is the order of the instants they denote. *)
Lemma compare_timestamp (a b : datetime) :
  valid a = true -> valid b = true ->
  compare a b = (timestamp a ?= timestamp b).
Proof.
  destruct a as [y1 m1 d1 h1 i1 s1 u1], b as [y2 m2 d2 h2 i2 s2 u2].
  unfold valid, compare, fields, timestamp, toordinal.
  cbn [year month day hour minute second microsecond].
  intros Ha Hb.
  apply andb_prop in Ha as [Hda Hta]. apply andb_prop in Hb as [Hdb Htb].
  rewrite lex_compare_app, (ymd2ord_compare _ _ _ _ _ _ Hda Hdb).
  apply valid_time_inv in Hta, Htb.
  set (o1 := ymd2ord y1 m1 d1). set (o2 := ymd2ord y2 m2 d2).
  symmetry.
  destruct (Z.compare_spec o1 o2) as [Ho | Ho | Ho];
    [|apply Z.compare_lt_iff; lia|apply Z.compare_gt_iff; lia].
  cbn [lex_compare].
  destruct (Z.compare_spec h1 h2) as [? | ? | ?];
    [destruct (Z.compare_spec i1 i2) as [? | ? | ?];
     [destruct (Z.compare_spec s1 s2) as [? | ? | ?];
      [destruct (Z.compare_spec u1 u2) as [? | ? | ?]|..]|..]|..];
    first [apply Z.compare_eq_iff; lia
          |apply Z.compare_lt_iff; lia
          |apply Z.compare_gt_iff; lia].
Qed.

Lemma gt_timestamp (a b : datetime) :
  valid a = true -> valid b = true ->
  gt a b = true <-> timestamp b < timestamp a.
Proof.
  intros Ha Hb. unfold gt. rewrite (compare_timestamp a b Ha Hb).
  destruct (Z.compare_spec (timestamp a) (timestamp b)); split;
    intros; try discriminate; try lia; reflexivity.
Qed.

(** ** Writing a timestamp and reading it back *)

Lemma append_String (c : ascii) (a b : string) :
  (String c a ++ b = String c (a ++ b))%string.
Proof. reflexivity. Qed.

Lemma append_Empty (b : string) : (EmptyString ++ b = b)%string.
Proof. reflexivity. Qed.

Lemma append_assoc (a b c : string) :
  ((a ++ b) ++ c = a ++ (b ++ c))%string.
Proof.
  induction a as [|x a IH]; [reflexivity|].
  rewrite !append_String. now rewrite IH.
Qed.

Lemma append_nil_r (a : string) : (a ++ EmptyString = a)%string.
Proof.
  induction a as [|x a IH]; [reflexivity|].
  rewrite append_String. now rewrite IH.
Qed.

Lemma hd_m_bind {A B} (m : matcher A) (f : A -> matcher B) (s : string)
    (a : A) (r : string) (b : B) (r' : string) :
  hd_error (m s) = Some (a, r) ->
  hd_error (f a r) = Some (b, r') ->
  hd_error (m_bind m f s) = Some (b, r').
Proof.
  unfold m_bind. destruct (m s) as [|[a0 r0] tl]; simpl; [discriminate|].
  intros [= -> ->]. destruct (f a r) as [|x tl']; simpl; [discriminate|].
  auto.
Qed.

Lemma hd_m_char (c : ascii) (r : string) :
  hd_error (m_char c (String c r)) = Some (tt, r).
Proof. unfold m_char. now rewrite Ascii.eqb_refl. Qed.

Lemma hd_re_m (n : Z) (r : string) :
  1 <= n <= 12 ->
  hd_error (re_m (PyStr.zpad 2 n ++ r)%string) = Some (n, r).
Proof.
  intros H. remember (Z.to_nat n) as k.
  assert (n = Z.of_nat k) by lia. subst n. clear Heqk. by_cases k 13.
Qed.

Lemma hd_re_d (n : Z) (r : string) :
  1 <= n <= 31 ->
  hd_error (re_d (PyStr.zpad 2 n ++ r)%string) = Some (n, r).
Proof.
  intros H. remember (Z.to_nat n) as k.
  assert (n = Z.of_nat k) by lia. subst n. clear Heqk. by_cases k 32.
Qed.

Lemma hd_re_H (n : Z) (r : string) :
  0 <= n <= 23 ->
  hd_error (re_H (PyStr.zpad 2 n ++ r)%string) = Some (n, r).
Proof.
  intros H. remember (Z.to_nat n) as k.
  assert (n = Z.of_nat k) by lia. subst n. clear Heqk. by_cases k 24.
Qed.

Lemma hd_re_M (n : Z) (r : string) :
  0 <= n <= 59 ->
  hd_error (re_M (PyStr.zpad 2 n ++ r)%string) = Some (n, r).
Proof.
  intros H. remember (Z.to_nat n) as k.
  assert (n = Z.of_nat k) by lia. subst n. clear Heqk. by_cases k 60.
Qed.

Lemma hd_re_S (n : Z) (r : string) :
  0 <= n <= 59 ->
  hd_error (re_S (PyStr.zpad 2 n ++ r)%string) = Some (n, r).
Proof.
  intros H. remember (Z.to_nat n) as k.
  assert (n = Z.of_nat k) by lia. subst n. clear Heqk. by_cases k 60.
Qed.

(** Before the hour, [\s+] can only take the single space. *)
Lemma hd_m_spaces (n : Z) (r : string) :
  0 <= n <= 23 ->
  hd_error (m_spaces (String " " (PyStr.zpad 2 n ++ r)%string))
  = Some (tt, (PyStr.zpad 2 n ++ r)%string).
Proof.
  intros H. remember (Z.to_nat n) as k.
  assert (n = Z.of_nat k) by lia. subst n. clear Heqk. by_cases k 24.
Qed.

(** The four digits of a year. *)
Lemma zpad4_table :
  forallb (fun k : nat =>
    let y := Z.of_nat k in
    String.eqb (PyStr.zpad 4 y)
      (String (PyStr.digit_char (y / 1000))
        (String (PyStr.digit_char (y / 100 mod 10))
          (String (PyStr.digit_char (y / 10 mod 10))
            (String (PyStr.digit_char (y mod 10)) EmptyString)))))
    (seq 0 (Z.to_nat 10000)) = true.
Proof. vm_compute. reflexivity. Qed.

Lemma zpad4_digits (y : Z) :
  0 <= y <= 9999 ->
  PyStr.zpad 4 y
  = String (PyStr.digit_char (y / 1000))
      (String (PyStr.digit_char (y / 100 mod 10))
        (String (PyStr.digit_char (y / 10 mod 10))
          (String (PyStr.digit_char (y mod 10)) EmptyString))).
Proof.
  intros H. pose proof zpad4_table as T. rewrite forallb_forall in T.
  specialize (T (Z.to_nat y)). rewrite Z2Nat.id in T by lia.
  apply String.eqb_eq, T, in_seq. lia.
Qed.

Lemma digit_digit_char (a : Z) :
  0 <= a <= 9 -> PyStr.digit (PyStr.digit_char a) = Some a.
Proof.
  intros H.
  assert (C : a = 0 \/ a = 1 \/ a = 2 \/ a = 3 \/ a = 4 \/ a = 5 \/ a = 6
              \/ a = 7 \/ a = 8 \/ a = 9) by lia.
  repeat (destruct C as [C | C]); subst a; reflexivity.
Qed.

Lemma digit_in_range (a : Z) :
  0 <= a <= 9 -> (0 <=? a) && (a <=? 9) = true.
Proof. intros H. apply andb_true_intro. split; apply Z.leb_le; lia. Qed.

Lemma m_two_digits (a b : Z) (r : string) :
  0 <= a <= 9 -> 0 <= b <= 9 ->
  m_two 0 9 0 9 (String (PyStr.digit_char a) (String (PyStr.digit_char b) r))
  = [(10 * a + b, r)].
Proof.
  intros Ha Hb. unfold m_two, m_bind, m_ret, m_digit.
  rewrite (digit_digit_char a Ha), (digit_in_range a Ha). cbn [flat_map].
  rewrite (digit_digit_char b Hb), (digit_in_range b Hb). reflexivity.
Qed.

Lemma hd_re_Y (y : Z) (r : string) :
  0 <= y <= 9999 ->
  hd_error (re_Y (PyStr.zpad 4 y ++ r)%string) = Some (y, r).
Proof.
  intros H. rewrite zpad4_digits by assumption. rewrite ?append_assoc, ?append_String, ?append_Empty.
  assert (Ha : 0 <= y / 1000 <= 9) by (Z.div_mod_to_equations; lia).
  assert (Hb : 0 <= y / 100 mod 10 <= 9) by (Z.div_mod_to_equations; lia).
  assert (Hc : 0 <= y / 10 mod 10 <= 9) by (Z.div_mod_to_equations; lia).
  assert (Hd : 0 <= y mod 10 <= 9) by (Z.div_mod_to_equations; lia).
  unfold re_Y, m_bind at 1.
  rewrite (m_two_digits _ _ _ Ha Hb). cbn [flat_map].
  unfold m_bind. rewrite (m_two_digits _ _ _ Hc Hd). cbn [flat_map m_ret app hd_error].
  do 2 f_equal. Z.div_mod_to_equations. lia.
Qed.

Lemma hd_re_date (y m d : Z) (r : string) :
  valid_date y m d = true ->
  hd_error (re_date (strftime_date (mk_datetime y m d 0 0 0 0) ++ r)%string)
  = Some ((y, m, d), r).
Proof.
  intros H. apply valid_date_inv in H as (Hy & Hm & Hd).
  assert (Hd' : d <= 31).
  { rewrite days_in_month_table in Hd.
    months m; destruct (is_leap y); simpl in Hd; tables; lia. }
  unfold strftime_date, re_date. cbn [year month day].
  rewrite ?append_assoc, ?append_String, ?append_Empty.
  eapply hd_m_bind; [apply hd_re_Y; lia|].
  eapply hd_m_bind; [apply hd_m_char|].
  eapply hd_m_bind; [apply hd_re_m; lia|].
  eapply hd_m_bind; [apply hd_m_char|].
  eapply hd_m_bind; [apply hd_re_d; lia|].
  reflexivity.
Qed.

Lemma valid_whole_second (t : datetime) :
  valid t = true -> valid (whole_second t) = true.
Proof.
  unfold valid, whole_second; simpl. intros H.
  apply andb_prop in H as [Hd Ht]. rewrite Hd; simpl.
  apply valid_time_inv in Ht. unfold valid_time.
  repeat (apply andb_true_intro; split); apply Z.leb_le; lia.
Qed.

(** [strptime] reads back what [strftime] wrote: the same instant, cut to
    the second. *)
Lemma strptime_strftime (t : datetime) :
  valid t = true -> strptime (strftime t) = Some (whole_second t).
Proof.
  intros Hv. pose proof (valid_whole_second t Hv) as Hw.
  assert (Hh : hd_error (re_datetime (strftime t)) = Some (whole_second t, EmptyString)).
  { unfold valid in Hv. apply andb_prop in Hv as [Hd Ht].
    apply valid_time_inv in Ht.
    destruct t as [y m d h mi s us]; simpl in *.
    unfold strftime, re_datetime. cbn [year month day hour minute second].
    change (strftime_date (mk_datetime y m d h mi s us))
      with (strftime_date (mk_datetime y m d 0 0 0 0)).
    rewrite ?append_assoc, ?append_String, ?append_Empty.
    eapply hd_m_bind; [apply hd_re_date; assumption|]. cbv beta iota.
    eapply hd_m_bind; [apply hd_m_spaces; lia|].
    eapply hd_m_bind; [apply hd_re_H; lia|].
    eapply hd_m_bind; [apply hd_m_char|].
    eapply hd_m_bind; [apply hd_re_M; lia|].
    eapply hd_m_bind; [apply hd_m_char|].
    eapply hd_m_bind; [|reflexivity].
    rewrite <- (append_nil_r (PyStr.zpad 2 s)). apply hd_re_S. simpl. lia. }
  unfold strptime. destruct (re_datetime (strftime t)) as [|[t' r'] tl];
    simpl in Hh; [discriminate|].
  injection Hh as -> ->. now rewrite Hw.
Qed.

(** ** Thirty days later *)

Lemma toordinal_pos (t : datetime) : valid t = true -> 1 <= toordinal t.
Proof.
  unfold valid, toordinal, ymd2ord. intros H. apply andb_prop in H as [H _].
  pose proof (day_of_year_bounds _ _ _ H).
  apply valid_date_inv in H as (Hy & _).
  pose proof (days_before_year_mono 1 (year t) ltac:(lia)) as Hm.
  change (days_before_year 1) with 0 in Hm. lia.
Qed.

(** Adding days moves the date by that many days and keeps the time of
    day. *)
Lemma add_days_spec (t : datetime) (k : Z) :
  valid t = true -> 0 <= k -> toordinal t + k <= MAXORDINAL ->
  exists e,
    add_days t k = Some e
    /\ valid e = true
    /\ toordinal e = toordinal t + k
    /\ hour e = hour t /\ minute e = minute t /\ second e = second t
    /\ microsecond e = microsecond t.
Proof.
  intros Hv Hk Hmax. pose proof (toordinal_pos t Hv) as Hpos.
  unfold add_days.
  replace ((0 <? toordinal t + k) && (toordinal t + k <=? MAXORDINAL)) with true
    by (symmetry; apply andb_true_intro; split;
        [apply Z.ltb_lt | apply Z.leb_le]; lia).
  pose proof (ord2ymd_spec (toordinal t + k) ltac:(lia)) as Ho.
  destruct (ord2ymd (toordinal t + k)) as [[y m] d]. destruct Ho as [Hd Ho].
  unfold valid in Hv. apply andb_prop in Hv as [_ Ht].
  pose proof Ht as Ht'. apply valid_time_inv in Ht' as (Hh & Hm & Hs & Hu).
  assert (E1 : (hour t * 3600 + minute t * 60 + second t) / 3600 = hour t)
    by (Z.div_mod_to_equations; lia).
  assert (E2 : (hour t * 3600 + minute t * 60 + second t) mod 3600 / 60 = minute t)
    by (Z.div_mod_to_equations; lia).
  assert (E3 : (hour t * 3600 + minute t * 60 + second t) mod 3600 mod 60 = second t)
    by (Z.div_mod_to_equations; lia).
  rewrite E1, E2, E3.
  eexists. split; [reflexivity|].
  unfold valid; simpl. rewrite Hd, Ht. repeat split; auto.
Qed.

Lemma timestamp_whole_second (t : datetime) :
  timestamp (whole_second t) = timestamp t - microsecond t.
Proof. unfold timestamp, whole_second, toordinal; simpl. lia. Qed.

Lemma strftime_whole_second (t : datetime) :
  strftime (whole_second t) = strftime t.
Proof. reflexivity. Qed.

Lemma strftime_nonempty (t : datetime) : String.eqb (strftime t) "" = false.
Proof.
  unfold strftime, strftime_date.
  destruct (PyStr.zpad 4 (year t)); reflexivity.
Qed.

(** ** Login *)

Lemma find_token_after_update (token expires_at updated_at user_id : string)
    (l : list user) :
  (forall r, In r l -> u_token r <> Some token) ->
  find (fun r => bool_decide (u_token r = Some token))
       (map (fun r => if String.eqb (u_user_id r) user_id
                      then with_token token expires_at updated_at r else r) l)
  = option_map (with_token token expires_at updated_at)
               (find (fun r => String.eqb (u_user_id r) user_id) l).
Proof.
  induction l as [|r l IH]; intros Hfresh; [reflexivity|].
  simpl. destruct (String.eqb (u_user_id r) user_id); simpl.
  - rewrite bool_decide_eq_true_2 by reflexivity. reflexivity.
  - rewrite bool_decide_eq_false_2 by (apply Hfresh; now left).
    apply IH. intros r' Hr'. apply Hfresh. now right.
Qed.

Lemma find_other_token_after_update (token old expires_at updated_at user_id : string)
    (l : list user) :
  old <> token ->
  (forall r, In r l -> u_token r = Some old -> u_user_id r = user_id) ->
  find (fun r => bool_decide (u_token r = Some old))
       (map (fun r => if String.eqb (u_user_id r) user_id
                      then with_token token expires_at updated_at r else r) l)
  = None.
Proof.
  intros Hne. induction l as [|r l IH]; intros Hown; [reflexivity|].
  simpl. destruct (String.eqb_spec (u_user_id r) user_id) as [Hu|Hu]; simpl.
  - rewrite bool_decide_eq_false_2 by congruence.
    apply IH. intros r' Hr'. apply Hown. now right.
  - rewrite bool_decide_eq_false_2.
    + apply IH. intros r' Hr'. apply Hown. now right.
    + intros Ht. apply Hu, Hown; [now left|assumption].
Qed.

(** What a successful login does to the database. *)
Lemma login_eq (env : environ) (now e : datetime) (token : string)
    (request : LoginRequest.t) (d : db) (user : user_info) :
  verify_user env (LoginRequest.email request) (LoginRequest.password request) d
  = Some user ->
  add_days now 30 = Some e ->
  login env now token request d
  = (Ok (LoginResponse "ok" "登录成功"
           (mk_user_info (ui_user_id user) (ui_email user) (Some token)
              (ui_token_expires_at user) (ui_created_at user) (ui_updated_at user))),
     set_users d
       (map (fun r => if String.eqb (u_user_id r) (ui_user_id user)
                      then with_token token (strftime e) (strftime now) r else r)
            (users d))).
Proof.
  intros Hu He.
  unfold login, try_except, mbind, M_bind, query, save_user_token.
  rewrite Hu, He. reflexivity.
Qed.

Lemma verify_user_row (env : environ) (email password : string) (d : db)
    (user : user_info) :
  verify_user env email password d = Some user ->
  exists row,
    find (fun r => String.eqb (u_user_id r) (ui_user_id user)) (users d) = Some row
    /\ u_user_id row = ui_user_id user.
Proof.
  unfold verify_user. intros H.
  destruct (find _ (users d)) as [r|] eqn:Hr; [|discriminate].
  injection H as <-. simpl. apply find_some in Hr as [Hin _].
  destruct (find (fun r0 => String.eqb (u_user_id r0) (u_user_id r)) (users d))
    as [row|] eqn:Hrow.
  - exists row. split; [reflexivity|].
    apply find_some in Hrow as [_ Hrow]. now apply String.eqb_eq.
  - exfalso. apply (find_none _ _ Hrow) in Hin.
    now rewrite String.eqb_refl in Hin.
Qed.

(** C8.  Let a login succeed at the instant [now] (a datetime of the
    calendar whose year has four digits and that lies at least thirty days
    before the end of year 9999), with a fresh token: one that no user row
    holds and that is not the hard-coded one.  Then the rows of the user
    hold the new token in place of whatever token they held, with the
    expiry timestamp [expires_at]: the instant of issuance, cut to the
    second as timestamps are written, plus exactly thirty days.
    [verify_token] accepts the token, for that user, exactly at the
    instants that do not exceed [expires_at], the instant of issuance
    among them; and any other token that only this user held is accepted
    no more. *)
Theorem login_token_lifetime (env : environ) (now : datetime) (token : string)
    (request : LoginRequest.t) (d : db) (user : user_info) :
  valid now = true ->
  1000 <= year now ->
  toordinal now + 30 <= MAXORDINAL ->
  verify_user env (LoginRequest.email request) (LoginRequest.password request) d
  = Some user ->
  token <> HARDCODED_TOKEN ->
  (forall r, In r (users d) -> u_token r <> Some token) ->
  exists (d' : db) (expires_at : datetime),
    login env now token request d
    = (Ok (LoginResponse "ok" "登录成功"
             (mk_user_info (ui_user_id user) (ui_email user) (Some token)
                (ui_token_expires_at user) (ui_created_at user)
                (ui_updated_at user))),
       d')
    /\ bills d' = bills d
    /\ users d'
       = map (fun r => if String.eqb (u_user_id r) (ui_user_id user)
                       then with_token token (strftime expires_at) (strftime now) r
                       else r)
             (users d)
    /\ strptime (strftime expires_at) = Some expires_at
    /\ toordinal expires_at = toordinal now + 30
    /\ timestamp expires_at = timestamp now - microsecond now + thirty_days
    /\ (forall t, valid t = true ->
          (is_Some (verify_token t token d')
           <-> timestamp t <= timestamp expires_at))
    /\ is_Some (verify_token now token d')
    /\ (forall t info, verify_token t token d' = Some info ->
          ti_user_id info = ui_user_id user
          /\ ti_token_expires_at info = Some (strftime expires_at))
    /\ (forall t old,
          old <> token -> old <> HARDCODED_TOKEN ->
          (forall r, In r (users d) -> u_token r = Some old ->
                     u_user_id r = ui_user_id user) ->
          verify_token t old d' = None).
Proof.
  intros Hv _ Hmax Hu Hhard Hfresh.
  destruct (add_days_spec now 30 Hv ltac:(lia) Hmax)
    as (e & He & Hve & Hord & Hh & Hmi & Hs & Hus).
  pose proof (valid_whole_second e Hve) as Hvw.
  pose proof (strptime_strftime e Hve) as Hrt.
  destruct (verify_user_row _ _ _ _ _ Hu) as (row & Hrow & Hrow_id).
  exists (set_users d
            (map (fun r => if String.eqb (u_user_id r) (ui_user_id user)
                           then with_token token (strftime e) (strftime now) r
                           else r)
                 (users d))),
         (whole_second e).
  rewrite strftime_whole_second.
  assert (Hts : timestamp (whole_second e)
                = timestamp now - microsecond now + thirty_days).
  { rewrite timestamp_whole_second. unfold timestamp, thirty_days.
    rewrite Hord, Hh, Hmi, Hs, Hus. lia. }
  assert (Hvt : forall t,
            verify_token t token
              (set_users d
                 (map (fun r => if String.eqb (u_user_id r) (ui_user_id user)
                                then with_token token (strftime e) (strftime now) r
                                else r)
                      (users d)))
            = if gt t (whole_second e) then None
              else Some (mk_token_info (ui_user_id user) (u_email row)
                           (str_or_none (u_created_at row))
                           (Some (strftime now)) true (Some (strftime e)))).
  { intros t. unfold verify_token.
    rewrite (proj2 (String.eqb_neq _ _) Hhard). cbn [users set_users].
    rewrite find_token_after_update by assumption. rewrite Hrow.
    cbn [option_map with_token u_token_expires_at u_user_id u_email
         u_created_at u_updated_at str_or_none].
    rewrite !strftime_nonempty, Hrt, Hrow_id. reflexivity. }
  split; [apply login_eq; assumption|].
  split; [reflexivity|]. split; [reflexivity|].
  split; [exact Hrt|]. split; [exact Hord|]. split; [exact Hts|].
  assert (Hiff : forall t, valid t = true ->
            (is_Some (verify_token t token
               (set_users d
                  (map (fun r => if String.eqb (u_user_id r) (ui_user_id user)
                                 then with_token token (strftime e) (strftime now) r
                                 else r)
                       (users d))))
             <-> timestamp t <= timestamp (whole_second e))).
  { intros t Ht. rewrite Hvt.
    pose proof (gt_timestamp t (whole_second e) Ht Hvw) as Hgt.
    destruct (gt t (whole_second e)); split; intros H.
    - destruct H as [x Hx]. discriminate Hx.
    - exfalso. assert (timestamp (whole_second e) < timestamp t)
        by (now apply Hgt). lia.
    - destruct (Z.le_gt_cases (timestamp t) (timestamp (whole_second e)));
        [assumption|].
      assert (false = true) by (apply Hgt; lia). discriminate.
    - eauto. }
  split; [exact Hiff|]. split.
  - apply Hiff; [assumption|]. rewrite Hts.
    unfold valid in Hv. apply andb_prop in Hv as [_ Ht].
    apply valid_time_inv in Ht. unfold thirty_days. lia.
  - split.
    + intros t info. rewrite Hvt.
      destruct (gt t (whole_second e)); [discriminate|].
      intros [= <-]. split; reflexivity.
    + intros t old Hne Hnh Hown. unfold verify_token.
      rewrite (proj2 (String.eqb_neq _ _) Hnh). cbn [users set_users].
      now rewrite find_other_token_after_update.
Qed.

Lemma login_token_lifetime_witness :
  exists (d' : db) (expires_at : datetime),
    login Sample.env Sample.clock "token-of-alice"
          (LoginRequest.mk "alice@example.com" "a-secret") Sample.registered
    = (Ok (LoginResponse "ok" "登录成功"
             (mk_user_info (ui_user_id Sample.alice_info) (ui_email Sample.alice_info)
                (Some "token-of-alice")
                (ui_token_expires_at Sample.alice_info)
                (ui_created_at Sample.alice_info)
                (ui_updated_at Sample.alice_info))),
       d')
    /\ bills d' = bills Sample.registered
    /\ users d'
       = map (fun r => if String.eqb (u_user_id r) (ui_user_id Sample.alice_info)
                       then with_token "token-of-alice" (strftime expires_at)
                              (strftime Sample.clock) r
                       else r)
             (users Sample.registered)
    /\ strptime (strftime expires_at) = Some expires_at
    /\ toordinal expires_at = toordinal Sample.clock + 30
    /\ timestamp expires_at
       = timestamp Sample.clock - microsecond Sample.clock + thirty_days
    /\ (forall t, valid t = true ->
          (is_Some (verify_token t "token-of-alice" d')
           <-> timestamp t <= timestamp expires_at))
    /\ is_Some (verify_token Sample.clock "token-of-alice" d')
    /\ (forall t info, verify_token t "token-of-alice" d' = Some info ->
          ti_user_id info = ui_user_id Sample.alice_info
          /\ ti_token_expires_at info = Some (strftime expires_at))
    /\ (forall t old,
          old <> "token-of-alice" -> old <> HARDCODED_TOKEN ->
          (forall r, In r (users Sample.registered) -> u_token r = Some old ->
                     u_user_id r = ui_user_id Sample.alice_info) ->
          verify_token t old d' = None).
Proof.
  apply (login_token_lifetime Sample.env Sample.clock "token-of-alice"
           (LoginRequest.mk "alice@example.com" "a-secret") Sample.registered
           Sample.alice_info).
  - reflexivity.
  - simpl. lia.
  - vm_compute. discriminate.
  - reflexivity.
  - discriminate.
  - simpl. intros r [<- | []]. discriminate.
Defined.

(** * Further properties of the code *)

Import Users Journal Upload.

(** ** Storing, finding and deleting bills *)

Lemma adapt_ok_inv (v : pyval) (s : sqlval) :
  adapt v = Ok s ->
  match v with
  | VNone => s = SNull
  | VBool b => s = SInteger (if b then 1 else 0)
  | VInt n => s = SInteger n
  | VFloat x => s = sql_float x
  | VStr t => s = SText t
  | VList _ | VDict _ => False
  end.
Proof.
  destruct v as [|b|n|x|t|l|m]; simpl; try congruence.
  - destruct ((- 2 ^ 63 <=? n) && (n <? 2 ^ 63)); congruence.
  - destruct x; simpl; congruence.
Qed.

(** A successful [save_bill], taken apart. *)
Lemma save_bill_ok_inv (now : datetime) (data : gmap string pyval) (d d' : db) :
  save_bill now data d = Ok d' ->
  exists p1 p2 p3 p4 p5 p6 p7,
    truthy (dict_get data "bill_id" VNone) = true
    /\ adapt (dict_get data "bill_id" VNone) = Ok p1
    /\ adapt (dict_get data "user_id" (VStr "anonymous")) = Ok p2
    /\ adapt (dict_get data "category" VNone) = Ok p3
    /\ adapt (dict_get data "amount" VNone) = Ok p4
    /\ adapt (dict_get data "date" (VStr (strftime_date now))) = Ok p5
    /\ adapt (dict_get data "description" (VStr "")) = Ok p6
    /\ adapt (dict_get data "nw_type" VNone) = Ok p7
    /\ existsb (fun r => collides (Db.bill_id r) p1) (bills d) = false
    /\ d' = set_bills d (bills d ++ [mk_bill p1 p2 p3 p4 p5 p6 p7]).
Proof.
  unfold save_bill.
  destruct (truthy (dict_get data "bill_id" VNone)); simpl; [|discriminate].
  unfold mbind, result_bind.
  destruct (adapt (dict_get data "bill_id" VNone)) as [p1|]; [|discriminate].
  destruct (adapt (dict_get data "user_id" (VStr "anonymous"))) as [p2|]; [|discriminate].
  destruct (adapt (dict_get data "category" VNone)) as [p3|]; [|discriminate].
  destruct (adapt (dict_get data "amount" VNone)) as [p4|]; [|discriminate].
  destruct (adapt (dict_get data "date" (VStr (strftime_date now)))) as [p5|];
    [|discriminate].
  destruct (adapt (dict_get data "description" (VStr ""))) as [p6|]; [|discriminate].
  destruct (adapt (dict_get data "nw_type" VNone)) as [p7|]; [|discriminate].
  unfold insert_bill. simpl.
  destruct (existsb _ (bills d)) eqn:He; [discriminate|].
  intros [= <-]. exists p1, p2, p3, p4, p5, p6, p7.
  repeat split; first [reflexivity | assumption].
Qed.

Lemma find_app_last {A} (f : A -> bool) (l : list A) (x : A) :
  existsb f l = false -> f x = true -> find f (l ++ [x]) = Some x.
Proof.
  induction l as [|y l IH]; simpl; intros He Hx.
  - now rewrite Hx.
  - apply orb_false_elim in He as [Hy He]. rewrite Hy. auto.
Qed.

Lemma find_app_miss {A} (f : A -> bool) (l : list A) (x : A) :
  f x = false -> find f (l ++ [x]) = find f l.
Proof.
  intros Hx. induction l as [|y l IH]; simpl.
  - now rewrite Hx.
  - destruct (f y); auto.
Qed.

Lemma existsb_find_none {A} (f : A -> bool) (l : list A) :
  existsb f l = false -> find f l = None.
Proof.
  induction l as [|y l IH]; simpl; [reflexivity|].
  intros H. apply orb_false_elim in H as [-> H]. auto.
Qed.

Lemma existsb_same {A} (f g : A -> bool) (l : list A) :
  (forall x, f x = g x) -> existsb f l = existsb g l.
Proof.
  intros H. induction l as [|x l IH]; simpl; [reflexivity|].
  now rewrite H, IH.
Qed.

Lemma collides_text (a : sqlval) (id : string) :
  collides a (SText id) = bool_decide (a = SText id).
Proof.
  destruct a; reflexivity.
Qed.

(** X1.  [save_bill] only ever inserts.  When it succeeds on a dictionary
    whose [bill_id] is the text [id], no bill was stored under [id]
    before, the table of bills has gained one row at its end and the
    table of users is as it was; [get_bill_by_id] now finds the new row
    under [id], and finds under any other identifier what it found
    before. *)
Theorem save_bill_then_lookup (now : datetime) (data : gmap string pyval)
    (d d' : db) (id : string) :
  data !! "bill_id" = Some (VStr id) ->
  save_bill now data d = Ok d' ->
  exists row,
    bills d' = bills d ++ [row]
    /\ users d' = users d
    /\ id <> ""
    /\ Db.bill_id row = SText id
    /\ get_bill_by_id id d = None
    /\ get_bill_by_id id d' = Some row
    /\ forall id', id' <> id -> get_bill_by_id id' d' = get_bill_by_id id' d.
Proof.
  intros Hid H.
  apply save_bill_ok_inv in H
    as (p1 & p2 & p3 & p4 & p5 & p6 & p7 & Ht & H1 & _ & _ & _ & _ & _ & _ & He & ->).
  unfold dict_get in Ht, H1. rewrite Hid in Ht, H1. simpl in Ht, H1.
  injection H1 as <-.
  assert (He' : existsb (fun r => bool_decide (Db.bill_id r = SText id)) (bills d) = false).
  { rewrite <- He. apply existsb_same. intros r. symmetry. apply collides_text. }
  eexists. split; [reflexivity|]. split; [reflexivity|].
  split; [intros ->; discriminate|]. split; [reflexivity|].
  unfold get_bill_by_id. cbn [bills set_bills].
  split; [now apply existsb_find_none|].
  split.
  - apply find_app_last; [assumption|]. now apply bool_decide_eq_true_2.
  - intros id' Hne. apply find_app_miss. simpl.
    apply bool_decide_eq_false_2. congruence.
Qed.

Lemma save_bill_then_lookup_witness :
  exists row,
    bills Sample.one_bill = bills Sample.empty ++ [row]
    /\ users Sample.one_bill = users Sample.empty
    /\ "b1" <> ""
    /\ Db.bill_id row = SText "b1"
    /\ get_bill_by_id "b1" Sample.empty = None
    /\ get_bill_by_id "b1" Sample.one_bill = Some row
    /\ forall id', id' <> "b1" ->
         get_bill_by_id id' Sample.one_bill = get_bill_by_id id' Sample.empty.
Proof.
  apply (save_bill_then_lookup Sample.clock
           (manual_dict (Sample.lunch "12.345" None)
              (FFin false 6952431924753203 (-49)))
           Sample.empty Sample.one_bill "b1").
  - reflexivity.
  - reflexivity.
Defined.

(** X2.  The defaults of [save_bill] apply to absent keys, and to absent
    keys only.  In the row a successful [save_bill] appends, a missing
    ["user_id"] is stored as ["anonymous"], a missing ["date"] as the date
    of the day, a missing ["description"] as the empty text, a missing
    ["category"] or ["nw_type"] as NULL; a key that is present with the
    value [None] is stored as NULL whatever its default. *)
Theorem save_bill_defaults (now : datetime) (data : gmap string pyval) (d d' : db) :
  save_bill now data d = Ok d' ->
  exists row,
    bills d' = bills d ++ [row]
    /\ (data !! "user_id" = None -> Db.user_id row = SText "anonymous")
    /\ (data !! "date" = None -> Db.date row = SText (strftime_date now))
    /\ (data !! "description" = None -> Db.description row = SText "")
    /\ (data !! "category" = None -> Db.category row = SNull)
    /\ (data !! "nw_type" = None -> Db.nw_type row = SNull)
    /\ (data !! "user_id" = Some VNone -> Db.user_id row = SNull)
    /\ (data !! "date" = Some VNone -> Db.date row = SNull)
    /\ (data !! "description" = Some VNone -> Db.description row = SNull).
Proof.
  intros H.
  apply save_bill_ok_inv in H
    as (p1 & p2 & p3 & p4 & p5 & p6 & p7 & _ & _ & H2 & H3 & _ & H5 & H6 & H7 & _ & ->).
  eexists. split; [reflexivity|]. unfold dict_get in *. simpl.
  repeat split; intros E;
    match goal with
    | H : adapt (default _ (data !! ?k)) = Ok ?p |- ?p = _ =>
        rewrite E in H; simpl in H; congruence
    end.
Qed.

Lemma save_bill_defaults_witness :
  exists row,
    bills (set_bills Sample.empty [mk_bill (SText "b9") (SText "anonymous") SNull SNull
                                     (SText "2024-02-29") (SText "") SNull])
    = bills Sample.empty ++ [row]
    /\ (({[ "bill_id" := VStr "b9" ]} : gmap string pyval) !! "user_id" = None ->
        Db.user_id row = SText "anonymous")
    /\ (({[ "bill_id" := VStr "b9" ]} : gmap string pyval) !! "date" = None ->
        Db.date row = SText (strftime_date Sample.clock))
    /\ (({[ "bill_id" := VStr "b9" ]} : gmap string pyval) !! "description" = None ->
        Db.description row = SText "")
    /\ (({[ "bill_id" := VStr "b9" ]} : gmap string pyval) !! "category" = None ->
        Db.category row = SNull)
    /\ (({[ "bill_id" := VStr "b9" ]} : gmap string pyval) !! "nw_type" = None ->
        Db.nw_type row = SNull)
    /\ (({[ "bill_id" := VStr "b9" ]} : gmap string pyval) !! "user_id" = Some VNone ->
        Db.user_id row = SNull)
    /\ (({[ "bill_id" := VStr "b9" ]} : gmap string pyval) !! "date" = Some VNone ->
        Db.date row = SNull)
    /\ (({[ "bill_id" := VStr "b9" ]} : gmap string pyval) !! "description" = Some VNone ->
        Db.description row = SNull).
Proof.
  apply (save_bill_defaults Sample.clock {[ "bill_id" := VStr "b9" ]} Sample.empty).
  reflexivity.
Defined.

Lemma find_filter_other {A} (f g : A -> bool) (l : list A) :
  (forall x, f x = true -> g x = true) ->
  find f (List.filter g l) = find f l.
Proof.
  intros H. induction l as [|x l IH]; simpl; [reflexivity|].
  destruct (g x) eqn:Hg; simpl.
  - destruct (f x); auto.
  - destruct (f x) eqn:Hf; [|exact IH].
    apply H in Hf. congruence.
Qed.

Lemma existsb_filter_neg {A} (f : A -> bool) (l : list A) :
  existsb f (List.filter (fun x => negb (f x)) l) = false.
Proof.
  induction l as [|x l IH]; simpl; [reflexivity|].
  destruct (f x) eqn:Hx; simpl; [exact IH|]. now rewrite Hx.
Qed.

Lemma filter_filter_same {A} (f : A -> bool) (l : list A) :
  List.filter f (List.filter f l) = List.filter f l.
Proof.
  induction l as [|x l IH]; simpl; [reflexivity|].
  destruct (f x) eqn:Hx; simpl; [|exact IH]. now rewrite Hx, IH.
Qed.

Lemma existsb_find {A} (f : A -> bool) (l : list A) :
  existsb f l = true <-> find f l <> None.
Proof.
  induction l as [|x l IH]; simpl.
  - split; [discriminate|congruence].
  - destruct (f x); simpl; [split; [discriminate|reflexivity]|exact IH].
Qed.

(** X3.  [delete_bill] reports [True] exactly when a bill was stored
    under the identifier; afterwards none is, the bills under other
    identifiers and the users are as before, and deleting again reports
    [False] and changes nothing. *)
Theorem delete_bill_effect (id : string) (d : db) :
  (fst (delete_bill id d) = true <-> get_bill_by_id id d <> None)
  /\ get_bill_by_id id (snd (delete_bill id d)) = None
  /\ users (snd (delete_bill id d)) = users d
  /\ (forall id', id' <> id ->
        get_bill_by_id id' (snd (delete_bill id d)) = get_bill_by_id id' d)
  /\ delete_bill id (snd (delete_bill id d)) = (false, snd (delete_bill id d)).
Proof.
  unfold delete_bill, get_bill_by_id; cbn [fst snd bills users set_bills].
  split; [apply existsb_find|].
  split; [apply find_after_filter|].
  split; [reflexivity|]. split.
  - intros id' Hne. apply find_filter_other. intros r Hr.
    apply bool_decide_eq_true_1 in Hr. apply negb_true_iff.
    apply bool_decide_eq_false_2. congruence.
  - rewrite existsb_filter_neg, filter_filter_same. reflexivity.
Qed.

(** X4.  [get_bills] with a non-empty [user_id] returns the bills whose
    owner is that text, all of them and no other; with [None], and with
    the empty text as well, it returns every bill of every user. *)
Theorem get_bills_selects (u : string) (d : db) (b : bill) :
  (u <> "" ->
   (In b (get_bills (Some u) d) <-> In b (bills d) /\ Db.user_id b = SText u))
  /\ get_bills (Some "") d = bills d
  /\ get_bills None d = bills d.
Proof.
  split; [|split; reflexivity].
  intros Hu. unfold get_bills. rewrite (proj2 (String.eqb_neq _ _) Hu).
  rewrite <- !list_elem_of_In, list_elem_of_filter. tauto.
Qed.

Lemma get_bills_selects_witness :
  (In (mk_bill (SText "b1") (SText "alice") (SText "餐饮")
         (SReal (FFin false 6952431924753203 (-49))) SNull (SText "") SNull)
      (get_bills (Some "alice") Sample.one_bill)
   <-> In (mk_bill (SText "b1") (SText "alice") (SText "餐饮")
             (SReal (FFin false 6952431924753203 (-49))) SNull (SText "") SNull)
          (bills Sample.one_bill)
       /\ SText "alice" = SText "alice").
Proof.
  apply (get_bills_selects "alice" Sample.one_bill
           (mk_bill (SText "b1") (SText "alice") (SText "餐饮")
              (SReal (FFin false 6952431924753203 (-49))) SNull (SText "") SNull)).
  discriminate.
Defined.

(** ** Users *)

(** A successful [create_user], taken apart. *)
Lemma create_user_ok_inv (env : environ) (now : datetime) (uuid email password : string)
    (user_id : option string) (d d' : db) (id em created : string) :
  create_user env now uuid email password user_id d = Ok (id, em, created, d') ->
  existsb (fun r => String.eqb (u_email r) email) (users d) = false
  /\ existsb (fun r => String.eqb (u_user_id r) id) (users d) = false
  /\ id = default uuid (str_or_none user_id)
  /\ em = email /\ created = strftime now
  /\ d' = set_users d
            (users d ++ [mk_user id email (_hash_password env password) None None
                           (Some created) (Some created)]).
Proof.
  unfold create_user.
  destruct (existsb (fun r => String.eqb (u_email r) email) (users d)); [discriminate|].
  unfold mbind, result_bind.
  destruct (str_or_none user_id) as [i|]; simpl.
  - destruct (existsb (fun r => String.eqb (u_user_id r) i) (users d)) eqn:Hi;
      [discriminate|].
    rewrite Hi. intros [= <- <- <- <-]. repeat split; assumption.
  - destruct (existsb (fun r => String.eqb (u_user_id r) uuid) (users d)) eqn:Hi;
      [discriminate|].
    intros [= <- <- <- <-]. repeat split; assumption.
Qed.

(** X5.  After a successful [create_user] the new user can be verified
    with the password given and with no password of another digest; the
    lookups by identifier and by address return the new user, who holds no
    token.  No user had the address or the identifier before, the bills
    are untouched, and every token is verified as before. *)
Theorem create_user_then_verify (env : environ) (now : datetime)
    (uuid email password : string) (user_id : option string) (d d' : db)
    (id em created : string) :
  create_user env now uuid email password user_id d = Ok (id, em, created, d') ->
  let info := mk_user_info id email None None (Some created) (Some created) in
  verify_user env email password d' = Some info
  /\ (forall other, _hash_password env other <> _hash_password env password ->
        verify_user env email other d' = None)
  /\ get_user_by_id id d' = Some info
  /\ get_user_by_email email d' = Some info
  /\ get_user_by_id id d = None
  /\ get_user_by_email email d = None
  /\ bills d' = bills d
  /\ (forall t token, verify_token t token d' = verify_token t token d).
Proof.
  intros H. apply create_user_ok_inv in H as (He & Hi & _ & -> & -> & ->).
  cbv zeta. unfold verify_user, get_user_by_id, get_user_by_email.
  cbn [users set_users bills].
  assert (Hpw : forall p,
            existsb (fun r => String.eqb (u_email r) email
                              && String.eqb (u_password_hash r) (_hash_password env p))
                    (users d) = false).
  { intros p. apply not_true_is_false. intros Hx.
    apply existsb_exists in Hx as (r & Hr & Hx). apply andb_prop in Hx as [Hx _].
    assert (existsb (fun r => String.eqb (u_email r) email) (users d) = true)
      by (apply existsb_exists; eauto).
    congruence. }
  repeat split.
  - rewrite find_app_last; [reflexivity|apply Hpw|].
    simpl. now rewrite !String.eqb_refl.
  - intros other Hne. rewrite find_app_miss.
    + now rewrite (existsb_find_none _ _ (Hpw other)).
    + simpl. rewrite String.eqb_refl. simpl. apply String.eqb_neq. congruence.
  - rewrite find_app_last; [reflexivity|assumption|]. simpl. apply String.eqb_refl.
  - rewrite find_app_last; [reflexivity|assumption|]. simpl. apply String.eqb_refl.
  - now rewrite (existsb_find_none _ _ Hi).
  - now rewrite (existsb_find_none _ _ He).
  - intros t token. unfold verify_token. cbn [users set_users].
    now rewrite find_app_miss.
Qed.

Lemma create_user_then_verify_witness :
  let info := mk_user_info "alice" "alice@example.com" None None
                (Some "2024-02-29 23:59:58") (Some "2024-02-29 23:59:58") in
  verify_user Sample.env "alice@example.com" "a-secret" Sample.registered = Some info
  /\ (forall other,
        _hash_password Sample.env other <> _hash_password Sample.env "a-secret" ->
        verify_user Sample.env "alice@example.com" other Sample.registered = None)
  /\ get_user_by_id "alice" Sample.registered = Some info
  /\ get_user_by_email "alice@example.com" Sample.registered = Some info
  /\ get_user_by_id "alice" Sample.empty = None
  /\ get_user_by_email "alice@example.com" Sample.empty = None
  /\ bills Sample.registered = bills Sample.empty
  /\ (forall t token,
        verify_token t token Sample.registered = verify_token t token Sample.empty).
Proof.
  apply (create_user_then_verify Sample.env Sample.clock "uuid-1"
           "alice@example.com" "a-secret" (Some "alice") Sample.empty
           Sample.registered "alice" "alice@example.com" "2024-02-29 23:59:58").
  reflexivity.
Defined.

Lemma map_no_hit {A} (f : A -> bool) (g : A -> A) (l : list A) :
  existsb f l = false -> map (fun x => if f x then g x else x) l = l.
Proof.
  induction l as [|x l IH]; simpl; [reflexivity|].
  intros H. apply orb_false_elim in H as [Hx H]. now rewrite Hx, IH.
Qed.

(** X6.  [save_user_token] reports [True] exactly when a row has the
    identifier; when none has, the database is left as it was.  In every
    case the bills, and the identifiers, addresses and password digests of
    the users, are as before: the function creates no user. *)
Theorem save_user_token_effect (now : datetime) (user_id token : string)
    (expires_in_days : Z) (d d' : db) (found : bool) :
  save_user_token now user_id token expires_in_days d = Ok (found, d') ->
  (found = true <-> get_user_by_id user_id d <> None)
  /\ (found = false -> d' = d)
  /\ bills d' = bills d
  /\ map u_user_id (users d') = map u_user_id (users d)
  /\ map u_email (users d') = map u_email (users d)
  /\ map u_password_hash (users d') = map u_password_hash (users d).
Proof.
  unfold save_user_token.
  destruct (add_days now expires_in_days) as [e|]; [|discriminate].
  intros [= <- <-]. cbn [users set_users bills].
  split.
  { unfold get_user_by_id. rewrite existsb_find.
    destruct (find _ (users d)); simpl; split; congruence. }
  split.
  { intros H. rewrite (map_no_hit _ _ _ H). now destruct d. }
  split; [reflexivity|].
  rewrite !map_map.
  repeat split; apply map_ext; intros r;
    destruct (String.eqb (u_user_id r) user_id); reflexivity.
Qed.

Lemma save_user_token_effect_witness :
  (false = true <-> get_user_by_id "nobody" Sample.registered <> None)
  /\ (false = false -> Sample.registered = Sample.registered)
  /\ bills Sample.registered = bills Sample.registered
  /\ map u_user_id (users Sample.registered) = map u_user_id (users Sample.registered)
  /\ map u_email (users Sample.registered) = map u_email (users Sample.registered)
  /\ map u_password_hash (users Sample.registered)
     = map u_password_hash (users Sample.registered).
Proof.
  apply (save_user_token_effect Sample.clock "nobody" "t" 30).
  reflexivity.
Defined.

Lemma find_none_filter {A} (f g : A -> bool) (l : list A) :
  (forall x, In x l -> f x = true -> g x = false) ->
  find f (List.filter g l) = None.
Proof.
  intros H. induction l as [|x l IH]; simpl; [reflexivity|].
  destruct (g x) eqn:Hg; simpl.
  - destruct (f x) eqn:Hf.
    + rewrite (H x) in Hg; [discriminate|now left|assumption].
    + apply IH. intros y Hy. apply H. now right.
  - apply IH. intros y Hy. apply H. now right.
Qed.

(** X7.  [delete_user] does not cascade.  It reports [True] exactly when
    a row had the identifier, and leaves no row with it; the bills are
    untouched, those of the deleted user included, so each is still found
    by its identifier; and a token that only rows of the deleted user
    held, other than the hard-coded one, is verified no more. *)
Theorem delete_user_effect (user_id : string) (d : db) :
  (fst (delete_user user_id d) = true <-> get_user_by_id user_id d <> None)
  /\ get_user_by_id user_id (snd (delete_user user_id d)) = None
  /\ bills (snd (delete_user user_id d)) = bills d
  /\ (forall id, get_bill_by_id id (snd (delete_user user_id d)) = get_bill_by_id id d)
  /\ (forall t token,
        token <> HARDCODED_TOKEN ->
        (forall r, In r (users d) -> u_token r = Some token -> u_user_id r = user_id) ->
        verify_token t token (snd (delete_user user_id d)) = None).
Proof.
  unfold delete_user, get_user_by_id; cbn [fst snd users bills set_users].
  split.
  { rewrite existsb_find. destruct (find _ (users d)); simpl; split; congruence. }
  split; [now rewrite find_after_filter|].
  split; [reflexivity|]. split; [reflexivity|].
  intros t token Hh Hown. unfold verify_token.
  rewrite (proj2 (String.eqb_neq _ _) Hh). cbn [users set_users].
  rewrite find_none_filter; [reflexivity|].
  intros r Hr Ht. apply bool_decide_eq_true_1 in Ht.
  apply negb_false_iff, String.eqb_eq. auto.
Qed.

Lemma find_map_keep {A} (f : A -> bool) (g : A -> A) (l : list A) :
  (forall x, f (g x) = f x) ->
  find f (map g l) = option_map g (find f l).
Proof.
  intros H. induction l as [|x l IH]; simpl; [reflexivity|].
  rewrite H. destruct (f x); auto.
Qed.

Lemma NoDup_map_find {A} (k : A -> string) (l : list A) (x : A) :
  NoDup (map k l) -> In x l ->
  find (fun r => String.eqb (k r) (k x)) l = Some x.
Proof.
  induction l as [|y l IH]; simpl; intros Hn Hin; [contradiction|].
  apply NoDup_cons in Hn as [Hy Hl].
  destruct Hin as [-> | Hin].
  - now rewrite String.eqb_refl.
  - destruct (String.eqb_spec (k y) (k x)) as [E|_]; [|auto].
    exfalso. apply Hy. rewrite E. apply list_elem_of_In. now apply in_map.
Qed.

(** X8.  When user addresses are unique, after [update_user_password]
    the user is verified with the new password; the bills, the
    identifiers and the addresses are untouched, and so are the tokens:
    a token accepted before the change is accepted after it, and only
    such a token.  On an unknown identifier the function reports [False]
    and leaves the database as it was. *)
Theorem update_user_password_effect (env : environ) (now : datetime)
    (user_id new_password : string) (d : db) (row : user) :
  NoDup (map u_email (users d)) ->
  In row (users d) ->
  u_user_id row = user_id ->
  let d' := snd (update_user_password env now user_id new_password d) in
  fst (update_user_password env now user_id new_password d) = true
  /\ (exists info,
        verify_user env (u_email row) new_password d' = Some info
        /\ ui_user_id info = user_id)
  /\ bills d' = bills d
  /\ map u_user_id (users d') = map u_user_id (users d)
  /\ map u_email (users d') = map u_email (users d)
  /\ (forall t token,
        is_Some (verify_token t token d') <-> is_Some (verify_token t token d))
  /\ (forall other,
        get_user_by_id other d = None ->
        update_user_password env now other new_password d = (false, d)).
Proof.
  intros Hn Hin Hid. cbv zeta.
  unfold update_user_password; cbn [fst snd users bills set_users].
  set (upd := fun r : user =>
         if String.eqb (u_user_id r) user_id
         then mk_user (u_user_id r) (u_email r) (_hash_password env new_password)
                (u_token r) (u_token_expires_at r) (u_created_at r)
                (Some (strftime now))
         else r).
  assert (Hmail : forall r, u_email (upd r) = u_email r)
    by (intros r; unfold upd; destruct (String.eqb (u_user_id r) user_id); reflexivity).
  assert (Huid : forall r, u_user_id (upd r) = u_user_id r)
    by (intros r; unfold upd; destruct (String.eqb (u_user_id r) user_id); reflexivity).
  assert (Htok : forall r, u_token (upd r) = u_token r)
    by (intros r; unfold upd; destruct (String.eqb (u_user_id r) user_id); reflexivity).
  assert (Hexp : forall r, u_token_expires_at (upd r) = u_token_expires_at r)
    by (intros r; unfold upd; destruct (String.eqb (u_user_id r) user_id); reflexivity).
  split.
  { apply existsb_exists. exists row. split; [assumption|].
    now apply String.eqb_eq. }
  split.
  { unfold verify_user. cbn [users set_users].
    assert (Hmap : NoDup (map u_email (map upd (users d)))).
    { rewrite map_map. erewrite map_ext; [exact Hn|]. apply Hmail. }
    assert (Hin' : In (upd row) (map upd (users d))) by now apply in_map.
    pose proof (NoDup_map_find u_email _ _ Hmap Hin') as Hf.
    rewrite Hmail in Hf.
    assert (Hhash : u_password_hash (upd row) = _hash_password env new_password).
    { unfold upd. rewrite (proj2 (String.eqb_eq _ _) Hid). reflexivity. }
    destruct (find (fun r => String.eqb (u_email r) (u_email row)
                             && String.eqb (u_password_hash r)
                                  (_hash_password env new_password))
                   (map upd (users d))) as [r|] eqn:Hr.
    - apply find_some in Hr as [Hr1 Hr2]. apply andb_prop in Hr2 as [Hr2 _].
      assert (r = upd row).
      { assert (Hfr : find (fun r0 => String.eqb (u_email r0) (u_email r))
                           (map upd (users d)) = Some r)
          by now apply NoDup_map_find.
        apply String.eqb_eq in Hr2. rewrite Hr2 in Hfr. congruence. }
      subst r. eexists. split; [reflexivity|]. simpl. now rewrite Huid.
    - exfalso. apply (find_none _ _ Hr) in Hin'.
      rewrite Hmail, Hhash, !String.eqb_refl in Hin'. discriminate. }
  split; [reflexivity|].
  split; [rewrite map_map; apply map_ext, Huid|].
  split; [rewrite map_map; apply map_ext, Hmail|].
  split.
  { intros t token. unfold verify_token.
    destruct (String.eqb token HARDCODED_TOKEN); [tauto|].
    cbn [users set_users].
    rewrite (find_map_keep (fun r => bool_decide (u_token r = Some token)) upd)
      by (intros r; now rewrite Htok).
    destruct (find _ (users d)) as [r|]; simpl; [|tauto].
    rewrite Hexp.
    destruct (str_or_none (u_token_expires_at r)) as [s|];
      [destruct (strptime s) as [e|]; [destruct (gt t e)|]|];
      split; intros [x Hx]; try discriminate; eauto. }
  intros other Hnone. unfold get_user_by_id in Hnone.
  assert (He : existsb (fun r => String.eqb (u_user_id r) other) (users d) = false).
  { apply not_true_is_false. intros He. apply existsb_find in He.
    destruct (find _ (users d)); [discriminate|contradiction]. }
  rewrite He. rewrite (map_no_hit _ _ _ He). now destruct d.
Qed.

Lemma update_user_password_effect_witness :
  let d' := snd (update_user_password Sample.env Sample.clock "alice" "new-secret"
                   Sample.ledger) in
  fst (update_user_password Sample.env Sample.clock "alice" "new-secret" Sample.ledger)
  = true
  /\ (exists info,
        verify_user Sample.env "alice@example.com" "new-secret" d' = Some info
        /\ ui_user_id info = "alice")
  /\ bills d' = bills Sample.ledger
  /\ map u_user_id (users d') = map u_user_id (users Sample.ledger)
  /\ map u_email (users d') = map u_email (users Sample.ledger)
  /\ (forall t token,
        is_Some (verify_token t token d') <-> is_Some (verify_token t token Sample.ledger))
  /\ (forall other,
        get_user_by_id other Sample.ledger = None ->
        update_user_password Sample.env Sample.clock other "new-secret" Sample.ledger
        = (false, Sample.ledger)).
Proof.
  apply (update_user_password_effect Sample.env Sample.clock "alice" "new-secret"
           Sample.ledger
           (mk_user "alice" "alice@example.com" "a-secretsmartledger_default_salt"
              (Some "token-of-alice") (Some "2024-03-30 23:59:58")
              (Some "2024-02-29 23:59:58") (Some "2024-02-29 23:59:58"))).
  - apply (bool_decide_unpack _). vm_compute. exact I.
  - vm_compute. left. reflexivity.
  - reflexivity.
Defined.

Lemma filter_length_lt_2 {A} (f : A -> bool) (x : A) (l : list A) :
  (2 <=? length (List.filter f (x :: l)))%nat = false -> f x = true ->
  existsb f l = false.
Proof.
  simpl. intros H Hx. rewrite Hx in H. simpl in H.
  apply not_true_is_false. intros He.
  apply existsb_exists in He as (y & Hy & Hfy).
  assert (Hin : In y (List.filter f l)) by (apply filter_In; auto).
  destruct (List.filter f l); [contradiction|]. simpl in H. discriminate.
Qed.

Lemma filter_length_tail {A} (f : A -> bool) (x : A) (l : list A) :
  (2 <=? length (List.filter f (x :: l)))%nat = false ->
  (2 <=? length (List.filter f l))%nat = false.
Proof.
  simpl. destruct (f x); [|auto]. simpl.
  destruct (List.filter f l) as [|a [|b t]]; simpl; auto.
Qed.

(** Rewriting the address of the one row of a user keeps addresses
    unique, when no other row has the new address. *)
Lemma emails_unique_after_update (user_id new_email : string) (stamp : option string)
    (l : list user) :
  let hit r := String.eqb (u_user_id r) user_id in
  let upd r :=
    if hit r then
      mk_user (u_user_id r) new_email (u_password_hash r) (u_token r)
              (u_token_expires_at r) (u_created_at r) stamp
    else r in
  NoDup (map u_email l) ->
  existsb (fun r => String.eqb (u_email r) new_email && negb (hit r)) l = false ->
  (2 <=? length (List.filter hit l))%nat = false ->
  NoDup (map u_email (map upd l)).
Proof.
  intros hit upd. induction l as [|r l IH]; intros Hn Hother Hone; [constructor|].
  cbn [map] in *. apply NoDup_cons in Hn as [Hr Hl].
  cbn [existsb] in Hother. apply orb_false_elim in Hother as [Hr0 Hother].
  apply NoDup_cons. split.
  - unfold upd at 1. destruct (hit r) eqn:Hh.
    + (* the row of the user: no other row is hit, none has the address *)
      pose proof (filter_length_lt_2 _ _ _ Hone Hh) as Hno.
      assert (Hsame : map upd l = l)
        by exact (map_no_hit hit
                    (fun r => mk_user (u_user_id r) new_email (u_password_hash r)
                                (u_token r) (u_token_expires_at r) (u_created_at r)
                                stamp) l Hno).
      rewrite Hsame. simpl.
      intros Hin. apply list_elem_of_In, in_map_iff in Hin as (y & Hy & Hyin).
      assert (Hy' : hit y = false).
      { apply not_true_is_false. intros Hhy.
        assert (existsb hit l = true) by (apply existsb_exists; eauto). congruence. }
      assert (Hc : existsb (fun r => String.eqb (u_email r) new_email && negb (hit r)) l
                   = true).
      { apply existsb_exists. exists y. split; [assumption|].
        rewrite Hy, String.eqb_refl, Hy'. reflexivity. }
      congruence.
    + (* another row: its address is not the new one *)
      simpl in Hr0. rewrite andb_true_r in Hr0. apply String.eqb_neq in Hr0.
      intros Hin. apply list_elem_of_In, in_map_iff in Hin as (y & Hy & Hyin).
      apply in_map_iff in Hyin as (z & <- & Hz).
      unfold upd in Hy. destruct (hit z).
      * simpl in Hy. congruence.
      * apply Hr. rewrite <- Hy. apply list_elem_of_In. now apply in_map.
  - apply IH; [assumption..|]. exact (filter_length_tail _ _ _ Hone).
Qed.

(** X9.  [update_user_email] raises [ValueError] when a row of another
    user has the address.  When it succeeds on a table whose addresses
    are unique, they stay unique; identifiers, tokens and bills are
    untouched; if a row had the identifier, the lookup by the new address
    now returns that user, and if none had, the database is as it was. *)
Theorem update_user_email_effect (now : datetime) (user_id new_email : string)
    (d : db) :
  (forall r, In r (users d) -> u_email r = new_email -> u_user_id r <> user_id ->
             update_user_email now user_id new_email d = Raise (Exception ValueError))
  /\ (forall found d',
        update_user_email now user_id new_email d = Ok (found, d') ->
        NoDup (map u_email (users d)) ->
        NoDup (map u_email (users d'))
        /\ map u_user_id (users d') = map u_user_id (users d)
        /\ map u_token (users d') = map u_token (users d)
        /\ bills d' = bills d
        /\ (found = true ->
            exists info, get_user_by_email new_email d' = Some info
                         /\ ui_user_id info = user_id)
        /\ (found = false -> d' = d)).
Proof.
  unfold update_user_email. split.
  - intros r Hin He Hu.
    rewrite (proj2 (existsb_exists _ _)); [reflexivity|].
    exists r. split; [assumption|].
    rewrite (proj2 (String.eqb_eq _ _) He), (proj2 (String.eqb_neq _ _) Hu).
    reflexivity.
  - intros found d'.
    destruct (existsb _ (users d)) eqn:Hother; [discriminate|].
    destruct (2 <=? length _)%nat eqn:Hone; [discriminate|].
    intros [= <- <-] Hn. cbn [users bills set_users].
    pose proof (emails_unique_after_update user_id new_email (Some (strftime now))
                  (users d) Hn Hother Hone) as Hn'.
    cbv zeta in Hn'.
    split; [exact Hn'|].
    split; [rewrite map_map; apply map_ext; intros r;
            destruct (String.eqb (u_user_id r) user_id); reflexivity|].
    split; [rewrite map_map; apply map_ext; intros r;
            destruct (String.eqb (u_user_id r) user_id); reflexivity|].
    split; [reflexivity|]. split.
    + intros Hf. apply existsb_exists in Hf as (r & Hr & Hh).
      unfold get_user_by_email. cbn [users set_users].
      set (upd := fun r : user =>
             if String.eqb (u_user_id r) user_id
             then mk_user (u_user_id r) new_email (u_password_hash r) (u_token r)
                    (u_token_expires_at r) (u_created_at r) (Some (strftime now))
             else r) in *.
      assert (Hin : In (upd r) (map upd (users d))) by now apply in_map.
      pose proof (NoDup_map_find u_email _ _ Hn' Hin) as Hfind.
      assert (Hmail : u_email (upd r) = new_email)
        by (unfold upd; rewrite Hh; reflexivity).
      rewrite Hmail in Hfind. rewrite Hfind. eexists. split; [reflexivity|].
      unfold upd. rewrite Hh. simpl. now apply String.eqb_eq.
    + intros Hf. rewrite (map_no_hit _ _ _ Hf). now destruct d.
Qed.

Lemma update_user_email_effect_witness :
  update_user_email Sample.clock "bob" "alice@example.com" Sample.ledger
  = Raise (Exception ValueError)
  /\ exists d',
       update_user_email Sample.clock "bob" "robert@example.com" Sample.ledger
       = Ok (true, d')
       /\ NoDup (map u_email (users d'))
       /\ exists info, get_user_by_email "robert@example.com" d' = Some info
                       /\ ui_user_id info = "bob".
Proof.
  split.
  - apply (proj1 (update_user_email_effect Sample.clock "bob" "alice@example.com"
                    Sample.ledger)
             (mk_user "alice" "alice@example.com" "a-secretsmartledger_default_salt"
                (Some "token-of-alice") (Some "2024-03-30 23:59:58")
                (Some "2024-02-29 23:59:58") (Some "2024-02-29 23:59:58"))).
    + vm_compute. left. reflexivity.
    + reflexivity.
    + discriminate.
  - exists Demo.renamed.
    assert (H : update_user_email Sample.clock "bob" "robert@example.com" Sample.ledger
                = Ok (true, Demo.renamed)) by (vm_compute; reflexivity).
    split; [exact H|].
    destruct (proj2 (update_user_email_effect Sample.clock "bob" "robert@example.com"
                       Sample.ledger) true Demo.renamed H)
      as (Hn & _ & _ & _ & Hf & _).
    + apply (bool_decide_unpack _). vm_compute. exact I.
    + split; [exact Hn|]. apply Hf. reflexivity.
Defined.

(** ** Outcomes of [/manual_bill] *)

Lemma normalize_amount_raise (val : amount_in) (e : exn) :
  normalize_amount val = Raise e ->
  e = HTTPException 400 "账单金额必须为正数，且格式有效" None.
Proof.
  unfold normalize_amount.
  destruct (mbind _ (to_float val)); [discriminate|]. congruence.
Qed.

Lemma manual_validate_raise (bill : BillData.t) (e : exn) :
  manual_validate bill = Raise e -> exists detail, e = HTTPException 400 detail None.
Proof.
  unfold manual_validate.
  repeat match goal with
         | |- (if ?c then _ else _) = _ -> _ =>
             destruct c; [intros [= <-]; eauto|]
         end.
  intros H. apply normalize_amount_raise in H. eauto.
Qed.

(** X10.  A [/manual_bill] request that fails leaves the database as it
    was, and fails in one of two ways: with status 400 when a test on the
    request fails, or with status 500, reporting the [IntegrityError],
    when the tests pass and a bill is already stored under the
    identifier. *)
Theorem manual_bill_failures (now : datetime) (request : ManualBillRequest.t)
    (d d' : db) (e : exn) :
  manual_bill now request d = (Raise e, d') ->
  d' = d
  /\ ((exists detail, e = HTTPException 400 detail None)
      \/ (e = HTTPException 500 "保存账单失败: " (Some IntegrityError)
          /\ stored (BillData.bill_id (ManualBillRequest.bill request)) d = true)).
Proof.
  rewrite manual_bill_eq.
  destruct (manual_validate _) as [a|e0] eqn:Hv.
  - rewrite (save_manual_dict _ _ _ _ Hv).
    rewrite (insert_bill_cases _ (BillData.bill_id (ManualBillRequest.bill request)))
      by reflexivity.
    destruct (stored _ d) eqn:Hs; [|discriminate].
    simpl. intros [= <- <-]. auto.
  - apply manual_validate_raise in Hv as [detail ->]. simpl.
    intros [= <- <-]. eauto.
Qed.

Lemma manual_bill_failures_witness :
  Sample.one_bill = Sample.one_bill
  /\ ((exists detail,
         HTTPException 500 "保存账单失败: " (Some IntegrityError)
         = HTTPException 400 detail None)
      \/ (HTTPException 500 "保存账单失败: " (Some IntegrityError)
          = HTTPException 500 "保存账单失败: " (Some IntegrityError)
          /\ stored "b1" Sample.one_bill = true)).
Proof.
  apply (manual_bill_failures Sample.clock (Sample.lunch "12.345" None)
           Sample.one_bill).
  vm_compute. reflexivity.
Defined.



Lemma manual_validate_ok_inv (bill : BillData.t) (a : pyfloat) :
  manual_validate bill = Ok a ->
  BillData.bill_id bill <> ""
  /\ In (BillData.category bill) CATEGORIES
  /\ match BillData.date bill with
     | Some s => s = "" \/ is_Some (strptime_date s)
     | None => True
     end
  /\ match BillData.nw_type bill with
     | Some s => s = "" \/ s = "基础支出" \/ s = "娱乐支出"
     | None => True
     end
  /\ normalize_amount (BillData.amount bill) = Ok a.
Proof.
  unfold manual_validate.
  destruct (String.eqb (BillData.category bill) ""); [discriminate|].
  destruct (String.eqb_spec (BillData.bill_id bill) ""); [discriminate|].
  destruct (match BillData.date bill with Some _ => _ | None => _ end) eqn:Hd;
    [discriminate|].
  destruct (match BillData.nw_type bill with Some _ => _ | None => _ end) eqn:Hn;
    [discriminate|].
  destruct (bool_decide (BillData.category bill ∈ CATEGORIES)) eqn:Hc; [|discriminate].
  cbn [negb]. intros H. split; [assumption|].
  split; [apply (proj1 (list_elem_of_In _ _)); now apply bool_decide_eq_true_1 in Hc|].
  split.
  { destruct (BillData.date bill) as [s|]; [|trivial].
    destruct (String.eqb_spec s ""); [now left|]. simpl in Hd.
    right. apply negb_false_iff in Hd. now apply bool_decide_eq_true_1 in Hd. }
  split; [|assumption].
  destruct (BillData.nw_type bill) as [s|]; [|trivial].
  destruct (String.eqb_spec s ""); [now left|]. simpl in Hn.
  apply negb_false_iff, orb_prop in Hn. right.
  destruct Hn as [Hn|Hn]; apply String.eqb_eq in Hn; auto.
Qed.




(** ** Outcomes of the upload handlers *)

Lemma upload_qwen_vl_eq (now : datetime) (reply : result completion)
    (token bill_id : string) :
  upload_qwen_vl now reply token bill_id
  = upload_with now (qwen.parse_bill_file reply) token bill_id.
Proof. reflexivity. Qed.

Lemma upload_baidu_qwen_eq (now : datetime) (reply : result completion)
    (token bill_id : string) :
  upload_baidu_qwen now reply token bill_id
  = upload_with now (baidu_qwen.parse_bill_file reply) token bill_id.
Proof. reflexivity. Qed.

(** [/upload_llm] differs by its test of an empty text. *)
Lemma upload_llm_eq (now : datetime) (reply : result completion)
    (text token bill_id : string) (d : db) :
  upload_llm now reply text token bill_id d
  = match verify_token now token d with
    | Some _ =>
        if String.eqb text "" then (Raise (HTTPException 400 "text 不能为空" None), d)
        else upload_with now (llm.parse_bill_text text reply) token bill_id d
    | None => (Raise unauthorized, d)
    end.
Proof.
  unfold upload_llm, upload_with, try_except, mbind, M_bind, query, raise_if.
  destruct (verify_token now token d) as [info|]; [|reflexivity].
  destruct (String.eqb text ""); reflexivity.
Qed.

Lemma adapt_raise (v : pyval) (e : exn) :
  adapt v = Raise e -> exists err, e = Exception err.
Proof.
  destruct v as [|b|n|x|t|l|m]; simpl; try discriminate.
  - destruct ((- 2 ^ 63 <=? n) && (n <? 2 ^ 63)); [discriminate|].
    intros [= <-]. eauto.
  - destruct x; discriminate.
  - intros [= <-]. eauto.
  - intros [= <-]. eauto.
Qed.

(** The lines shared by the upload handlers, case by case. *)
Lemma store_parsed_cases (now : datetime) (user_id bill_id : string)
    (parsed_json : pyval) (d d' : db) (r : result response) :
  store_parsed now user_id bill_id parsed_json d = (r, d') ->
  (bill_id = "" /\ r = Raise (HTTPException 400 "bill_id 不能为空" None) /\ d' = d)
  \/ (exists err, r = Raise (Exception err) /\ d' = d)
  \/ (exists dict x row,
        parsed_json = VDict dict
        /\ bill_id <> ""
        /\ parsed_amount (dict_get dict "amount" (VStr "0")) = Ok x
        /\ adapt (dict_get dict "category" (VStr "其他支出")) = Ok (Db.category row)
        /\ adapt (dict_get dict "date"
                    (VStr (String.substring 0 10 (strftime now)))) = Ok (Db.date row)
        /\ adapt (dict_get dict "description" (VStr "")) = Ok (Db.description row)
        /\ adapt (dict_get dict "nw_type" VNone) = Ok (Db.nw_type row)
        /\ Db.bill_id row = SText bill_id
        /\ Db.user_id row = SText user_id
        /\ Db.amount row = sql_float (round2 x)
        /\ stored bill_id d = false
        /\ d' = set_bills d (bills d ++ [row])
        /\ r = Ok (JSONResponse
                     (StatusOk (VDict (<[ "amount" := VStr (format_2f (round2 x)) ]>
                                         dict))))).
Proof.
  unfold store_parsed, mbind, M_bind, raise_if, pure, exec, mret, M_ret, raise.
  destruct (String.eqb_spec bill_id "") as [Hb|Hb].
  { intros [= <- <-]. left. auto. }
  intros H. right.
  destruct parsed_json as [|b0|n0|x0|s0|l0|dict];
    try (cbn [get] in H; injection H as <- <-; left; eexists; split; reflexivity).
  cbn [get] in H. cbv beta iota in H.
  destruct (parsed_amount (dict_get dict "amount" (VStr "0"))) as [x|e] eqn:Hx.
  2:{ injection H as <- <-. left.
      unfold parsed_amount in Hx.
      destruct (dict_get dict "amount" (VStr "0")); try (injection Hx as <-; eauto);
        try discriminate.
      destruct (of_string _); [discriminate|]. injection Hx as <-. eauto. }
  rewrite save_bill_bill_dict in H
    by (simpl; now rewrite (proj2 (String.eqb_neq _ _) Hb)).
  rewrite adapt_sql_float in H. cbn [adapt] in H. unfold mbind, result_bind in H.
  destruct (adapt (dict_get dict "category" (VStr "其他支出"))) as [p3|e] eqn:H3.
  2:{ apply adapt_raise in H3 as [err ->]. injection H as <- <-. left. eauto. }
  destruct (adapt (dict_get dict "date" _)) as [p5|e] eqn:H5.
  2:{ apply adapt_raise in H5 as [err ->]. injection H as <- <-. left. eauto. }
  destruct (adapt (dict_get dict "description" (VStr ""))) as [p6|e] eqn:H6.
  2:{ apply adapt_raise in H6 as [err ->]. injection H as <- <-. left. eauto. }
  destruct (adapt (dict_get dict "nw_type" VNone)) as [p7|e] eqn:H7.
  2:{ apply adapt_raise in H7 as [err ->]. injection H as <- <-. left. eauto. }
  rewrite (insert_bill_cases _ bill_id) in H by reflexivity.
  destruct (stored bill_id d) eqn:Hs.
  { injection H as <- <-. left. eauto. }
  injection H as <- <-. right.
  exists dict, x, (mk_bill (SText bill_id) (SText user_id) p3 (sql_float (round2 x))
                     p5 p6 p7).
  repeat split; assumption.
Qed.

(** What [upload_with] can answer. *)
Lemma upload_with_cases (now : datetime) (parse : result pyval)
    (token bill_id : string) (d d' : db) (r : result response) :
  upload_with now parse token bill_id d = (r, d') ->
  (verify_token now token d = None /\ r = Raise unauthorized /\ d' = d)
  \/ (exists c dt ab, parse = Raise (HTTPException c dt ab)
                      /\ r = Raise (HTTPException c dt ab) /\ d' = d)
  \/ (bill_id = "" /\ r = Raise (HTTPException 400 "bill_id 不能为空" None) /\ d' = d)
  \/ (exists err, r = Ok (JSONResponse (StatusError err)) /\ d' = d)
  \/ (exists info dict x row,
        verify_token now token d = Some info
        /\ parse = Ok (VDict dict)
        /\ bill_id <> ""
        /\ parsed_amount (dict_get dict "amount" (VStr "0")) = Ok x
        /\ adapt (dict_get dict "category" (VStr "其他支出")) = Ok (Db.category row)
        /\ adapt (dict_get dict "date"
                    (VStr (String.substring 0 10 (strftime now)))) = Ok (Db.date row)
        /\ adapt (dict_get dict "description" (VStr "")) = Ok (Db.description row)
        /\ adapt (dict_get dict "nw_type" VNone) = Ok (Db.nw_type row)
        /\ Db.bill_id row = SText bill_id
        /\ Db.user_id row = SText (ti_user_id info)
        /\ Db.amount row = sql_float (round2 x)
        /\ stored bill_id d = false
        /\ d' = set_bills d (bills d ++ [row])
        /\ r = Ok (JSONResponse
                     (StatusOk (VDict (<[ "amount" := VStr (format_2f (round2 x)) ]>
                                         dict))))).
Proof.
  intros H. unfold upload_with, try_except, mbind, M_bind, query, pure in H.
  destruct (verify_token now token d) as [info|] eqn:Hv.
  2:{ injection H as <- <-. left. auto. }
  right.
  destruct parse as [pj|e].
  2:{ destruct e as [c dt ab|err]; simpl in H; injection H as <- <-.
      - left. exists c, dt, ab. auto.
      - right. right. left. eauto. }
  destruct (store_parsed now (ti_user_id info) bill_id pj d) as [r0 d0] eqn:Hs.
  apply store_parsed_cases in Hs
    as [(Hb & -> & ->) | [(err & -> & ->) | (dict & x & row & Hs)]].
  - simpl in H. injection H as <- <-. right. left. auto.
  - simpl in H. injection H as <- <-. right. right. left. eauto.
  - destruct Hs as (-> & Hb & Hx & H3 & H5 & H6 & H7 & Hi & Hu & Ha & Hst & -> & ->).
    injection H as <- <-. right. right. right.
    exists info, dict, x, row. repeat split; assumption.
Qed.


(** The three upload calls, brought to [upload_with]. *)
Lemma upload_call_eq (now : datetime) (c : call) (token bill_id : string)
    (parse : result pyval) (d : db) :
  upload_target c = Some (token, bill_id) ->
  upload_parse c = Some parse ->
  run now c d = upload_with now parse token bill_id d
  \/ (exists info, verify_token now token d = Some info)
     /\ run now c d = (Raise (HTTPException 400 "text 不能为空" None), d).
Proof.
  destruct c as [q|q|reply t b|reply t b|reply text t b]; simpl;
    try discriminate; intros [= <- <-] [= <-].
  - left. reflexivity.
  - left. reflexivity.
  - rewrite upload_llm_eq.
    destruct (verify_token now t d) as [info|] eqn:Hv.
    + destruct (String.eqb text ""); [right; eauto|left; reflexivity].
    + left. unfold upload_with, try_except, mbind, M_bind, query.
      now rewrite Hv.
Qed.







Lemma option_map_some {A B} (f : A -> B) (o : option A) :
  o <> None -> option_map f o <> None.
Proof. destruct o; [discriminate|congruence]. Qed.

Lemma create_user_raise_inv (env : environ) (now : datetime)
    (uuid email password : string) (user_id : option string) (d : db) (e : exn) :
  create_user env now uuid email password user_id d = Raise e ->
  (e = Exception ValueError
   /\ (get_user_by_email email d <> None
       \/ exists id, str_or_none user_id = Some id /\ get_user_by_id id d <> None))
  \/ (e = Exception IntegrityError
      /\ str_or_none user_id = None
      /\ get_user_by_email email d = None
      /\ get_user_by_id uuid d <> None).
Proof.
  unfold create_user, get_user_by_email, get_user_by_id.
  destruct (existsb _ (users d)) eqn:He.
  - intros [= <-]. left. split; [reflexivity|]. left.
    apply existsb_find in He. now apply option_map_some.
  - assert (Hn : find (fun r => String.eqb (u_email r) email) (users d) = None)
      by now apply existsb_find_none.
    destruct (str_or_none user_id) as [id|]; simpl.
    + destruct (existsb (fun r => String.eqb (u_user_id r) id) (users d)) eqn:Hi.
      * intros [= <-]. left. split; [reflexivity|]. right. exists id.
        split; [reflexivity|]. apply existsb_find in Hi.
        now apply option_map_some.
      * simpl. rewrite Hi. discriminate.
    + destruct (existsb (fun r => String.eqb (u_user_id r) uuid) (users d)) eqn:Hi;
        [|discriminate].
      intros [= <-]. right. rewrite Hn. repeat split.
      apply existsb_find in Hi. now apply option_map_some.
Qed.

Lemma register_cases (env : environ) (now : datetime) (uuid : string)
    (request : RegisterRequest.t) (d d' : db) (r : result response) :
  register env now uuid request d = (r, d') ->
  (exists id created,
      create_user env now uuid (RegisterRequest.email request)
        (RegisterRequest.password request) (RegisterRequest.user_id request) d
      = Ok (id, RegisterRequest.email request, created, d')
      /\ r = Ok (RegisterResponse "ok" "用户注册成功"
                   (id, RegisterRequest.email request, created)))
  \/ (d' = d
      /\ create_user env now uuid (RegisterRequest.email request)
           (RegisterRequest.password request) (RegisterRequest.user_id request) d
         = Raise (Exception ValueError)
      /\ r = Raise (HTTPException 400 "" (Some ValueError)))
  \/ (d' = d
      /\ create_user env now uuid (RegisterRequest.email request)
           (RegisterRequest.password request) (RegisterRequest.user_id request) d
         = Raise (Exception IntegrityError)
      /\ r = Raise (HTTPException 500 "注册失败: " (Some IntegrityError))).
Proof.
  unfold register, try_except.
  destruct (create_user _ _ _ _ _ _ d) as [[[[id em] created] d1]|e] eqn:Hc.
  - intros [= <- <-]. left.
    pose proof (create_user_ok_inv _ _ _ _ _ _ _ _ _ _ _ Hc) as (_ & _ & _ & -> & _).
    eauto.
  - apply create_user_raise_inv in Hc as [[-> _] | [-> _]];
      intros [= <- <-]; auto.
Qed.

Lemma login_cases (env : environ) (now : datetime) (token : string)
    (request : LoginRequest.t) (d d' : db) (r : result response) :
  login env now token request d = (r, d') ->
  (verify_user env (LoginRequest.email request) (LoginRequest.password request) d
   = None
   /\ r = Raise (HTTPException 401 "邮箱或密码错误" None) /\ d' = d)
  \/ (exists user,
        verify_user env (LoginRequest.email request) (LoginRequest.password request) d
        = Some user
        /\ add_days now 30 = None
        /\ r = Raise (HTTPException 500 "登录失败: " (Some OverflowError))
        /\ d' = d)
  \/ (exists user e,
        verify_user env (LoginRequest.email request) (LoginRequest.password request) d
        = Some user
        /\ add_days now 30 = Some e
        /\ r = Ok (LoginResponse "ok" "登录成功"
                     (mk_user_info (ui_user_id user) (ui_email user) (Some token)
                        (ui_token_expires_at user) (ui_created_at user)
                        (ui_updated_at user)))
        /\ d' = set_users d
                  (map (fun r => if String.eqb (u_user_id r) (ui_user_id user)
                                 then with_token token (strftime e) (strftime now) r
                                 else r)
                       (users d))).
Proof.
  destruct (verify_user env (LoginRequest.email request)
              (LoginRequest.password request) d) as [user|] eqn:Hv.
  - destruct (add_days now 30) as [e|] eqn:Ha.
    + rewrite (login_eq env now e token request d user Hv Ha).
      intros [= <- <-]. right. right. eauto 10.
    + unfold login, try_except, mbind, M_bind, query, save_user_token.
      rewrite Hv, Ha. simpl. intros [= <- <-]. right. left. eauto.
  - unfold login, try_except, mbind, M_bind, query. rewrite Hv. simpl.
    intros [= <- <-]. left. auto.
Qed.

(** *** What one request does to the database *)

Lemma sql_float_cases (x : pyfloat) :
  sql_float x = SNull \/ exists y, sql_float x = SReal y.
Proof. destruct x; simpl; eauto. Qed.

(** The five things a request can do: nothing, store one bill under an
    unused identifier, delete the bills of an identifier for their owner,
    add one user without token, or give the rows of one identifier a
    token with an expiry. *)
Lemma handle_effect (env : environ) (now : datetime) (ev : event) (d d' : db)
    (r : result response) :
  handle env now ev d = (r, d') ->
  d' = d
  \/ (exists row id,
        d' = set_bills d (bills d ++ [row])
        /\ Db.bill_id row = SText id /\ stored id d = false /\ bill_ok row)
  \/ (exists token id info b,
        ev = Bill (DeleteBill (DeleteBillRequest.mk token id))
        /\ verify_token now token d = Some info
        /\ get_bill_by_id id d = Some b
        /\ Db.user_id b = SText (ti_user_id info)
        /\ r = Ok (DeleteBillResponse "ok" "账单删除成功")
        /\ d' = snd (delete_bill id d))
  \/ (exists row,
        d' = set_users d (users d ++ [row])
        /\ existsb (fun r => String.eqb (u_email r) (u_email row)) (users d) = false
        /\ existsb (fun r => String.eqb (u_user_id r) (u_user_id row)) (users d)
           = false
        /\ u_token row = None)
  \/ (exists user_id token expires_at updated_at,
        d' = set_users d
               (map (fun r => if String.eqb (u_user_id r) user_id
                              then with_token token expires_at updated_at r else r)
                    (users d))
        /\ expires_at <> "").
Proof.
  destruct ev as [uuid request|token request|token|c]; simpl.
  - intros H. apply register_cases in H
      as [(id & created & Hc & _) | [(-> & _) | (-> & _)]]; auto.
    apply create_user_ok_inv in Hc as (He & Hi & _ & _ & _ & ->).
    right. right. right. left. eexists. split; [reflexivity|]. auto.
  - intros H. apply login_cases in H
      as [(_ & _ & ->) | [(user & _ & _ & _ & ->) | (user & e & _ & _ & _ & ->)]];
      auto.
    right. right. right. right. exists (ui_user_id user), token, (strftime e),
      (strftime now). split; [reflexivity|].
    intros E. pose proof (strftime_nonempty e) as Hn. rewrite E in Hn. discriminate.
  - unfold verify_token_endpoint, mbind, M_bind, query.
    destruct (verify_token now token d); intros [= _ <-]; auto.
  - destruct c as [request|[token id]|reply token id|reply token id
                   |reply text token id].
    + simpl. destruct r as [resp|e]; intros H.
      * apply manual_bill_ok_inv in H as (a & Hv & Hs & ->).
        right. left. eexists _, _. split; [reflexivity|].
        split; [reflexivity|]. split; [assumption|].
        apply manual_validate_ok_inv in Hv as (Hid & _).
        exists (BillData.bill_id (ManualBillRequest.bill request)),
               (ManualBillRequest.user_id request).
        repeat split; [assumption|apply sql_float_cases].
      * rewrite manual_bill_eq in H.
        destruct (manual_validate _) as [a|e0].
        -- destruct (save_bill now _ d); [discriminate|].
           destruct e0; simpl in H; injection H as _ <-; auto.
        -- destruct e0; simpl in H; injection H as _ <-; auto.
    + simpl. rewrite delete_bill_endpoint_eq.
      destruct (verify_token now token d) as [info|] eqn:Hv;
        [|intros [= _ <-]; auto].
      destruct (get_bill_by_id id d) as [b|] eqn:Hb; [|intros [= _ <-]; auto].
      destruct (bool_decide (Db.user_id b = SText (ti_user_id info))) eqn:Ho;
        [|intros [= _ <-]; auto].
      intros [= <- <-]. right. right. left. exists token, id, info, b.
      apply bool_decide_eq_true_1 in Ho. auto 6.
    + intros H.
      destruct (upload_call_eq now (UploadQwenVl reply token id) token id _ d
                  eq_refl eq_refl) as [E | [_ E]];
        rewrite E in H; [|injection H as _ <-; auto].
      apply upload_with_cases in H
        as [(_ & _ & ->) | [(c0 & dt & ab & _ & _ & ->)
            | [(_ & _ & ->) | [(err & _ & ->) | H]]]]; auto.
      destruct H as (info & dict & x & row & _ & _ & Hb & _ & _ & _ & _ & _
                     & Hi & Hu & Ha & Hs & -> & _).
      right. left. exists row, id. repeat split; try assumption.
      exists id, (ti_user_id info). rewrite Ha. repeat split; try assumption.
      apply sql_float_cases.
    + intros H.
      destruct (upload_call_eq now (UploadBaiduQwen reply token id) token id _ d
                  eq_refl eq_refl) as [E | [_ E]];
        rewrite E in H; [|injection H as _ <-; auto].
      apply upload_with_cases in H
        as [(_ & _ & ->) | [(c0 & dt & ab & _ & _ & ->)
            | [(_ & _ & ->) | [(err & _ & ->) | H]]]]; auto.
      destruct H as (info & dict & x & row & _ & _ & Hb & _ & _ & _ & _ & _
                     & Hi & Hu & Ha & Hs & -> & _).
      right. left. exists row, id. repeat split; try assumption.
      exists id, (ti_user_id info). rewrite Ha. repeat split; try assumption.
      apply sql_float_cases.
    + intros H.
      destruct (upload_call_eq now (UploadLlm reply text token id) token id _ d
                  eq_refl eq_refl) as [E | [_ E]];
        rewrite E in H; [|injection H as _ <-; auto].
      apply upload_with_cases in H
        as [(_ & _ & ->) | [(c0 & dt & ab & _ & _ & ->)
            | [(_ & _ & ->) | [(err & _ & ->) | H]]]]; auto.
      destruct H as (info & dict & x & row & _ & _ & Hb & _ & _ & _ & _ & _
                     & Hi & Hu & Ha & Hs & -> & _).
      right. left. exists row, id. repeat split; try assumption.
      exists id, (ti_user_id info). rewrite Ha. repeat split; try assumption.
      apply sql_float_cases.
Qed.

(** *** [/register] and [/login] *)

(** X15.  The outcomes of [/register].  It fails with status 400 when the
    address is registered or the identifier asked for is in use, and with
    status 500 when no identifier is asked for and the one drawn is in
    use; a failure leaves the database as it was.  Otherwise it answers
    with the identifier (the one asked for, or the one drawn when none or
    the empty text is asked for), the address and the timestamp, and adds
    one user, without token, at the end of the table. *)
Theorem register_outcomes (env : environ) (now : datetime) (uuid : string)
    (request : RegisterRequest.t) (d d' : db) (r : result response) :
  register env now uuid request d = (r, d') ->
  let email := RegisterRequest.email request in
  let asked := str_or_none (RegisterRequest.user_id request) in
  match r with
  | Ok resp =>
      resp = RegisterResponse "ok" "用户注册成功"
               (default uuid asked, email, strftime now)
      /\ get_user_by_email email d = None
      /\ get_user_by_id (default uuid asked) d = None
      /\ bills d' = bills d
      /\ users d'
         = users d
           ++ [mk_user (default uuid asked) email
                 (_hash_password env (RegisterRequest.password request))
                 None None (Some (strftime now)) (Some (strftime now))]
  | Raise e =>
      d' = d
      /\ ((e = HTTPException 400 "" (Some ValueError)
           /\ (get_user_by_email email d <> None
               \/ exists id, asked = Some id /\ get_user_by_id id d <> None))
          \/ (e = HTTPException 500 "注册失败: " (Some IntegrityError)
              /\ asked = None
              /\ get_user_by_email email d = None
              /\ get_user_by_id uuid d <> None))
  end.
Proof.
  intros H email asked.
  apply register_cases in H
    as [(id & created & Hc & ->) | [(-> & Hc & ->) | (-> & Hc & ->)]].
  - apply create_user_ok_inv in Hc as (He & Hi & -> & _ & -> & ->).
    split; [reflexivity|].
    split; [unfold get_user_by_email; now rewrite existsb_find_none|].
    split; [unfold get_user_by_id; now rewrite existsb_find_none|].
    split; reflexivity.
  - split; [reflexivity|]. left. split; [reflexivity|].
    apply create_user_raise_inv in Hc as [[_ Hc] | [[=] _]]. exact Hc.
  - split; [reflexivity|]. right. split; [reflexivity|].
    apply create_user_raise_inv in Hc as [[[=] _] | [_ Hc]]. exact Hc.
Qed.

Lemma register_outcomes_witness :
  Sample.registered = Sample.registered
  /\ ((HTTPException 400 "" (Some ValueError) = HTTPException 400 "" (Some ValueError)
       /\ (get_user_by_email "alice@example.com" Sample.registered <> None
           \/ exists id, Some "al" = Some id
                         /\ get_user_by_id id Sample.registered <> None))
      \/ (HTTPException 400 "" (Some ValueError)
          = HTTPException 500 "注册失败: " (Some IntegrityError)
          /\ Some "al" = None
          /\ get_user_by_email "alice@example.com" Sample.registered = None
          /\ get_user_by_id "uuid-9" Sample.registered <> None)).
Proof.
  apply (register_outcomes Sample.env Sample.clock "uuid-9"
           (RegisterRequest.mk "alice@example.com" "other" (Some "al"))
           Sample.registered Sample.registered
           (Raise (HTTPException 400 "" (Some ValueError)))).
  reflexivity.
Defined.

Lemma verify_user_after_token (env : environ) (email password : string)
    (user_id token expires_at updated_at : string) (d : db) :
  option_map (fun u => (ui_user_id u, ui_email u))
    (verify_user env email password
       (set_users d
          (map (fun r => if String.eqb (u_user_id r) user_id
                         then with_token token expires_at updated_at r else r)
               (users d))))
  = option_map (fun u => (ui_user_id u, ui_email u))
      (verify_user env email password d).
Proof.
  unfold verify_user. cbn [users set_users].
  rewrite find_map_keep.
  - destruct (find _ (users d)) as [r|]; [|reflexivity]. simpl.
    destruct (String.eqb (u_user_id r) user_id); reflexivity.
  - intros r. destruct (String.eqb (u_user_id r) user_id); reflexivity.
Qed.

(** X16.  What [/login] leaves alone, and how it fails.  Whatever the
    outcome, the bills are as before and so are the identifiers, the
    addresses and the password digests of the users, so that a pair of
    address and password is verified after the request exactly when it
    was before, and as the same user.  A request whose address and
    password match no user fails with status 401; one at a date whose
    thirtieth day after is beyond the calendar fails with status 500; a
    failure leaves the database as it was. *)
Theorem login_outcomes (env : environ) (now : datetime) (token : string)
    (request : LoginRequest.t) (d d' : db) (r : result response) :
  login env now token request d = (r, d') ->
  bills d' = bills d
  /\ map u_user_id (users d') = map u_user_id (users d)
  /\ map u_email (users d') = map u_email (users d)
  /\ map u_password_hash (users d') = map u_password_hash (users d)
  /\ (forall email password,
        option_map (fun u => (ui_user_id u, ui_email u))
          (verify_user env email password d')
        = option_map (fun u => (ui_user_id u, ui_email u))
            (verify_user env email password d))
  /\ match r with
     | Ok _ =>
         verify_user env (LoginRequest.email request)
           (LoginRequest.password request) d <> None
     | Raise e =>
         d' = d
         /\ ((e = HTTPException 401 "邮箱或密码错误" None
              /\ verify_user env (LoginRequest.email request)
                   (LoginRequest.password request) d = None)
             \/ (e = HTTPException 500 "登录失败: " (Some OverflowError)
                 /\ add_days now 30 = None))
     end.
Proof.
  intros H. apply login_cases in H
    as [(Hv & -> & ->) | [(user & Hv & Ha & -> & ->)
        | (user & e & Hv & Ha & -> & ->)]].
  - repeat split; auto.
  - repeat split; auto.
  - cbn [bills users set_users]. rewrite !map_map.
    split; [reflexivity|].
    split; [apply map_ext; intros x; now destruct (String.eqb _ _)|].
    split; [apply map_ext; intros x; now destruct (String.eqb _ _)|].
    split; [apply map_ext; intros x; now destruct (String.eqb _ _)|].
    split; [intros; apply verify_user_after_token|].
    rewrite Hv. discriminate.
Qed.

Lemma login_outcomes_witness :
  bills Sample.registered = bills Sample.registered
  /\ map u_user_id (users Sample.registered) = map u_user_id (users Sample.registered)
  /\ map u_email (users Sample.registered) = map u_email (users Sample.registered)
  /\ map u_password_hash (users Sample.registered)
     = map u_password_hash (users Sample.registered)
  /\ (forall email password,
        option_map (fun u => (ui_user_id u, ui_email u))
          (verify_user Sample.env email password Sample.registered)
        = option_map (fun u => (ui_user_id u, ui_email u))
            (verify_user Sample.env email password Sample.registered))
  /\ Sample.registered = Sample.registered
  /\ ((HTTPException 401 "邮箱或密码错误" None = HTTPException 401 "邮箱或密码错误" None
       /\ verify_user Sample.env "alice@example.com" "a-guess" Sample.registered
          = None)
      \/ (HTTPException 401 "邮箱或密码错误" None
          = HTTPException 500 "登录失败: " (Some OverflowError)
          /\ add_days Sample.clock 30 = None)).
Proof.
  apply (login_outcomes Sample.env Sample.clock "token-1"
           (LoginRequest.mk "alice@example.com" "a-guess")
           Sample.registered Sample.registered
           (Raise (HTTPException 401 "邮箱或密码错误" None))).
  reflexivity.
Defined.

(** The verification of a token that a login has just stored. *)
Lemma verify_token_after_login (now e t : datetime) (token user_id : string)
    (d : db) (row : user) :
  token <> HARDCODED_TOKEN ->
  (forall r, In r (users d) -> u_token r <> Some token) ->
  find (fun r => String.eqb (u_user_id r) user_id) (users d) = Some row ->
  valid e = true ->
  verify_token t token
    (set_users d
       (map (fun r => if String.eqb (u_user_id r) user_id
                      then with_token token (strftime e) (strftime now) r else r)
            (users d)))
  = if gt t (whole_second e) then None
    else Some (mk_token_info (u_user_id row) (u_email row)
                 (str_or_none (u_created_at row))
                 (Some (strftime now)) true (Some (strftime e))).
Proof.
  intros Hhard Hfresh Hrow Hve. unfold verify_token.
  rewrite (proj2 (String.eqb_neq _ _) Hhard). cbn [users set_users].
  rewrite find_token_after_update by assumption. rewrite Hrow.
  cbn [option_map with_token u_token_expires_at u_user_id u_email
       u_created_at u_updated_at str_or_none].
  rewrite !strftime_nonempty, (strptime_strftime e Hve). reflexivity.
Qed.

(** A date is not later than the whole second thirty days after it. *)
Lemma not_gt_thirty_days_later (now e : datetime) :
  valid now = true -> valid e = true ->
  toordinal e = toordinal now + 30 ->
  hour e = hour now -> minute e = minute now -> second e = second now ->
  gt now (whole_second e) = false.
Proof.
  intros Hv Hve Hord Hh Hmi Hs.
  pose proof (gt_timestamp now (whole_second e) Hv (valid_whole_second e Hve)) as Hgt.
  destruct (gt now (whole_second e)); [|reflexivity].
  assert (Hlt : timestamp (whole_second e) < timestamp now) by now apply Hgt.
  rewrite timestamp_whole_second in Hlt. unfold timestamp in Hlt.
  rewrite Hord, Hh, Hmi, Hs in Hlt.
  unfold valid in Hv, Hve. apply andb_prop in Hv as [_ Ht], Hve as [_ Hte].
  apply valid_time_inv in Ht, Hte. lia.
Qed.

(** X17.  Registering, then logging in.  Once [/register] has accepted a
    request, [/login] with the same address and password succeeds,
    whatever was registered before, provided the thirtieth day after the
    login is in the calendar; the user it reports is the one registered,
    with an expiry that is still the old one, here none.  If the token
    drawn is not the hard-coded one and no user holds it, [/verify_token]
    then finds it valid, with the thirtieth day as expiry, and
    [verify_token] resolves it to the registered user at any time it
    accepts it.  The bills are untouched. *)
Theorem register_then_login (env : environ) (t0 t1 : datetime)
    (uuid token : string) (request : RegisterRequest.t) (d d1 : db)
    (resp : response) :
  register env t0 uuid request d = (Ok resp, d1) ->
  valid t1 = true ->
  toordinal t1 + 30 <= MAXORDINAL ->
  token <> HARDCODED_TOKEN ->
  (forall r, In r (users d) -> u_token r <> Some token) ->
  exists (id : string) (e : datetime) (d2 : db),
    resp = RegisterResponse "ok" "用户注册成功"
             (id, RegisterRequest.email request, strftime t0)
    /\ login env t1 token
         (LoginRequest.mk (RegisterRequest.email request)
            (RegisterRequest.password request)) d1
       = (Ok (LoginResponse "ok" "登录成功"
                (mk_user_info id (RegisterRequest.email request) (Some token) None
                   (Some (strftime t0)) (Some (strftime t0)))),
          d2)
    /\ add_days t1 30 = Some e
    /\ verify_token_endpoint t1 token d2
       = (Ok (TokenVerifyResponse "ok" true "Token有效" (Some (strftime e))), d2)
    /\ (forall t info, verify_token t token d2 = Some info ->
          ti_user_id info = id /\ ti_email info = RegisterRequest.email request)
    /\ bills d2 = bills d.
Proof.
  intros H Hv Hmax Hhard Hfresh.
  apply register_cases in H
    as [(id & created & Hc & [= ->]) | [(_ & _ & [=]) | (_ & _ & [=])]].
  apply create_user_ok_inv in Hc as (He & Hi & _ & _ & -> & ->).
  destruct (add_days_spec t1 30 Hv ltac:(lia) Hmax)
    as (e & Ha & Hve & Hord & Hh & Hmi & Hs & _).
  set (row := mk_user id (RegisterRequest.email request)
                (_hash_password env (RegisterRequest.password request))
                None None (Some (strftime t0)) (Some (strftime t0))).
  set (d1 := set_users d (users d ++ [row])).
  assert (Hu : verify_user env (RegisterRequest.email request)
                 (RegisterRequest.password request) d1
               = Some (mk_user_info id (RegisterRequest.email request) None None
                         (Some (strftime t0)) (Some (strftime t0)))).
  { unfold verify_user, d1. cbn [users set_users].
    rewrite (find_app_last _ _ row); [reflexivity| |].
    - apply not_true_is_false. intros Hx.
      apply existsb_exists in Hx as (x & Hin & Hx).
      apply andb_prop in Hx as [Hx _].
      assert (Hy : existsb (fun r => String.eqb (u_email r)
                                       (RegisterRequest.email request)) (users d)
                   = true) by (apply existsb_exists; eauto).
      congruence.
    - simpl. now rewrite !String.eqb_refl. }
  assert (Hrow : find (fun r => String.eqb (u_user_id r) id) (users d1) = Some row).
  { unfold d1. cbn [users set_users]. apply find_app_last; [assumption|].
    simpl. apply String.eqb_refl. }
  assert (Hfresh1 : forall r, In r (users d1) -> u_token r <> Some token).
  { unfold d1. cbn [users set_users]. intros r Hr.
    apply in_app_or in Hr as [Hr | [<- | []]]; [auto|discriminate]. }
  eexists id, e, _.
  split; [reflexivity|].
  split.
  { exact (login_eq env t1 e token
             (LoginRequest.mk (RegisterRequest.email request)
                (RegisterRequest.password request)) d1 _ Hu Ha). }
  split; [exact Ha|]. cbn [ui_user_id].
  split.
  { unfold verify_token_endpoint, mbind, M_bind, query.
    rewrite (verify_token_after_login t1 e t1 token id d1 row) by assumption.
    rewrite (not_gt_thirty_days_later t1 e) by assumption. reflexivity. }
  split; [|reflexivity].
  intros t info.
  rewrite (verify_token_after_login t1 e t token id d1 row) by assumption.
  destruct (gt t (whole_second e)); [discriminate|].
  intros [= <-]. split; reflexivity.
Qed.

Lemma register_then_login_witness :
  exists (id : string) (e : datetime) (d2 : db),
    RegisterResponse "ok" "用户注册成功"
      ("alice", "alice@example.com", "2024-02-29 23:59:58")
    = RegisterResponse "ok" "用户注册成功"
        (id, RegisterRequest.email Sample.alice, strftime Sample.clock)
    /\ login Sample.env Sample.clock "token-1"
         (LoginRequest.mk (RegisterRequest.email Sample.alice)
            (RegisterRequest.password Sample.alice)) Sample.registered
       = (Ok (LoginResponse "ok" "登录成功"
                (mk_user_info id (RegisterRequest.email Sample.alice)
                   (Some "token-1") None
                   (Some (strftime Sample.clock)) (Some (strftime Sample.clock)))),
          d2)
    /\ add_days Sample.clock 30 = Some e
    /\ verify_token_endpoint Sample.clock "token-1" d2
       = (Ok (TokenVerifyResponse "ok" true "Token有效" (Some (strftime e))), d2)
    /\ (forall t info, verify_token t "token-1" d2 = Some info ->
          ti_user_id info = id
          /\ ti_email info = RegisterRequest.email Sample.alice)
    /\ bills d2 = bills Sample.empty.
Proof.
  apply (register_then_login Sample.env Sample.clock Sample.clock "uuid-1" "token-1"
           Sample.alice Sample.empty Sample.registered).
  - reflexivity.
  - reflexivity.
  - vm_compute. discriminate.
  - discriminate.
  - intros r [].
Defined.

(** *** Tokens and their expiry *)

Lemma strptime_valid (s : string) (e : datetime) :
  strptime s = Some e -> valid e = true.
Proof.
  unfold strptime. destruct (re_datetime s) as [|[t r] tl]; [discriminate|].
  destruct r; [|discriminate].
  destruct (valid t) eqn:Hv; [|discriminate]. now intros [= <-].
Qed.

(** X18.  The expiry of a token is enforced to the microsecond.  Let a
    token other than the hard-coded one be held by one user, with an
    expiry text that is not empty.  It is accepted exactly when
    [strptime] reads the text and the clock is not past the instant
    read: a text that is not a timestamp makes the token invalid, not
    eternal.  [/verify_token] answers accordingly, without raising, and
    returns the expiry text as stored; an accepted token resolves to the
    user that holds it. *)
Theorem token_expiry_is_enforced (now : datetime) (d : db) (row : user)
    (token s : string) :
  token <> HARDCODED_TOKEN ->
  In row (users d) ->
  u_token row = Some token ->
  (forall r, In r (users d) -> u_token r = Some token -> r = row) ->
  u_token_expires_at row = Some s ->
  s <> "" ->
  valid now = true ->
  (is_Some (verify_token now token d)
   <-> exists e, strptime s = Some e /\ timestamp now <= timestamp e)
  /\ verify_token_endpoint now token d
     = (Ok (if bool_decide (is_Some (verify_token now token d))
            then TokenVerifyResponse "ok" true "Token有效" (Some s)
            else TokenVerifyResponse "ok" false "Token无效或已过期" None), d)
  /\ (forall info, verify_token now token d = Some info ->
        ti_user_id info = u_user_id row /\ ti_email info = u_email row).
Proof.
  intros Hhard Hin Ht Hu He Hs Hv.
  assert (E : verify_token now token d
              = match strptime s with
                | Some e =>
                    if gt now e then None
                    else Some (mk_token_info (u_user_id row) (u_email row)
                                 (str_or_none (u_created_at row))
                                 (str_or_none (u_updated_at row)) true (Some s))
                | None => None
                end).
  { unfold verify_token. rewrite (proj2 (String.eqb_neq _ _) Hhard).
    rewrite (find_unique _ _ row Hin).
    - rewrite He. cbn [str_or_none].
      rewrite (proj2 (String.eqb_neq _ _) Hs). reflexivity.
    - now apply bool_decide_eq_true_2.
    - intros r Hr Hf. apply bool_decide_eq_true_1 in Hf. auto. }
  split; [|split].
  - rewrite E. destruct (strptime s) as [e|] eqn:Hp.
    + pose proof (gt_timestamp now e Hv (strptime_valid s e Hp)) as Hgt.
      destruct (gt now e); split.
      * intros [x Hx]. discriminate Hx.
      * intros (e' & [= <-] & Hle).
        assert (timestamp e < timestamp now) by now apply Hgt. lia.
      * intros _. exists e. split; [reflexivity|].
        destruct (Z.le_gt_cases (timestamp now) (timestamp e)); [assumption|].
        assert (false = true) by (apply Hgt; lia). discriminate.
      * eauto.
    + split; [intros [x Hx]; discriminate Hx|intros (e & [=] & _)].
  - unfold verify_token_endpoint, mbind, M_bind, query.
    rewrite E. destruct (strptime s) as [e|]; [|reflexivity].
    destruct (gt now e); reflexivity.
  - intros info. rewrite E. destruct (strptime s) as [e|]; [|discriminate].
    destruct (gt now e); [discriminate|]. intros [= <-]. split; reflexivity.
Qed.

Lemma token_expiry_is_enforced_witness :
  (is_Some (verify_token Sample.clock "token-of-dave" (mk_db [] [Demo.dave]))
   <-> exists e, strptime "2024-03-01 00:00:00" = Some e
                 /\ timestamp Sample.clock <= timestamp e)
  /\ verify_token_endpoint Sample.clock "token-of-dave" (mk_db [] [Demo.dave])
     = (Ok (if bool_decide
                 (is_Some (verify_token Sample.clock "token-of-dave"
                             (mk_db [] [Demo.dave])))
            then TokenVerifyResponse "ok" true "Token有效"
                   (Some "2024-03-01 00:00:00")
            else TokenVerifyResponse "ok" false "Token无效或已过期" None),
        mk_db [] [Demo.dave])
  /\ (forall info,
        verify_token Sample.clock "token-of-dave" (mk_db [] [Demo.dave]) = Some info ->
        ti_user_id info = u_user_id Demo.dave /\ ti_email info = u_email Demo.dave).
Proof.
  apply (token_expiry_is_enforced Sample.clock (mk_db [] [Demo.dave]) Demo.dave
           "token-of-dave" "2024-03-01 00:00:00").
  - discriminate.
  - simpl. auto.
  - reflexivity.
  - simpl. intros r [<- | []] _. reflexivity.
  - reflexivity.
  - discriminate.
  - reflexivity.
Defined.

(** *** Storing a bill, then deleting it *)

Lemma verify_token_same_info (t1 t2 : datetime) (token : string) (d : db)
    (i1 i2 : token_info) :
  verify_token t1 token d = Some i1 -> verify_token t2 token d = Some i2 -> i1 = i2.
Proof.
  unfold verify_token. destruct (String.eqb token HARDCODED_TOKEN); [congruence|].
  destruct (find _ (users d)) as [row|]; [|discriminate].
  destruct (str_or_none (u_token_expires_at row)) as [s|]; [|congruence].
  destruct (strptime s) as [e|]; [|discriminate].
  destruct (gt t1 e); [discriminate|]. destruct (gt t2 e); [discriminate|].
  congruence.
Qed.

Lemma filter_app_last {A} (f : A -> bool) (l : list A) (x : A) :
  existsb f l = false -> f x = true ->
  List.filter (fun y => negb (f y)) (l ++ [x]) = l.
Proof.
  induction l as [|y l IH]; simpl; intros He Hx.
  - now rewrite Hx.
  - apply orb_false_elim in He as [Hy He]. rewrite Hy. simpl. f_equal. auto.
Qed.

(** [/delete_bill] on the bill that has just been stored at the end of
    the table. *)
Lemma delete_after_store (now : datetime) (token id : string) (d : db) (row : bill)
    (info : token_info) :
  Db.bill_id row = SText id ->
  stored id d = false ->
  verify_token now token d = Some info ->
  delete_bill_endpoint now (DeleteBillRequest.mk token id)
    (set_bills d (bills d ++ [row]))
  = if bool_decide (Db.user_id row = SText (ti_user_id info))
    then (Ok (DeleteBillResponse "ok" "账单删除成功"), d)
    else (Raise (HTTPException 403 "无权删除该账单" None),
          set_bills d (bills d ++ [row])).
Proof.
  intros Hi Hs Hv. rewrite delete_bill_endpoint_eq.
  rewrite (verify_token_users now token d (set_bills d (bills d ++ [row])))
    by reflexivity.
  rewrite Hv.
  assert (He : existsb (fun r => bool_decide (Db.bill_id r = SText id)) (bills d)
               = false).
  { rewrite <- Hs. apply existsb_same. intros r. symmetry. apply collides_text. }
  assert (Hx : bool_decide (Db.bill_id row = SText id) = true)
    by now apply bool_decide_eq_true_2.
  unfold get_bill_by_id. cbn [bills set_bills].
  rewrite (find_app_last _ _ row He Hx).
  destruct (bool_decide (Db.user_id row = SText (ti_user_id info))); [|reflexivity].
  unfold delete_bill. cbn [snd bills set_bills users].
  rewrite (filter_app_last _ _ row He Hx). now destruct d.
Qed.

(** X19.  An upload can be undone.  After a successful upload, a
    [/delete_bill] request with the same token and identifier, made while
    the token is still accepted, succeeds and returns the database to
    what it was before the upload. *)
Theorem upload_then_delete (now later : datetime) (c : call)
    (token bill_id : string) (d d1 : db) (res : pyval) :
  upload_target c = Some (token, bill_id) ->
  run now c d = (Ok (JSONResponse (StatusOk res)), d1) ->
  verify_token later token d <> None ->
  run later (DeleteBill (DeleteBillRequest.mk token bill_id)) d1
  = (Ok (DeleteBillResponse "ok" "账单删除成功"), d).
Proof.
  intros Ht H Hl.
  assert (exists parse, upload_parse c = Some parse) as [parse Hp]
    by (destruct c; simpl in *; try discriminate; eauto).
  destruct (upload_call_eq now c token bill_id parse d Ht Hp) as [E | [_ E]];
    rewrite E in H; [|discriminate].
  apply upload_with_cases in H
    as [(_ & ? & _) | [(c0 & dt & ab & _ & ? & _)
        | [(_ & ? & _) | [(err & ? & _) | H]]]]; try discriminate.
  destruct H as (info & dict & x & row & Hv & _ & _ & _ & _ & _ & _ & _
                 & Hi & Hu & _ & Hs & -> & _).
  destruct (verify_token later token d) as [info'|] eqn:Hv'; [|contradiction].
  simpl. rewrite (delete_after_store later token bill_id d row info' Hi Hs Hv').
  rewrite (verify_token_same_info now later token d info info' Hv Hv') in Hu.
  now rewrite bool_decide_eq_true_2.
Qed.

Lemma upload_then_delete_witness :
  run Sample.clock (DeleteBill (DeleteBillRequest.mk HARDCODED_TOKEN "b7"))
    Demo.uploaded
  = (Ok (DeleteBillResponse "ok" "账单删除成功"), Sample.empty).
Proof.
  apply (upload_then_delete Sample.clock Sample.clock
           (UploadQwenVl (Ok Demo.receipt) HARDCODED_TOKEN "b7")
           HARDCODED_TOKEN "b7" Sample.empty Demo.uploaded
           (VDict (<[ "amount" := VStr "12.35" ]>
                     (<[ "amount" := VFloat (FFin false 6949617174986097 (-49)) ]>
                        {[ "category" := VStr "餐饮" ]})))).
  - reflexivity.
  - vm_compute. reflexivity.
  - discriminate.
Defined.

(** X20.  Who can delete a manual entry.  [/manual_bill] stores the bill
    for the user the request names, whoever sends it; afterwards a
    [/delete_bill] request with an accepted token deletes it, returning
    the database to what it was, exactly when the token is one of that
    user, and is refused with status 403 otherwise. *)
Theorem manual_then_delete (now later : datetime) (request : ManualBillRequest.t)
    (token : string) (info : token_info) (d d1 : db) (r : response) :
  manual_bill now request d = (Ok r, d1) ->
  verify_token later token d = Some info ->
  delete_bill_endpoint later
    (DeleteBillRequest.mk token (BillData.bill_id (ManualBillRequest.bill request)))
    d1
  = if bool_decide (ti_user_id info = ManualBillRequest.user_id request)
    then (Ok (DeleteBillResponse "ok" "账单删除成功"), d)
    else (Raise (HTTPException 403 "无权删除该账单" None), d1).
Proof.
  intros H Hv. apply manual_bill_ok_inv in H as (a & _ & Hs & ->).
  rewrite (delete_after_store later token _ d (manual_row request a) info
             eq_refl Hs Hv).
  cbn [manual_row Db.user_id].
  destruct (bool_decide_reflect (ti_user_id info = ManualBillRequest.user_id request))
    as [E|E].
  - rewrite bool_decide_eq_true_2; [reflexivity|congruence].
  - rewrite bool_decide_eq_false_2; [reflexivity|congruence].
Qed.

Lemma manual_then_delete_witness :
  delete_bill_endpoint Sample.clock (DeleteBillRequest.mk HARDCODED_TOKEN "b1")
    Sample.one_bill
  = (Raise (HTTPException 403 "无权删除该账单" None), Sample.one_bill).
Proof.
  apply (manual_then_delete Sample.clock Sample.clock (Sample.lunch "12.345" None)
           HARDCODED_TOKEN
           (mk_token_info "token" "token@test.com" None None true None)
           Sample.empty Sample.one_bill
           (ManualBillResponse "ok" "账单保存成功" (Some "b1"))).
  - vm_compute. reflexivity.
  - reflexivity.
Defined.

(** *** Sequences of requests *)

Lemma after_cons (env : environ) (now : datetime) (ev : event)
    (log : list (datetime * event)) (d : db) :
  after env ((now, ev) :: log) d = after env log (snd (handle env now ev d)).
Proof. reflexivity. Qed.

Lemma NoDup_map_snoc {A B} (k : A -> B) (l : list A) (x : A) :
  NoDup (map k l) -> (forall y, In y l -> k y <> k x) -> NoDup (map k (l ++ [x])).
Proof.
  intros Hn Hx. rewrite map_app. apply NoDup_app. split; [assumption|]. split.
  - intros b Hb Hb'. simpl in Hb'. apply list_elem_of_In in Hb, Hb'.
    destruct Hb' as [<- | []]. apply in_map_iff in Hb as (y & Hy & Hin).
    exact (Hx y Hin Hy).
  - simpl. apply NoDup_singleton.
Qed.

Lemma NoDup_map_filter {A B} (k : A -> B) (f : A -> bool) (l : list A) :
  NoDup (map k l) -> NoDup (map k (List.filter f l)).
Proof.
  induction l as [|x l IH]; simpl; intros Hn; [assumption|].
  apply NoDup_cons in Hn as [Hx Hl].
  destruct (f x); simpl; [|auto].
  apply NoDup_cons. split; [|auto].
  intros Hin. apply Hx. apply list_elem_of_In in Hin. apply list_elem_of_In.
  apply in_map_iff in Hin as (y & Hy & Hin). apply filter_In in Hin as [Hin _].
  apply in_map_iff. eauto.
Qed.

Lemma Forall_filter_keep {A} (P : A -> Prop) (f : A -> bool) (l : list A) :
  Forall P l -> Forall P (List.filter f l).
Proof.
  intros H. apply List.Forall_forall. intros x Hx.
  apply filter_In in Hx as [Hx _].
  exact (proj1 (List.Forall_forall P l) H x Hx).
Qed.

Lemma existsb_false_In {A} (f : A -> bool) (l : list A) (x : A) :
  existsb f l = false -> In x l -> f x = false.
Proof.
  intros He Hin. apply not_true_is_false. intros Hx.
  assert (existsb f l = true) by (apply existsb_exists; eauto). congruence.
Qed.

(** One request keeps the database consistent. *)
Lemma handle_consistent (env : environ) (now : datetime) (ev : event) (d : db) :
  consistent d -> consistent (snd (handle env now ev d)).
Proof.
  intros [Hb Hbo Hu He Huo].
  destruct (handle env now ev d) as [r d'] eqn:H. cbn [snd].
  apply handle_effect in H
    as [-> | [(row & id & -> & Hi & Hs & Hok)
        | [(token & id & info & b & _ & _ & _ & _ & _ & ->)
        | [(row & -> & Hem & Hid & Ht)
        | (uid & token & ex & up & -> & Hex)]]]].
  - now constructor.
  - constructor; cbn [bills users set_bills]; try assumption.
    + apply NoDup_map_snoc; [assumption|]. intros y Hy E.
      pose proof (existsb_false_In _ _ y Hs Hy) as Hc. cbn beta in Hc.
      rewrite collides_text, bool_decide_eq_true_2 in Hc; congruence.
    + apply Forall_app. split; [assumption|]. now constructor.
  - constructor; unfold delete_bill; cbn [snd bills users set_bills];
      try assumption.
    + now apply NoDup_map_filter.
    + now apply Forall_filter_keep.
  - constructor; cbn [bills users set_users]; try assumption.
    + apply NoDup_map_snoc; [assumption|]. intros y Hy E.
      pose proof (existsb_false_In _ _ y Hid Hy) as Hc. cbn beta in Hc.
      apply String.eqb_neq in Hc. contradiction.
    + apply NoDup_map_snoc; [assumption|]. intros y Hy E.
      pose proof (existsb_false_In _ _ y Hem Hy) as Hc. cbn beta in Hc.
      apply String.eqb_neq in Hc. contradiction.
    + apply Forall_app. split; [assumption|]. constructor; [|constructor].
      intros Hn. contradiction.
  - constructor; cbn [bills users set_users]; try assumption.
    + rewrite map_map.
      erewrite map_ext; [exact Hu|].
      intros x. cbn beta. now destruct (String.eqb (u_user_id x) uid).
    + rewrite map_map.
      erewrite map_ext; [exact He|].
      intros x. cbn beta. now destruct (String.eqb (u_user_id x) uid).
    + apply List.Forall_forall. intros x Hx.
      apply in_map_iff in Hx as (y & <- & Hy).
      destruct (String.eqb (u_user_id y) uid).
      * intros _. exists ex. split; [reflexivity|assumption].
      * exact (proj1 (List.Forall_forall _ _) Huo y Hy).
Qed.

(** X21.  No sequence of requests to the routes of the service breaks
    the consistency of the database: the bills keep distinct identifiers,
    each a text that is not empty, a textual owner and an amount that is
    a float or NULL; the users keep distinct identifiers and distinct
    addresses; and a user who holds a token holds an expiry for it, so
    that the requests never produce a token that does not expire. *)
Theorem requests_keep_the_database_consistent (env : environ)
    (log : list (datetime * event)) (d : db) :
  consistent d -> consistent (after env log d).
Proof.
  revert d. induction log as [|[now ev] log IH]; intros d H; [exact H|].
  rewrite after_cons. apply IH. now apply handle_consistent.
Qed.

Lemma requests_keep_the_database_consistent_witness :
  consistent (after Sample.env Demo.session Sample.empty).
Proof.
  apply (requests_keep_the_database_consistent Sample.env Demo.session Sample.empty).
  constructor; simpl; constructor.
Defined.

(** A bill found under an identifier before a request is found there
    unchanged after it, unless the request is a [/delete_bill] for that
    identifier that succeeds, with a token of the owner of the bill. *)
Lemma handle_keeps_bill (env : environ) (now : datetime) (ev : event)
    (d d' : db) (r : result response) (id : string) (b : bill) :
  handle env now ev d = (r, d') ->
  get_bill_by_id id d = Some b ->
  get_bill_by_id id d' = Some b
  \/ exists token info,
       ev = Bill (DeleteBill (DeleteBillRequest.mk token id))
       /\ r = Ok (DeleteBillResponse "ok" "账单删除成功")
       /\ verify_token now token d = Some info
       /\ Db.user_id b = SText (ti_user_id info)
       /\ get_bill_by_id id d' = None.
Proof.
  intros H Hb.
  apply handle_effect in H
    as [-> | [(row & id0 & -> & _ & _ & _)
        | [(token & id0 & info & b0 & -> & Hv & Hb0 & Ho & -> & ->)
        | [(row & -> & _) | (uid & token & ex & up & -> & _)]]]]; auto.
  - left. unfold get_bill_by_id in *. cbn [bills set_bills].
    revert Hb. generalize (bills d) as l. induction l as [|x l IH]; simpl;
      [discriminate|].
    destruct (bool_decide (Db.bill_id x = SText id)); auto.
  - destruct (String.eqb_spec id0 id) as [-> | Hne].
    + right. exists token, info. rewrite Hb in Hb0. injection Hb0 as <-.
      repeat split; try assumption. apply delete_bill_gone.
    + left. rewrite <- Hb. unfold get_bill_by_id, delete_bill.
      cbn [snd bills set_bills]. apply find_filter_other.
      intros x Hx. apply bool_decide_eq_true_1 in Hx.
      apply negb_true_iff, bool_decide_eq_false_2. congruence.
Qed.

(** X22.  Only the owner makes a bill disappear.  Let a bill be stored
    under an identifier.  After any sequence of requests it is still
    found there, unchanged, unless the sequence has a [/delete_bill]
    request for that identifier, made when the bill was still stored, with
    a token accepted at that moment as one of the user who owns the
    bill. *)
Theorem stored_bills_are_kept (env : environ) (log : list (datetime * event))
    (d : db) (id : string) (b : bill) :
  get_bill_by_id id d = Some b ->
  get_bill_by_id id (after env log d) = Some b
  \/ exists pre now token post info,
       log = pre ++ (now, Bill (DeleteBill (DeleteBillRequest.mk token id))) :: post
       /\ get_bill_by_id id (after env pre d) = Some b
       /\ verify_token now token (after env pre d) = Some info
       /\ Db.user_id b = SText (ti_user_id info).
Proof.
  revert d. induction log as [|[now ev] log IH]; intros d Hb; [now left|].
  rewrite after_cons.
  destruct (handle env now ev d) as [r d1] eqn:H. cbn [snd].
  destruct (handle_keeps_bill env now ev d d1 r id b H Hb)
    as [Hb1 | (token & info & -> & _ & Hv & Ho & _)].
  - destruct (IH d1 Hb1) as [Hk | (pre & now' & token & post & info & -> & Hp & Hv & Ho)];
      [now left|].
    right. exists ((now, ev) :: pre), now', token, post, info.
    rewrite after_cons, H. cbn [snd]. auto.
  - right. exists [], now, token, log, info. auto.
Qed.

Lemma stored_bills_are_kept_witness :
  get_bill_by_id "b1" (after Sample.env Demo.session Sample.one_bill)
  = Some Demo.lunch_row
  \/ exists pre now token post info,
       Demo.session
       = pre ++ (now, Bill (DeleteBill (DeleteBillRequest.mk token "b1"))) :: post
       /\ get_bill_by_id "b1" (after Sample.env pre Sample.one_bill)
          = Some Demo.lunch_row
       /\ verify_token now token (after Sample.env pre Sample.one_bill) = Some info
       /\ Db.user_id Demo.lunch_row = SText (ti_user_id info).
Proof.
  apply (stored_bills_are_kept Sample.env Demo.session Sample.one_bill "b1"
           Demo.lunch_row).
  reflexivity.
Defined.

Lemma find_app_some {A} (f : A -> bool) (l k : list A) (x : A) :
  find f l = Some x -> find f (l ++ k) = Some x.
Proof.
  induction l as [|y l IH]; simpl; [discriminate|].
  destruct (f y); auto.
Qed.

(** One request keeps every account, with its address and password. *)
Lemma handle_keeps_account (env : environ) (now : datetime) (ev : event) (d : db)
    (email password : string) (p : string * string) :
  option_map (fun u => (ui_user_id u, ui_email u)) (verify_user env email password d)
  = Some p ->
  option_map (fun u => (ui_user_id u, ui_email u))
    (verify_user env email password (snd (handle env now ev d)))
  = Some p.
Proof.
  intros Hu.
  destruct (handle env now ev d) as [r d'] eqn:H. cbn [snd].
  apply handle_effect in H
    as [-> | [(row & id & -> & _)
        | [(token & id & info & b & _ & _ & _ & _ & _ & ->)
        | [(row & -> & _)
        | (uid & token & ex & up & -> & _)]]]]; try exact Hu.
  - unfold verify_user in *. cbn [users set_users].
    destruct (find _ (users d)) as [x|] eqn:Hf; [|discriminate].
    now rewrite (find_app_some _ _ [row] x Hf).
  - now rewrite verify_user_after_token.
Qed.

(** X23.  No request closes an account or changes its password.  An
    address and a password that [verify_user] accepts are accepted, as
    the same user, after any sequence of requests to the routes of the
    service. *)
Theorem accounts_outlive_requests (env : environ) (log : list (datetime * event))
    (d : db) (email password : string) (u : user_info) :
  verify_user env email password d = Some u ->
  exists u',
    verify_user env email password (after env log d) = Some u'
    /\ ui_user_id u' = ui_user_id u
    /\ ui_email u' = ui_email u.
Proof.
  intros Hu.
  assert (H : option_map (fun u => (ui_user_id u, ui_email u))
                (verify_user env email password (after env log d))
              = Some (ui_user_id u, ui_email u)).
  { assert (H0 : option_map (fun u => (ui_user_id u, ui_email u))
                   (verify_user env email password d)
                 = Some (ui_user_id u, ui_email u)) by now rewrite Hu.
    clear Hu. revert d H0.
    induction log as [|[now ev] log IH]; intros d H0; [exact H0|].
    rewrite after_cons. apply IH. now apply handle_keeps_account. }
  destruct (verify_user env email password (after env log d)) as [u'|];
    [|discriminate].
  injection H as H1 H2. eauto.
Qed.

Lemma accounts_outlive_requests_witness :
  exists u',
    verify_user Sample.env "alice@example.com" "a-secret"
      (after Sample.env Demo.session Sample.registered) = Some u'
    /\ ui_user_id u' = ui_user_id Sample.alice_info
    /\ ui_email u' = ui_email Sample.alice_info.
Proof.
  apply (accounts_outlive_requests Sample.env Demo.session Sample.registered
           "alice@example.com" "a-secret" Sample.alice_info).
  reflexivity.
Defined.
